(** * misis-id: the session client of the MISIS personal-account portal

    A shallow embedding of [misis_id/client.py], [misis_id/models.py] and
    [misis_id/exceptions.py], and the properties of the authentication
    state machine, the retry loop and the profile parser.

    Python text ([str]) is a list of Unicode code points; the effects of the
    client (the network, [asyncio.sleep], the mutable [SessionInfo] objects
    and the attributes of [MisisClient]) are threaded through a state and
    exception monad. *)

From Stdlib Require Import ZArith NArith Lia Ascii String DecimalString.
From stdpp Require Import base option list strings gmap.

Local Open Scope Z_scope.
Set Warnings "-register-all".

(** ** Python strings *)

(** A Python [str]: a sequence of code points. *)
Abbreviation pystr := (list N).

Module Str.

(** Decoding of the UTF-8 bytes of a literal of this file into code
    points, so that the Cyrillic literals of the source can be written
    as they are. *)
Fixpoint utf8_decode (bs : list N) : pystr :=
  match bs with
  | [] => []
  | b0 :: r =>
    if (b0 <? 128)%N then b0 :: utf8_decode r
    else if (b0 <? 224)%N then
      match r with
      | b1 :: r1 =>
        N.lor (N.shiftl (N.land b0 31) 6) (N.land b1 63) :: utf8_decode r1
      | _ => []
      end
    else if (b0 <? 240)%N then
      match r with
      | b1 :: b2 :: r2 =>
        N.lor (N.shiftl (N.land b0 15) 12)
          (N.lor (N.shiftl (N.land b1 63) 6) (N.land b2 63)) :: utf8_decode r2
      | _ => []
      end
    else
      match r with
      | b1 :: b2 :: b3 :: r3 =>
        N.lor (N.shiftl (N.land b0 7) 18)
          (N.lor (N.shiftl (N.land b1 63) 12)
             (N.lor (N.shiftl (N.land b2 63) 6) (N.land b3 63))) :: utf8_decode r3
      | _ => []
      end
  end.

Fixpoint bytes_of (s : string) : list N :=
  match s with
  | EmptyString => []
  | String a s' => Ascii.N_of_ascii a :: bytes_of s'
  end.

(** [lit "..."] is the Python literal ["..."]. *)
Definition lit (s : string) : pystr := utf8_decode (bytes_of s).
Arguments lit : simpl never.

(** [str.isspace] of one character: the code points CPython's
    [_PyUnicode_IsWhitespace] accepts. *)
Definition isspace (c : N) : bool :=
  ((9 <=? c) && (c <=? 13) || (28 <=? c) && (c <=? 32)
   || (c =? 133) || (c =? 160) || (c =? 5760)
   || (8192 <=? c) && (c <=? 8202)
   || (c =? 8232) || (c =? 8233) || (c =? 8239) || (c =? 8287)
   || (c =? 12288))%N.

Fixpoint lstrip (s : pystr) : pystr :=
  match s with
  | [] => []
  | c :: s' => if isspace c then lstrip s' else s
  end.

(** [s.strip()] *)
Definition strip (s : pystr) : pystr := rev (lstrip (rev (lstrip s))).

(** [bool(s)]: a string is truthy when it is not empty. *)
Definition truthy (s : pystr) : bool :=
  match s with [] => false | _ => true end.

Fixpoint startswith (p s : pystr) : bool :=
  match p, s with
  | [], _ => true
  | a :: p', b :: s' => (a =? b)%N && startswith p' s'
  | _ :: _, [] => false
  end.

(** [sub in s] *)
Fixpoint contains (sub s : pystr) : bool :=
  startswith sub s ||
  match s with
  | [] => false
  | _ :: s' => contains sub s'
  end.

(** [s.split(sep)] for a non-empty [sep]: [cur] is the piece being read
    (reversed), [skip] the characters of a separator still to pass. *)
Fixpoint split_go (sep cur s : pystr) (skip : nat) : list pystr :=
  match s with
  | [] => [rev cur]
  | c :: s' =>
    match skip with
    | S k => split_go sep cur s' k
    | O =>
      if startswith sep s
      then rev cur :: split_go sep [] s' (length sep - 1)
      else split_go sep (c :: cur) s' 0
    end
  end.

Definition split (sep s : pystr) : list pystr := split_go sep [] s 0.

(** [str(n)] for an [int]. *)
Definition of_int (n : Z) : pystr :=
  lit (NilZero.string_of_int (Z.to_int n)).

(** ["".join(l)] *)
Definition concat (l : list pystr) : pystr := mjoin l.

(** [sep.join(l)] *)
Fixpoint join (sep : pystr) (l : list pystr) : pystr :=
  match l with
  | [] => []
  | [x] => x
  | x :: r => x ++ sep ++ join sep r
  end.

End Str.

Notation "'u' s" := (Str.lit s%string) (at level 1, s at level 0, only parsing).

(** ** Exceptions ([misis_id/exceptions.py] and the library exceptions
    the client meets) *)

(** The four subclasses of [MisisError], pydantic's [ValidationError]
    (a [ValueError]: the title is the model's name, the errors are the
    rejected fields with their messages), [aiohttp.ClientError], the
    [IndexError] of a list subscript, any other [Exception] a library
    raises, and an exception that is not an [Exception]: a
    [BaseException] such as [asyncio.CancelledError], [KeyboardInterrupt]
    or [SystemExit]. *)
Inductive exn : Type :=
| AuthenticationError (message : pystr)
| NetworkError (message : pystr)
| ParseError (message : pystr)
| SessionExpiredError (message : pystr)
| ValidationError (title : string) (errors : list (string * pystr))
| ClientError (message : pystr)
| IndexError (message : pystr)
| OtherException (cls : string) (message : pystr)
| BaseException (cls : string) (message : pystr).

(** [isinstance(e, Exception)]: what a handler [except Exception]
    catches. *)
Definition is_Exception (e : exn) : bool :=
  match e with
  | BaseException _ _ => false
  | _ => true
  end.

(** [isinstance(e, MisisError)] *)
Definition is_MisisError (e : exn) : bool :=
  match e with
  | AuthenticationError _ | NetworkError _ | ParseError _
  | SessionExpiredError _ => true
  | _ => false
  end.

(** The [status_code] attribute each subclass passes to [MisisError]. *)
Definition status_code (e : exn) : option Z :=
  match e with
  | AuthenticationError _ => Some 401
  | NetworkError _ => Some 0
  | ParseError _ => Some 200
  | SessionExpiredError _ => Some 401
  | _ => None
  end.

(** The five kinds of error of the interface. *)
Inductive error_kind : Type :=
| Network | Authentication | Parse | SessionExpired | Validation.

Definition kind_of (e : exn) : option error_kind :=
  match e with
  | AuthenticationError _ => Some Authentication
  | NetworkError _ => Some Network
  | ParseError _ => Some Parse
  | SessionExpiredError _ => Some SessionExpired
  | ValidationError _ _ => Some Validation
  | ClientError _ | IndexError _ | OtherException _ _ | BaseException _ _ => None
  end.

(** The outcome of a call: a value or a raised exception. *)
Inductive result (A : Type) : Type :=
| Return (a : A)
| Raise (e : exn).
Arguments Return {A} a.
Arguments Raise {A} e.

(** ** The parsed document (BeautifulSoup) *)

(** The tree [BeautifulSoup(html, 'html.parser')] builds. A tag carries
    its name, its single-valued attributes, its [class] attribute (the one
    multi-valued attribute the client looks at: absent, or the list of its
    words) and its contents. *)
Inductive node : Type :=
| NavigableString (s : pystr)
| Comment (s : pystr)
| Tag (name : pystr) (attrs : list (pystr * pystr))
      (class_ : option (list pystr)) (contents : list node).

(** An element as a search returns it: the element and the siblings that
    follow it under its parent. *)
Record located : Type := Located { here : node; next_siblings : list node }.

Module Soup.

(** [d.get(k)] on the attribute dictionary of a tag. *)
Definition attr_get (k : pystr) (attrs : list (pystr * pystr)) : option pystr :=
  snd <$> List.find (fun kv => bool_decide (kv.1 = k)) attrs.

(** [tag.get(k)] for a single-valued attribute. *)
Definition get (k : pystr) (n : node) : option pystr :=
  match n with
  | Tag _ attrs _ _ => attr_get k attrs
  | _ => None
  end.

(** Document order: [n], then what is below it; every element with its
    following siblings. *)
Fixpoint walk (n : node) (sibs : list node) : list located :=
  Located n sibs ::
  match n with
  | Tag _ _ _ ch =>
    (fix go (l : list node) : list located :=
       match l with
       | [] => []
       | x :: r => walk x r ++ go r
       end) ch
  | _ => []
  end.

(** [tag.descendants] of a list of contents. *)
Fixpoint descendants (l : list node) : list located :=
  match l with
  | [] => []
  | x :: r => walk x r ++ descendants r
  end.

Definition contents (n : node) : list node :=
  match n with
  | Tag _ _ _ ch => ch
  | _ => []
  end.

(** [tag.string]: the single string below a tag, if there is exactly one
    path down to it. *)
Fixpoint string_of (n : node) : option pystr :=
  match n with
  | NavigableString s => Some s
  | Comment s => Some s
  | Tag _ _ _ [c] => string_of c
  | Tag _ _ _ _ => None
  end.

(** The strings [tag.get_text(strip=True)] joins: each text below the
    tag, stripped, the empty ones dropped; comments are not text. *)
Fixpoint stripped_strings (n : node) : list pystr :=
  match n with
  | NavigableString s =>
    let s' := Str.strip s in if Str.truthy s' then [s'] else []
  | Comment _ => []
  | Tag _ _ _ ch =>
    (fix go (l : list node) : list pystr :=
       match l with
       | [] => []
       | x :: r => stripped_strings x ++ go r
       end) ch
  end.

(** [tag.get_text(strip=True)] *)
Definition get_text_strip (n : node) : pystr :=
  Str.concat (stripped_strings n).

(** How a search matches the [class] attribute against one string: one
    of the words is the string, or the words joined by a space are. *)
Definition class_matches (c : pystr) (cls : option (list pystr)) : bool :=
  match cls with
  | None => false
  | Some ws =>
    existsb (fun w => bool_decide (w = c)) ws
    || bool_decide (Str.join (Str.lit " ") ws = c)
  end.

(** The filter of [find(name, attrs, class_=..., string=...)]: a tag of
    that name whose attributes match and whose [.string] passes. *)
Definition matches (name : pystr) (attrs : list (pystr * pystr))
    (class_ : option pystr) (string : option (option pystr -> bool))
    (n : node) : bool :=
  match n with
  | Tag nm at_ cls _ =>
    bool_decide (nm = name)
    && forallb (fun kv => bool_decide (attr_get kv.1 at_ = Some kv.2)) attrs
    && match class_ with Some c => class_matches c cls | None => true end
    && match string with Some f => f (string_of n) | None => true end
  | _ => false
  end.

(** [tag.find(...)] over the contents [l] of the tag (or of the soup). *)
Definition find (name : pystr) (attrs : list (pystr * pystr))
    (class_ : option pystr) (string : option (option pystr -> bool))
    (l : list node) : option located :=
  List.find (fun x => matches name attrs class_ string (here x)) (descendants l).

(** [tag.find_next_sibling(name, class_=...)] *)
Fixpoint find_next_sibling (name : pystr) (class_ : option pystr)
    (sibs : list node) : option located :=
  match sibs with
  | [] => None
  | x :: r =>
    if matches name [] class_ None x then Some (Located x r)
    else find_next_sibling name class_ r
  end.

End Soup.

(** ** The models ([misis_id/models.py]) *)

(** What a [field_validator] does with a value: return the value to
    store, or raise [ValueError]. *)
Inductive validated (A : Type) : Type :=
| Accept (a : A)
| ValueError (message : pystr).
Arguments Accept {A} a.
Arguments ValueError {A} message.

(** The validation of a model: pydantic validates every field and
    collects the errors of all of them, in the order of the fields. *)
Inductive checked (A : Type) : Type :=
| Valid (a : A)
| Invalid (errors : list (string * pystr)).
Arguments Valid {A} a.
Arguments Invalid {A} errors.

Definition ap {A B : Type} (f : checked (A -> B)) (x : checked A) : checked B :=
  match f, x with
  | Valid g, Valid a => Valid (g a)
  | Valid _, Invalid e => Invalid e
  | Invalid e, Valid _ => Invalid e
  | Invalid e1, Invalid e2 => Invalid (e1 ++ e2)
  end.

Notation "f <*> x" := (ap f x) (at level 61, left associativity).

(** The model is built, or [ValidationError] is raised with the errors. *)
Definition construct {A : Type} (title : string) (c : checked A) : result A :=
  match c with
  | Valid a => Return a
  | Invalid errors => Raise (ValidationError title errors)
  end.

Module Pydantic.

(** The keyword arguments of a constructor: a field is not passed, or is
    passed [None], or a [str]. *)
Abbreviation kwargs := (gmap string (option pystr)).

Definition run {A : Type} (field : string) (v : validated A) : checked A :=
  match v with
  | Accept a => Valid a
  | ValueError message => Invalid [(field, Str.lit "Value error, " ++ message)]
  end.

(** A field [name: str = Field(...)] with a validator run after the type
    check. *)
Definition required (field : string) (validator : pystr -> validated pystr)
    (data : kwargs) : checked pystr :=
  match data !! field with
  | None => Invalid [(field, Str.lit "Field required")]
  | Some None => Invalid [(field, Str.lit "Input should be a valid string")]
  | Some (Some v) => run field (validator v)
  end.

(** A field [name: Optional[str] = Field(None, ...)]: the default is not
    validated, a value passed is (also [None]). *)
Definition optional (field : string)
    (validator : option pystr -> validated (option pystr))
    (data : kwargs) : checked (option pystr) :=
  match data !! field with
  | None => Valid None
  | Some v => run field (validator v)
  end.

(** A field with no validator of its own. *)
Definition plain {A : Type} (v : A) : validated A := Accept v.

End Pydantic.

Module Models.

(** *** StudentInfo *)

Record StudentInfo : Type := Build_StudentInfo {
  full_name : pystr;
  record_book_number : pystr;
  study_form : pystr;
  preparation_level : pystr;
  specialization : option pystr;
  specialty : pystr;
  faculty : pystr;
  course : pystr;
  group : pystr;
  financing_form : pystr;
  dormitory : pystr;
  end_date : pystr;
  personal_email : option pystr;
  personal_phone : option pystr;
  corporate_email : option pystr
}.

Definition validate_full_name (v : pystr) : validated pystr :=
  if negb (Str.truthy v) || negb (Str.truthy (Str.strip v))
  then ValueError (u "Полное имя не может быть пустым")
  else Accept (Str.strip v).

Definition validate_record_book_number (v : pystr) : validated pystr :=
  if negb (Str.truthy v) || negb (Str.truthy (Str.strip v))
  then ValueError (u "Номер зачетной книжки не может быть пустым")
  else Accept (Str.strip v).

(** [if v and '@' not in v]: [None] and the empty string are falsy. *)
Definition validate_personal_email (v : option pystr) : validated (option pystr) :=
  match v with
  | Some s =>
    if Str.truthy s && negb (Str.contains (u "@") s)
    then ValueError (u "Некорректный формат email")
    else Accept v
  | None => Accept v
  end.

Definition validate_corporate_email (v : option pystr) : validated (option pystr) :=
  match v with
  | Some s =>
    if Str.truthy s && negb (Str.contains (u "@") s)
    then ValueError (u "Некорректный формат email")
    else Accept v
  | None => Accept v
  end.

(** [StudentInfo] built from the keyword arguments [data]. *)
Definition StudentInfo_new (data : Pydantic.kwargs) : result StudentInfo :=
  construct "StudentInfo"
    (Valid Build_StudentInfo
     <*> Pydantic.required "full_name" validate_full_name data
     <*> Pydantic.required "record_book_number" validate_record_book_number data
     <*> Pydantic.required "study_form" Pydantic.plain data
     <*> Pydantic.required "preparation_level" Pydantic.plain data
     <*> Pydantic.optional "specialization" Pydantic.plain data
     <*> Pydantic.required "specialty" Pydantic.plain data
     <*> Pydantic.required "faculty" Pydantic.plain data
     <*> Pydantic.required "course" Pydantic.plain data
     <*> Pydantic.required "group" Pydantic.plain data
     <*> Pydantic.required "financing_form" Pydantic.plain data
     <*> Pydantic.required "dormitory" Pydantic.plain data
     <*> Pydantic.required "end_date" Pydantic.plain data
     <*> Pydantic.optional "personal_email" validate_personal_email data
     <*> Pydantic.optional "personal_phone" Pydantic.plain data
     <*> Pydantic.optional "corporate_email" validate_corporate_email data).

(** *** AuthenticationData *)

Record AuthenticationData : Type := Build_AuthenticationData {
  login : pystr;
  password : pystr;
  remember_me : bool
}.

Definition validate_login (v : pystr) : validated pystr :=
  if negb (Str.truthy v) || negb (Str.truthy (Str.strip v))
  then ValueError (u "Логин не может быть пустым")
  else Accept (Str.strip v).

Definition validate_password (v : pystr) : validated pystr :=
  if negb (Str.truthy v)
  then ValueError (u "Пароль не может быть пустым")
  else Accept v.

(** [AuthenticationData(login=login, password=password)]: [remember_me]
    takes its default. *)
Definition AuthenticationData_new (login password : pystr) : result AuthenticationData :=
  construct "AuthenticationData"
    (Valid Build_AuthenticationData
     <*> Pydantic.run "login" (validate_login login)
     <*> Pydantic.run "password" (validate_password password)
     <*> Valid false).

(** *** SessionInfo *)

Record SessionInfo : Type := Build_SessionInfo {
  api_id : pystr;
  csrf_token : pystr;
  is_authenticated : bool
}.

Definition validate_api_id (v : pystr) : validated pystr :=
  if negb (Str.truthy v) || negb (Str.truthy (Str.strip v))
  then ValueError (u "API ID не может быть пустым")
  else Accept (Str.strip v).

Definition validate_csrf_token (v : pystr) : validated pystr :=
  if negb (Str.truthy v) || negb (Str.truthy (Str.strip v))
  then ValueError (u "CSRF токен не может быть пустым")
  else Accept (Str.strip v).

(** [SessionInfo(api_id=..., csrf_token=..., is_authenticated=...)] *)
Definition SessionInfo_new (api_id csrf_token : pystr) (is_authenticated : bool)
    : result SessionInfo :=
  construct "SessionInfo"
    (Valid Build_SessionInfo
     <*> Pydantic.run "api_id" (validate_api_id api_id)
     <*> Pydantic.run "csrf_token" (validate_csrf_token csrf_token)
     <*> Valid is_authenticated).

End Models.
Import Models.

(** ** The world of the client *)

(** A call [session.request(method, url, **kwargs)]: the client passes
    either no keyword argument or [data] and [allow_redirects]. *)
Record request : Type := Build_request {
  req_method : pystr;
  req_url : pystr;
  req_data : option (list (pystr * pystr));
  req_allow_redirects : option bool
}.

(** What the client reads of an [aiohttp] response: [response.status],
    [response.reason], [await response.text()], [str(response.url)] and
    [response.headers]. *)
Record response : Type := Build_response {
  status : Z;
  reason : pystr;
  text : pystr;
  final_url : pystr;
  headers : list (pystr * pystr)
}.

(** One request either gets a response, or fails with an
    [aiohttp.ClientError], or with an [Exception] of another class (a
    timeout, a closed session, an undecodable body), or with an exception
    that is not an [Exception] (the [asyncio.CancelledError] of a task
    that is cancelled while it waits). *)
Inductive outcome : Type :=
| Responds (r : response)
| RaisesClientError (message : pystr)
| RaisesOther (cls : string) (message : pystr)
| RaisesBaseException (cls : string) (message : pystr).

(** What the client does to the outside, in the order it does it. *)
Inductive event : Type :=
| Requested (r : request)
| Slept (seconds : Z)
| SessionClosed.

(** The libraries and the portal: the outcome of a request given all
    that happened before it, the parser behind [BeautifulSoup(text,
    'html.parser')], and [str()] of pydantic's [ValidationError]. *)
Record Env : Type := Build_Env {
  network : list event -> request -> outcome;
  BeautifulSoup : pystr -> list node;
  validation_str : string -> list (string * pystr) -> pystr
}.

(** [aiohttp.ClientSession(timeout=...)] *)
Inductive ClientSession : Type :=
| ClientSession_new (timeout : Z).

(** The attributes of a [MisisClient], and the trace of its effects.
    [_session_info] holds the [SessionInfo] object itself: the client is
    the only one to change it, and [authenticate] returns that object. *)
Record MisisClient : Type := Build_MisisClient {
  timeout : Z;
  max_retries : Z;
  _session : option ClientSession;
  _session_info : option SessionInfo;
  _owned_session : bool;
  trace : list event
}.

Definition set_session (v : option ClientSession) (c : MisisClient) : MisisClient :=
  Build_MisisClient (timeout c) (max_retries c) v (_session_info c)
    (_owned_session c) (trace c).

Definition set_session_info (v : option SessionInfo) (c : MisisClient) : MisisClient :=
  Build_MisisClient (timeout c) (max_retries c) (_session c) v
    (_owned_session c) (trace c).

Definition record_event (e : event) (c : MisisClient) : MisisClient :=
  Build_MisisClient (timeout c) (max_retries c) (_session c) (_session_info c)
    (_owned_session c) (trace c ++ [e]).

(** [info.is_authenticated = False] *)
Definition set_is_authenticated (b : bool) (s : SessionInfo) : SessionInfo :=
  Build_SessionInfo (api_id s) (csrf_token s) b.

(** ** The monad of the methods: client state and exceptions *)

Definition M (A : Type) : Type := MisisClient -> result A * MisisClient.

Definition ret {A : Type} (a : A) : M A := fun c => (Return a, c).

Definition bind {A B : Type} (m : M A) (f : A -> M B) : M B :=
  fun c =>
    match m c with
    | (Return a, c') => f a c'
    | (Raise e, c') => (Raise e, c')
    end.

Definition raise {A : Type} (e : exn) : M A := fun c => (Raise e, c).

(** [try: m  except Exception as e: h e]: an exception that is not
    an [Exception] is not caught. *)
Definition try_except {A : Type} (m : M A) (h : exn -> M A) : M A :=
  fun c =>
    match m c with
    | (Return a, c') => (Return a, c')
    | (Raise e, c') => if is_Exception e then h e c' else (Raise e, c')
    end.

Definition lift {A : Type} (r : result A) : M A := fun c => (r, c).

Definition gets {A : Type} (f : MisisClient -> A) : M A := fun c => (Return (f c), c).

Definition modify (f : MisisClient -> MisisClient) : M unit := fun c => (Return tt, f c).

Notation "x <- m ;; k" := (bind m (fun x => k))
  (at level 100, m at next level, right associativity).
Notation "m ;; k" := (bind m (fun _ => k))
  (at level 100, right associativity).

(** [try/except] for a function that does not touch the client. *)
Definition try_result {A : Type} (r : result A) (h : exn -> result A) : result A :=
  match r with
  | Return a => Return a
  | Raise e => if is_Exception e then h e else Raise e
  end.

(** [l[i]] *)
Definition subscript {A : Type} (l : list A) (i : nat) : result A :=
  match l !! i with
  | Some x => Return x
  | None => Raise (IndexError (u "list index out of range"))
  end.

(** [headers.get(k)]: the names of HTTP headers are compared without
    regard to the case of their letters. *)
Definition lower (s : pystr) : pystr :=
  map (fun c => if ((65 <=? c) && (c <=? 90))%N then (c + 32)%N else c) s.

Definition headers_get (k : pystr) (h : list (pystr * pystr)) : option pystr :=
  snd <$> List.find (fun kv => bool_decide (lower kv.1 = lower k)) h.

(** ** The client ([misis_id/client.py]) *)

Definition BASE_URL : pystr := u "https://lk.misis.ru".
Definition AUTH_URL : pystr := BASE_URL ++ u "/ru/users/sign_in".

(** [MisisClient(timeout, max_retries, session)] *)
Definition MisisClient_new (timeout max_retries : Z)
    (session : option ClientSession) : MisisClient :=
  Build_MisisClient timeout max_retries session None
    (match session with None => true | Some _ => false end) [].

Definition close : M unit :=
  s <- gets _session;;
  owned <- gets _owned_session;;
  match s with
  | Some _ =>
    if owned then
      modify (record_event SessionClosed);;
      modify (set_session None)
    else ret tt
  | None => ret tt
  end.

Definition aenter : M unit :=
  s <- gets _session;;
  match s with
  | None =>
    t <- gets timeout;;
    modify (set_session (Some (ClientSession_new t)))
  | Some _ => ret tt
  end.

Definition aexit : M unit := close.

Definition _get_session : M ClientSession :=
  s <- gets _session;;
  match s with
  | None =>
    t <- gets timeout;;
    modify (set_session (Some (ClientSession_new t)));;
    ret (ClientSession_new t)
  | Some x => ret x
  end.

Section Client.

Variable E : Env.

(** [str(e)] *)
Definition exn_str (e : exn) : pystr :=
  match e with
  | AuthenticationError m | NetworkError m | ParseError m
  | SessionExpiredError m | ClientError m | IndexError m
  | OtherException _ m | BaseException _ m => m
  | ValidationError title errors => validation_str E title errors
  end.

(** [async with session.request(method, url, **kwargs) as response],
    with the body read by [await response.text()]. *)
Definition session_request (req : request) : M response :=
  fun c =>
    let c' := record_event (Requested req) c in
    match network E (trace c) req with
    | Responds r => (Return r, c')
    | RaisesClientError m => (Raise (ClientError m), c')
    | RaisesOther cls m => (Raise (OtherException cls m), c')
    | RaisesBaseException cls m => (Raise (BaseException cls m), c')
    end.

(** [await asyncio.sleep(seconds)] *)
Definition sleep (seconds : Z) : M unit := modify (record_event (Slept seconds)).

(** The [for attempt in range(self.max_retries)] loop of [_make_request]
    with [remaining] iterations to go; an iteration either leaves the
    function ([Some]) or goes on to the next attempt ([None]). *)
Fixpoint _make_request_loop (req : request) (remaining : nat) (attempt : Z)
    : M (Z * pystr * pystr * list (pystr * pystr)) :=
  match remaining with
  | O => raise (NetworkError (u "Превышено максимальное количество попыток"))
  | S k =>
    r <- try_except
           (response <- session_request req;;
            if status response >=? 400 then
              n <- gets max_retries;;
              if attempt =? n - 1 then
                raise (NetworkError (u "HTTP " ++ Str.of_int (status response)
                                       ++ u ": " ++ reason response))
              else
                sleep (2 ^ attempt);;
                ret None
            else
              ret (Some (status response, text response,
                         final_url response, headers response)))
           (fun e =>
              match e with
              | ClientError _ =>
                n <- gets max_retries;;
                if attempt =? n - 1 then
                  raise (NetworkError (u "Ошибка сети: " ++ exn_str e))
                else
                  sleep (2 ^ attempt);;
                  ret None
              | _ => raise e
              end);;
    match r with
    | Some x => ret x
    | None => _make_request_loop req k (attempt + 1)
    end
  end.

Definition _make_request (req : request)
    : M (Z * pystr * pystr * list (pystr * pystr)) :=
  _get_session;;
  n <- gets max_retries;;
  _make_request_loop req (Z.to_nat n) 0.

Definition _get_csrf_token : M pystr :=
  try_except
    (r <- _make_request (Build_request (u "GET") AUTH_URL None None);;
     let '(status, text, url, headers) := r in
     let soup := BeautifulSoup E text in
     match Soup.find (u "meta") [(u "name", u "csrf-token")] None None soup with
     | None => raise (ParseError (u "CSRF токен не найден на странице"))
     | Some csrf_meta =>
       match Soup.get (u "content") (here csrf_meta) with
       | Some csrf_token =>
         if Str.truthy csrf_token then ret csrf_token
         else raise (ParseError (u "CSRF токен пустой"))
       | None => raise (ParseError (u "CSRF токен пустой"))
       end
     end)
    (fun e =>
       match e with
       | ParseError _ | NetworkError _ => raise e
       | _ => raise (ParseError (u "Ошибка получения CSRF токена: " ++ exn_str e))
       end).

(** [v in [302, 200]] *)
Definition status_in (v : Z) (l : list Z) : bool := existsb (Z.eqb v) l.

(** The form [auth_payload] of [authenticate]. *)
Definition auth_payload (auth_data : AuthenticationData) (csrf_token : pystr)
    : list (pystr * pystr) :=
  [(u "user[login]", Models.login auth_data);
   (u "user[password]", Models.password auth_data);
   (u "user[remember_me]", if remember_me auth_data then u "1" else u "0");
   (u "commit", u "Войти");
   (u "utf8", u "✓");
   (u "authenticity_token", csrf_token)].

(** The login POST: the form, and [allow_redirects=False]. *)
Definition login_request (auth_data : AuthenticationData) (csrf_token : pystr)
    : request :=
  Build_request (u "POST") AUTH_URL (Some (auth_payload auth_data csrf_token))
    (Some false).

(** The GET of the profile page of an account. *)
Definition profile_request (api_id : pystr) : request :=
  Build_request (u "GET") (BASE_URL ++ u "/ru/" ++ api_id ++ u "/profile")
    None None.

Definition authenticate (login password : pystr) : M SessionInfo :=
  auth_data <- lift (AuthenticationData_new login password);;
  try_except
    (csrf_token <- _get_csrf_token;;
     r <- _make_request (login_request auth_data csrf_token);;
     let '(status, text, url, headers) := r in
     match headers_get (u "Location") headers with
     | None => raise (AuthenticationError (u "Неверный логин или пароль"))
     | Some location =>
       if negb (Str.truthy location) then
         raise (AuthenticationError (u "Неверный логин или пароль"))
       else if negb (Str.contains (u "/s") location) then
         raise (AuthenticationError (u "Неверный логин или пароль"))
       else if negb (status_in status [302; 200]) then
         raise (AuthenticationError
                  (u "Неожиданный статус ответа: " ++ Str.of_int status))
       else if Str.contains (u "Неверный логин или пароль") text then
         raise (AuthenticationError (u "Неверный логин или пароль"))
       else
         rest <- lift (subscript (Str.split (u "/ru/") location) 1);;
         api_id <- lift (subscript (Str.split (u "/") rest) 0);;
         info <- lift (SessionInfo_new api_id csrf_token true);;
         modify (set_session_info (Some info));;
         ret info
     end)
    (fun e =>
       match e with
       | AuthenticationError _ | NetworkError _ | ParseError _ => raise e
       | _ => raise (AuthenticationError (u "Ошибка аутентификации: " ++ exn_str e))
       end).

(** The loop over [required_fields] of [_parse_student_info]:
    [data.get(field)] is [None] for a missing key and for a [None] value. *)
Fixpoint check_required (required_fields : list string)
    (data : Pydantic.kwargs) : result unit :=
  match required_fields with
  | [] => Return tt
  | field :: rest =>
    match data !! field with
    | Some (Some _) => check_required rest data
    | _ => Raise (ParseError (u "Обязательное поле '" ++ Str.lit field
                                ++ u "' не найдено"))
    end
  end.

Definition required_fields : list string :=
  ["full_name"; "record_book_number"; "study_form";
   "preparation_level"; "specialty"; "faculty";
   "course"; "group"; "financing_form"; "dormitory"; "end_date"]%string.

(** [lambda text: text and label_text in text] *)
Definition label_filter (label_text : pystr) (text : option pystr) : bool :=
  match text with
  | Some t => Str.truthy t && Str.contains label_text t
  | None => false
  end.

(** The label of a field, as [extract_value] looks for it. *)
Definition find_label (soup : list node) (label_text : pystr) : option located :=
  Soup.find (u "span") [] (Some (u "person__label"))
    (Some (label_filter label_text)) soup.

(** The local function [extract_value] of [_parse_student_info]. *)
Definition extract_value (soup : list node) (label_text : pystr) : option pystr :=
  match find_label soup label_text with
  | Some label =>
    match Soup.find_next_sibling (u "span") (Some (u "person__value"))
            (next_siblings label) with
    | Some value_span => Some (Soup.get_text_strip (here value_span))
    | None => None
    end
  | None => None
  end.

(** The dictionary [data] that [_parse_student_info] fills. *)
Definition collect (soup : list node) : Pydantic.kwargs :=
  let data : Pydantic.kwargs := ∅ in
  let data :=
    match Soup.find (u "div") [] (Some (u "person_name")) None soup with
    | Some name_element =>
      <["full_name" :=
          Some (match Soup.find (u "h3") [] None None
                        (Soup.contents (here name_element)) with
                | Some h3 => Soup.get_text_strip (here h3)
                | None => u ""
                end)]> data
    | None => data
    end in
  let data := <["record_book_number" := extract_value soup (u "Номер зачетки:")]> data in
  let data := <["study_form" := extract_value soup (u "Форма обучения:")]> data in
  let data := <["preparation_level" := extract_value soup (u "Уровень подготовки:")]> data in
  let data := <["specialization" := extract_value soup (u "Специализация:")]> data in
  let data := <["specialty" := extract_value soup (u "Специальность:")]> data in
  let data := <["faculty" := extract_value soup (u "Факультет:")]> data in
  let data := <["course" := extract_value soup (u "Курс:")]> data in
  let data := <["group" := extract_value soup (u "Группа:")]> data in
  let data := <["financing_form" := extract_value soup (u "Форма финансирования:")]> data in
  let data := <["dormitory" := extract_value soup (u "Общежитие:")]> data in
  let data := <["end_date" := extract_value soup (u "Дата окончания:")]> data in
  let data := <["personal_email" := extract_value soup (u "Личная почта:")]> data in
  let data := <["personal_phone" := extract_value soup (u "Личный номер телефона:")]> data in
  let data := <["corporate_email" := extract_value soup (u "Корпоративная почта:")]> data in
  data.

Definition _parse_student_info (html : pystr) : result StudentInfo :=
  try_result
    (let soup := BeautifulSoup E html in
     let data := collect soup in
     match check_required required_fields data with
     | Raise e => Raise e
     | Return _ => StudentInfo_new data
     end)
    (fun e =>
       match e with
       | ParseError _ => Raise e
       | _ => Raise (ParseError (u "Ошибка парсинга информации о студенте: "
                                   ++ exn_str e))
       end).

Definition get_student_info : M StudentInfo :=
  info <- gets _session_info;;
  match info with
  | None => raise (SessionExpiredError (u "Необходима аутентификация"))
  | Some session_info =>
    if negb (is_authenticated session_info) then
      raise (SessionExpiredError (u "Необходима аутентификация"))
    else
      try_except
        (r <- _make_request (profile_request (api_id session_info));;
         let '(status, text, url, headers) := r in
         if Str.contains (u "sign_in") url then
           modify (fun c => set_session_info
                              (set_is_authenticated false <$> _session_info c) c);;
           raise (SessionExpiredError (u "Сессия истекла"))
         else
           student_info <- lift (_parse_student_info text);;
           ret student_info)
        (fun e =>
           match e with
           | SessionExpiredError _ | NetworkError _ | ParseError _ => raise e
           | _ => raise (ParseError (u "Ошибка получения информации о студенте: "
                                       ++ exn_str e))
           end)
  end.

(** The property [is_authenticated] of the client. *)
Definition client_is_authenticated (c : MisisClient) : bool :=
  match _session_info c with
  | Some info => is_authenticated info
  | None => false
  end.

(** The property [session_info] of the client. *)
Definition session_info (c : MisisClient) : option SessionInfo := _session_info c.

End Client.

(** ** The operations of the public interface *)

Inductive op : Type :=
| Authenticate (login password : pystr)
| GetStudentInfo
| Close
| Enter.

(** What a caller sees of a call: that it returned, or the exception. *)
Inductive observed : Type :=
| Returned
| Raised (e : exn).

Definition observe {A : Type} (r : result A * MisisClient) : observed * MisisClient :=
  match r with
  | (Return _, c) => (Returned, c)
  | (Raise e, c) => (Raised e, c)
  end.

Definition run_op (E : Env) (o : op) (c : MisisClient) : observed * MisisClient :=
  match o with
  | Authenticate login password => observe (authenticate E login password c)
  | GetStudentInfo => observe (get_student_info E c)
  | Close => observe (close c)
  | Enter => observe (aenter c)
  end.

(** A sequence of calls, each on the client the one before left. *)
Fixpoint run_ops (E : Env) (os : list op) (c : MisisClient)
    : list observed * MisisClient :=
  match os with
  | [] => ([], c)
  | o :: rest =>
    let '(r, c1) := run_op E o c in
    let '(rs, c2) := run_ops E rest c1 in
    (r :: rs, c2)
  end.


(** The requests and the sleeps of a trace. *)
Definition requests_of (t : list event) : list request :=
  omap (fun e => match e with Requested r => Some r | _ => None end) t.

Definition sleeps_of (t : list event) : list Z :=
  omap (fun e => match e with Slept n => Some n | _ => None end) t.

(** ** The vocabulary of the properties *)

(** An endpoint whose every response has a status of 400 or more. *)
Definition always_fails (E : Env) : Prop :=
  forall t req, exists r, network E t req = Responds r /\ 400 <= status r.

(** The events of [k] attempts that all fail, the first of them numbered
    [attempt]: a request each, and a sleep of [2 ^ attempt] after every
    attempt but the last. *)
Fixpoint failed_attempts (req : request) (k : nat) (attempt : Z) : list event :=
  match k with
  | O => []
  | S k' =>
    Requested req ::
    match k' with
    | O => []
    | S _ => Slept (2 ^ attempt) :: failed_attempts req k' (attempt + 1)
    end
  end.

(** A computation that leaves the session of the client as it is. *)
Definition keeps_session {A : Type} (m : M A) : Prop :=
  forall c r c', m c = (r, c') -> _session_info c' = _session_info c.

(** A computation that raises only exceptions of [P]. *)
Definition raises_only {A : Type} (P : exn -> Prop) (m : M A) : Prop :=
  forall c e c', m c = (Raise e, c') -> P e.

(** The invariant of a session: authenticated, it carries an account
    identifier and a token that are not empty. *)
Definition session_ok (s : SessionInfo) : Prop :=
  is_authenticated s = true -> api_id s <> [] /\ csrf_token s <> [].

Definition client_ok (c : MisisClient) : Prop :=
  forall s, _session_info c = Some s -> session_ok s.

(** [data.get(field) is None] *)
Definition is_null (data : Pydantic.kwargs) (field : string) : Prop :=
  data !! field = None \/ data !! field = Some None.

(** The validation of a model has failed. *)
Definition is_invalid {A : Type} (c : checked A) : Prop :=
  exists errors, c = Invalid errors.

(** The message of [_parse_student_info] for a missing field. *)
Definition missing_field_message (field : string) : pystr :=
  u "Обязательное поле '" ++ Str.lit field ++ u "' не найдено".

(** An e-mail value the validators accept: none, or the empty string, or
    a string with ["@"]. *)
Definition accepted_email (v : option (option pystr)) : Prop :=
  v = None \/ v = Some None
  \/ exists s, v = Some (Some s) /\ (s = [] \/ Str.contains (u "@") s = true).

(** An e-mail value the validators reject: a string that is not empty
    and has no ["@"]. *)
Definition bad_email (v : option (option pystr)) : Prop :=
  exists s, v = Some (Some s) /\ s <> [] /\ Str.contains (u "@") s = false.

(** An e-mail field that is present (a string was passed) and has no
    ["@"]. *)
Definition present_without_at (v : option (option pystr)) : Prop :=
  exists s, v = Some (Some s) /\ Str.contains (u "@") s = false.

(** ** Concrete pages and portals, for the examples *)

Module Fixtures.

Definition span (cls text : pystr) : node :=
  Tag (u "span") [] (Some [cls]) [NavigableString text].

Definition row (label value : pystr) : list node :=
  [span (u "person__label") label; span (u "person__value") value].

(** A profile page: the name block and the labelled rows. *)
Definition profile_doc (rows : list (pystr * pystr)) : list node :=
  [Tag (u "div") [] (Some [u "person_name"])
     [Tag (u "h3") [] None [NavigableString (u " Иванов Иван Иванович ")]];
   Tag (u "div") [] (Some [u "person__info"])
     (flat_map (fun lv => row lv.1 lv.2) rows)].

Definition required_rows_before_course : list (pystr * pystr) :=
  [(u "Номер зачетки:", u "12345678");
   (u "Форма обучения:", u "Очная");
   (u "Уровень подготовки:", u "Бакалавриат");
   (u "Специальность:", u "09.03.01");
   (u "Факультет:", u "ИТ")].

Definition required_rows_after_course : list (pystr * pystr) :=
  [(u "Группа:", u "ИТ-21-1");
   (u "Форма финансирования:", u "Бюджет");
   (u "Общежитие:", u "Да");
   (u "Дата окончания:", u "2025-06-30")].

Definition full_rows : list (pystr * pystr) :=
  required_rows_before_course ++ [(u "Курс:", u "3")] ++ required_rows_after_course.

(** The page without the row of the course. *)
Definition no_course_rows : list (pystr * pystr) :=
  required_rows_before_course ++ required_rows_after_course.

(** The page without the rows of the faculty and of the course. *)
Definition no_faculty_no_course_rows : list (pystr * pystr) :=
  [(u "Номер зачетки:", u "12345678");
   (u "Форма обучения:", u "Очная");
   (u "Уровень подготовки:", u "Бакалавриат");
   (u "Специальность:", u "09.03.01")] ++ required_rows_after_course.

Definition login_html : pystr :=
  u "<html><head><meta name='csrf-token' content='tok123'></head></html>".

Definition login_doc : list node :=
  [Tag (u "html") [] None
     [Tag (u "head") [] None
        [Tag (u "meta") [(u "name", u "csrf-token"); (u "content", u "tok123")]
           None []]]].

(** A parser that knows the login page and one profile page. *)
Definition parser (profile_html : pystr) (profile : list node) (html : pystr) : list node :=
  if bool_decide (html = login_html) then login_doc
  else if bool_decide (html = profile_html) then profile
  else [].

Definition ok_response (text url : pystr) (headers : list (pystr * pystr)) : response :=
  Build_response 200 (u "OK") text url headers.

(** A portal: the login page on GET of the sign-in address, [post] on the
    login POST, [profile] on any other GET. *)
Definition portal (post : request -> outcome) (profile : request -> outcome)
    (t : list event) (req : request) : outcome :=
  if bool_decide (req_method req = u "POST") then post req
  else if bool_decide (req_url req = AUTH_URL)
       then Responds (ok_response login_html AUTH_URL [])
       else profile req.

(** The login POST answered by a redirect to [location]. *)
Definition redirect_to (location : pystr) (req : request) : outcome :=
  Responds (Build_response 302 (u "Found") (u "") AUTH_URL
              [(u "Location", location)]).

(** The login POST answered by the page of the form again, with the
    message of the failure and no redirect. *)
Definition rejected (req : request) : outcome :=
  Responds (ok_response (u "<p>Неверный логин или пароль</p>") AUTH_URL []).

(** The portal that knows one password. *)
Definition check_password (secret : pystr) (location : pystr) (req : request) : outcome :=
  match req_data req with
  | Some d =>
    if bool_decide (Soup.attr_get (u "user[password]") d = Some secret)
    then redirect_to location req
    else rejected req
  | None => rejected req
  end.

Definition profile_html : pystr := u "<div class='person_name'>...</div>".

(** The profile address answers with the profile page. *)
Definition profile_page (req : request) : outcome :=
  Responds (ok_response profile_html (req_url req) []).

(** The profile address redirects back to the sign-in page. *)
Definition profile_expired (req : request) : outcome :=
  Responds (ok_response login_html AUTH_URL []).

Definition always_500 (t : list event) (req : request) : outcome :=
  Responds (Build_response 500 (u "Internal Server Error") (u "") (req_url req) []).

Definition no_rendering (title : string) (errors : list (string * pystr)) : pystr :=
  Str.lit title.

Definition env (post profile : request -> outcome) (doc : list node) : Env :=
  Build_Env (portal post profile) (parser profile_html doc) no_rendering.

Definition client0 : MisisClient := MisisClient_new 30 3 None.

(** The portal accepts the login and serves the full profile. *)
Definition E_ok : Env :=
  env (redirect_to (u "/ru/s/12345")) profile_page (profile_doc full_rows).

(** The portal accepts the login; the profile address then leads back to
    the sign-in page. *)
Definition E_expired : Env :=
  env (redirect_to (u "/ru/s/12345")) profile_expired (profile_doc full_rows).

(** The portal accepts the password [secret] only. *)
Definition E_password : Env :=
  env (check_password (u "secret") (u "/ru/s/12345")) profile_page
    (profile_doc full_rows).

(** The login POST is answered by a redirect to the sign-in page. *)
Definition E_sign_in : Env :=
  env (redirect_to (u "/ru/sign_in")) profile_page (profile_doc full_rows).

(** Every request is answered by status 500. *)
Definition E_500 : Env := Build_Env always_500 (fun _ => []) no_rendering.

(** The profile page lacks the row of the course. *)
Definition E_no_course : Env :=
  env (redirect_to (u "/ru/s/12345")) profile_page (profile_doc no_course_rows).

(** The profile page lacks the rows of the faculty and of the course. *)
Definition E_no_faculty_no_course : Env :=
  env (redirect_to (u "/ru/s/12345")) profile_page
    (profile_doc no_faculty_no_course_rows).

(** The keyword arguments of a record with the required fields and a
    personal e-mail. *)
Definition student_data (personal_email : option pystr) : Pydantic.kwargs :=
  list_to_map
    [("full_name"%string, Some (u "Иванов Иван Иванович"));
     ("record_book_number"%string, Some (u "12345678"));
     ("study_form"%string, Some (u "Очная"));
     ("preparation_level"%string, Some (u "Бакалавриат"));
     ("specialty"%string, Some (u "09.03.01"));
     ("faculty"%string, Some (u "ИТ"));
     ("course"%string, Some (u "3"));
     ("group"%string, Some (u "ИТ-21-1"));
     ("financing_form"%string, Some (u "Бюджет"));
     ("dormitory"%string, Some (u "Да"));
     ("end_date"%string, Some (u "2025-06-30"));
     ("personal_email"%string, personal_email)].

(** The profile page carries a personal e-mail without ["@"]. *)
Definition E_bad_email : Env :=
  env (redirect_to (u "/ru/s/12345")) profile_page
    (profile_doc (full_rows ++ [(u "Личная почта:", u "ivanov.example.com")])).

(** The login POST is answered by a redirect outside [/ru/]. *)
Definition E_static : Env :=
  env (redirect_to (u "/static/maintenance.html")) profile_page
    (profile_doc full_rows).

(** The task is cancelled while it waits for any answer. *)
Definition cancelled (t : list event) (req : request) : outcome :=
  RaisesBaseException "CancelledError" (u "").

Definition E_cancelled : Env := Build_Env cancelled (fun _ => []) no_rendering.

(** The task is cancelled while it waits for the profile page. *)
Definition profile_cancelled (req : request) : outcome :=
  RaisesBaseException "CancelledError" (u "").

(** The portal accepts the login; the task is cancelled during the fetch
    of the profile. *)
Definition E_profile_cancelled : Env :=
  env (redirect_to (u "/ru/s/12345")) profile_cancelled (profile_doc full_rows).

(** The response of the portal to the GET of the sign-in page. *)
Definition login_page_response : response := ok_response login_html AUTH_URL [].

Definition get_login_page : request := Build_request (u "GET") AUTH_URL None None.

(** The client after a successful login at [E]. *)
Definition logged_in (E : Env) (password : pystr) : MisisClient :=
  (authenticate E (u "user") password client0).2.

End Fixtures.

(** ** The effect of the transport on the client *)

(** The client after the events [evs]. *)
Definition add_events (evs : list event) (c : MisisClient) : MisisClient :=
  Build_MisisClient (timeout c) (max_retries c) (_session c) (_session_info c)
    (_owned_session c) (trace c ++ evs).

(** The client after [_get_session]: the HTTP session is created if there
    was none. *)
Definition ensure_session (c : MisisClient) : MisisClient :=
  match _session c with
  | None => set_session (Some (ClientSession_new (timeout c))) c
  | Some _ => c
  end.

(** An outcome after which [_make_request] tries again, or gives up at
    the last attempt: a status of 400 or more, or an [aiohttp.ClientError]. *)
Definition retryable (o : outcome) : bool :=
  match o with
  | Responds r => 400 <=? status r
  | RaisesClientError _ => true
  | RaisesOther _ _ | RaisesBaseException _ _ => false
  end.

(** What [_make_request] makes of the outcome of the last request it
    issued. *)
Definition final_result (o : outcome)
    : result (Z * pystr * pystr * list (pystr * pystr)) :=
  match o with
  | Responds r =>
    if 400 <=? status r
    then Raise (NetworkError (u "HTTP " ++ Str.of_int (status r)
                                ++ u ": " ++ reason r))
    else Return (status r, text r, final_url r, headers r)
  | RaisesClientError m => Raise (NetworkError (u "Ошибка сети: " ++ m))
  | RaisesOther cls m => Raise (OtherException cls m)
  | RaisesBaseException cls m => Raise (BaseException cls m)
  end.

(** The GET of the login page, from which the token is read. *)
Definition token_request : request := Build_request (u "GET") AUTH_URL None None.

(** The tag that carries the token, as [_get_csrf_token] looks for it. *)
Definition find_csrf_meta (soup : list node) : option located :=
  Soup.find (u "meta") [(u "name", u "csrf-token")] None None soup.

(** The seconds slept in a trace. *)
Definition total_sleep (t : list event) : Z := foldr Z.add 0 (sleeps_of t).

(** The times the HTTP session was closed in a trace. *)
Definition closes_of (t : list event) : nat :=
  length (List.filter (fun e => match e with SessionClosed => true | _ => false end) t).

(** The client [c'] is the client [c] after at most [k] fetches: the
    trace has grown by events whose requests all satisfy [P] and number at
    most [k] times [max_retries], whose sleeps add up to at most [k] times
    [2^(max_retries-1) - 1] seconds, and among which the HTTP session is
    not closed; the configuration of the client has not changed, and the
    HTTP session it had, if it had one, is still there. *)
Definition effect_within (k : nat) (P : request -> Prop) (c c' : MisisClient) : Prop :=
  exists evs,
    trace c' = trace c ++ evs
    /\ (length (requests_of evs) <= k * Z.to_nat (max_retries c))%nat
    /\ Forall P (requests_of evs)
    /\ total_sleep evs <= Z.of_nat k * (2 ^ Z.of_nat (pred (Z.to_nat (max_retries c))) - 1)
    /\ closes_of evs = 0%nat
    /\ max_retries c' = max_retries c
    /\ timeout c' = timeout c
    /\ _owned_session c' = _owned_session c
    /\ (forall s, _session c = Some s -> _session c' = Some s).

(** A request whose URL, as the client writes it, begins with
    [https://lk.misis.ru/ru/]. *)
Definition on_portal (q : request) : Prop :=
  Str.startswith (BASE_URL ++ u "/ru/") (req_url q) = true.

(** A string without leading or trailing whitespace. *)
Definition trimmed (s : pystr) : Prop := Str.strip s = s.

(** A string that does not start with whitespace. *)
Definition starts_clean (s : pystr) : Prop :=
  match s with
  | [] => True
  | c :: _ => Str.isspace c = false
  end.

(** A string that neither starts nor ends with whitespace. *)
Definition edges_clean (s : pystr) : Prop := starts_clean s /\ starts_clean (rev s).

(** ** [_extract_api_id] *)

Definition bind_result {A B : Type} (r : result A) (f : A -> result B) : result B :=
  match r with
  | Return a => f a
  | Raise e => Raise e
  end.

(** [tag.find_all(name)] over the contents [l]. *)
Definition find_all (name : pystr) (l : list node) : list located :=
  List.filter (fun x => Soup.matches name [] None None (here x)) (Soup.descendants l).

Definition au_api_url_marker : pystr := u "var au_api_url = '/ru/".

(** [s.split("var au_api_url = '/ru/")[1].split("/")[0]] *)
Definition api_id_after_marker (s : pystr) : result pystr :=
  bind_result (subscript (Str.split au_api_url_marker s) 1)
    (fun rest => subscript (Str.split (u "/") rest) 0).

(** The loop over the [script] elements of [_extract_api_id]: the first
    identifier found that is not empty, if there is one. *)
Fixpoint scan_scripts (scripts : list located) : result (option pystr) :=
  match scripts with
  | [] => Return None
  | script :: rest =>
    match Soup.string_of (here script) with
    | Some content =>
      if Str.truthy content && Str.contains (u "au_api_url") content then
        if Str.contains au_api_url_marker content then
          bind_result (api_id_after_marker content)
            (fun api_id =>
               if Str.truthy api_id then Return (Some api_id)
               else scan_scripts rest)
        else scan_scripts rest
      else scan_scripts rest
    | None => scan_scripts rest
    end
  end.

Definition _extract_api_id (E : Env) (text : pystr) : result pystr :=
  try_result
    (let from_scripts :=
       let soup := BeautifulSoup E text in
       let scripts := find_all (u "script") soup in
       bind_result (scan_scripts scripts)
         (fun found =>
            match found with
            | Some api_id => Return api_id
            | None => Raise (ParseError (u "API ID не найден в ответе сервера"))
            end) in
     if Str.contains au_api_url_marker text then
       bind_result (api_id_after_marker text)
         (fun api_id =>
            if Str.truthy api_id then Return api_id else from_scripts)
     else from_scripts)
    (fun e =>
       match e with
       | ParseError _ => Raise e
       | _ => Raise (ParseError (u "Ошибка извлечения API ID: " ++ exn_str E e))
       end).

(** ** The command line ([misis_id/cli.py]) *)

(** ["=" * 50] *)
Definition rule50 : pystr := replicate 50 61%N.

(** A line [print]ed for an optional field, when the field is truthy. *)
Definition optional_line (label : pystr) (v : option pystr) : list pystr :=
  match v with
  | Some s => if Str.truthy s then [label ++ s] else []
  | None => []
  end.

(** An optional field as the tests [if student_info.field:] see it:
    [None] and the empty string are both false. *)
Definition shown (v : option pystr) : option pystr :=
  match v with
  | Some (_ :: _) => v
  | _ => None
  end.

(** The lines [print_student_info_text] prints. *)
Definition print_student_info_text (student_info : StudentInfo) : list pystr :=
  [rule50; u "ИНФОРМАЦИЯ О СТУДЕНТЕ"; rule50;
   u "ФИО: " ++ full_name student_info;
   u "Номер зачетки: " ++ record_book_number student_info;
   u "Форма обучения: " ++ study_form student_info;
   u "Уровень подготовки: " ++ preparation_level student_info]
  ++ optional_line (u "Специализация: ") (specialization student_info)
  ++ [u "Специальность: " ++ specialty student_info;
      u "Факультет: " ++ faculty student_info;
      u "Курс: " ++ course student_info;
      u "Группа: " ++ group student_info;
      u "Форма финансирования: " ++ financing_form student_info;
      u "Общежитие: " ++ dormitory student_info;
      u "Дата окончания: " ++ end_date student_info]
  ++ optional_line (u "Личная почта: ") (personal_email student_info)
  ++ optional_line (u "Личный телефон: ") (personal_phone student_info)
  ++ optional_line (u "Корпоративная почта: ") (corporate_email student_info)
  ++ [rule50].

(** [student_info.dict()]: the fields in the order of the model. *)
Definition StudentInfo_dict (s : StudentInfo) : list (string * option pystr) :=
  [("full_name", Some (full_name s));
   ("record_book_number", Some (record_book_number s));
   ("study_form", Some (study_form s));
   ("preparation_level", Some (preparation_level s));
   ("specialization", specialization s);
   ("specialty", Some (specialty s));
   ("faculty", Some (faculty s));
   ("course", Some (course s));
   ("group", Some (group s));
   ("financing_form", Some (financing_form s));
   ("dormitory", Some (dormitory s));
   ("end_date", Some (end_date s));
   ("personal_email", personal_email s);
   ("personal_phone", personal_phone s);
   ("corporate_email", corporate_email s)]%string.

Module Json.

Definition quote : N := 34%N.
Definition backslash : N := 92%N.
Definition newline : N := 10%N.

(** One lower-case hexadecimal digit. *)
Definition hex_digit (d : N) : N :=
  if (d <? 10)%N then (48 + d)%N else (87 + d)%N.

(** The replacement of one character by [json.encoder]'s
    [py_encode_basestring]: the quote, the backslash and the characters
    below [0x20] are escaped, the others are kept ([ensure_ascii=False]). *)
Definition escape_char (c : N) : pystr :=
  if (c =? 92)%N then [backslash; backslash]
  else if (c =? 34)%N then [backslash; quote]
  else if (c =? 8)%N then [backslash; 98%N]
  else if (c =? 12)%N then [backslash; 102%N]
  else if (c =? 10)%N then [backslash; 110%N]
  else if (c =? 13)%N then [backslash; 114%N]
  else if (c =? 9)%N then [backslash; 116%N]
  else if (c <? 32)%N then
    [backslash; 117%N; 48%N; 48%N; hex_digit (c / 16); hex_digit (c mod 16)]
  else [c].

(** A string as JSON text. *)
Definition encode_str (s : pystr) : pystr :=
  [quote] ++ flat_map escape_char s ++ [quote].

(** A value of the dictionary: a string or [None]. *)
Definition encode_value (v : option pystr) : pystr :=
  match v with
  | Some s => encode_str s
  | None => u "null"
  end.

Definition encode_item (kv : string * option pystr) : pystr :=
  encode_str (Str.lit kv.1) ++ u ": " ++ encode_value kv.2.

(** [json.dumps(d, ensure_ascii=False, indent=2)] for a dictionary of
    strings and [None]s. *)
Definition dumps (d : list (string * option pystr)) : pystr :=
  match d with
  | [] => u "{}"
  | _ =>
    u "{" ++ [newline] ++ u "  "
    ++ Str.join (u "," ++ [newline] ++ u "  ") (map encode_item d)
    ++ [newline] ++ u "}"
  end.

End Json.

Inductive log_record : Type :=
| INFO (message : pystr)
| ERROR (message : pystr).

(** What a run of the command leaves: the strings printed, the records
    emitted through the logger of the module [misis_id/cli.py] (the
    records of the logger of [misis_id/client.py] are not among them), the
    argument of [sys.exit] if it was called, the exception that left the
    coroutine if one did, and the client when its scope was left. *)
Record cli_run : Type := Build_cli_run {
  stdout : list pystr;
  cli_log : list log_record;
  sys_exit : option Z;
  uncaught : option exn;
  client_at_exit : MisisClient
}.

(** The [e.message] of a [MisisError]. *)
Definition message_of (e : exn) : pystr :=
  match e with
  | AuthenticationError m | NetworkError m | ParseError m
  | SessionExpiredError m => m
  | _ => []
  end.

(** What is printed for a record: [json.dumps] of its dictionary, or the
    lines of [print_student_info_text]. *)
Definition printed (output_format : pystr) (student_info : StudentInfo) : list pystr :=
  if bool_decide (output_format = u "json")
  then [Json.dumps (StudentInfo_dict student_info)]
  else print_student_info_text student_info.

(** The handlers of the command: [except MisisError], then
    [except Exception], log the exception and call [sys.exit(1)]; an
    exception that is not an [Exception] leaves the coroutine. *)
Definition cli_handlers (E : Env) (records : list log_record) (e : exn)
    (c : MisisClient) : cli_run :=
  if is_MisisError e then
    Build_cli_run [] (records ++ [ERROR (u "Ошибка MISIS: " ++ message_of e)])
      (Some 1) None c
  else if is_Exception e then
    Build_cli_run [] (records ++ [ERROR (u "Неожиданная ошибка: " ++ exn_str E e)])
      (Some 1) None c
  else Build_cli_run [] records None (Some e) c.

(** The coroutine [get_student_info] of the command line:
    [async with MisisClient() as client] enters the client, and leaves it
    ([__aexit__], that is [close]) when the body returns and when it
    raises; an exception then reaches the handlers. *)
Definition cli_get_student_info (E : Env) (login password output_format : pystr)
    : cli_run :=
  let started := INFO (u "Начинаем аутентификацию...") in
  let fetching := INFO (u "Получаем информацию о студенте...") in
  let client := MisisClient_new 30 3 None in
  let '(_, client) := aenter client in
  match authenticate E login password client with
  | (Raise e, client) =>
    let '(_, client) := aexit client in
    cli_handlers E [started] e client
  | (Return _, client) =>
    match get_student_info E client with
    | (Raise e, client) =>
      let '(_, client) := aexit client in
      cli_handlers E [started; fetching] e client
    | (Return student_info, client) =>
      let out := printed output_format student_info in
      let '(_, client) := aexit client in
      Build_cli_run out [started; fetching] None None client
    end
  end.

(** ** More portals, for the examples *)

Module Fixtures2.

(** Every request fails with an [aiohttp.ClientError]. *)
Definition refused (t : list event) (req : request) : outcome :=
  RaisesClientError (u "Cannot connect to host lk.misis.ru:443").

Definition E_refused : Env := Build_Env refused (fun _ => []) Fixtures.no_rendering.

(** Every request runs into the timeout of the session, which is not an
    [aiohttp.ClientError]. *)
Definition timed_out (t : list event) (req : request) : outcome :=
  RaisesOther "TimeoutError" (u "").

Definition E_timeout : Env := Build_Env timed_out (fun _ => []) Fixtures.no_rendering.

(** The first two requests fail, the third is answered. *)
Definition flaky (t : list event) (req : request) : outcome :=
  if (length (requests_of t) <? 2)%nat
  then RaisesClientError (u "Server disconnected")
  else Responds Fixtures.login_page_response.

Definition E_flaky : Env :=
  Build_Env flaky (Fixtures.parser Fixtures.profile_html []) Fixtures.no_rendering.

(** A profile page whose name block has no heading. *)
Definition no_heading_doc : list node :=
  [Tag (u "div") [] (Some [u "person_name"]) [NavigableString (u " ")];
   Tag (u "div") [] (Some [u "person__info"])
     (flat_map (fun lv => Fixtures.row lv.1 lv.2) Fixtures.full_rows)].

Definition E_no_heading : Env :=
  Fixtures.env (Fixtures.redirect_to (u "/ru/s/12345")) Fixtures.profile_page
    no_heading_doc.

(** A page that carries the identifier of the account in a script. *)
Definition api_page : pystr :=
  u "<script>var au_api_url = '/ru/s12345/api';</script>".

(** A client that was handed a session by its caller. *)
Definition shared_client : MisisClient :=
  MisisClient_new 30 3 (Some (ClientSession_new 10)).

(** The record of the profile page of the fixtures. *)
Definition parsed : StudentInfo :=
  Build_StudentInfo (u "Иванов Иван Иванович") (u "12345678") (u "Очная")
    (u "Бакалавриат") None (u "09.03.01") (u "ИТ") (u "3")
    (u "ИТ-21-1") (u "Бюджет") (u "Да") (u "2025-06-30") None None None.

(** A record with a specialization and no e-mail. *)
Definition ivanov : StudentInfo :=
  Build_StudentInfo (u "Иванов Иван Иванович") (u "12345678") (u "Очная")
    (u "Бакалавриат") (Some (u "ИТ")) (u "09.03.01") (u "ИТ") (u "3")
    (u "ИТ-21-1") (u "Бюджет") (u "Да") (u "2025-06-30") None (Some (u "")) None.

End Fixtures2.

(** * Properties *)

(** ** The retry loop of [_make_request] *)

Section Retry.

Variable E : Env.

Lemma loop_unfold req k attempt :
  _make_request_loop E req (S k) attempt =
  (r <- try_except
          (response <- session_request E req;;
           if status response >=? 400 then
             n <- gets max_retries;;
             if attempt =? n - 1 then
               raise (NetworkError (u "HTTP " ++ Str.of_int (status response)
                                      ++ u ": " ++ reason response))
             else
               sleep (2 ^ attempt);;
               ret None
           else
             ret (Some (status response, text response,
                        final_url response, headers response)))
          (fun e =>
             match e with
             | ClientError _ =>
               n <- gets max_retries;;
               if attempt =? n - 1 then
                 raise (NetworkError (u "Ошибка сети: " ++ exn_str E e))
               else
                 sleep (2 ^ attempt);;
                 ret None
             | _ => raise e
             end);;
   match r with
   | Some x => ret x
   | None => _make_request_loop E req k (attempt + 1)
   end).
Proof. reflexivity. Qed.

(** A response below 400 ends the loop at once. *)
Lemma loop_success req k attempt c r :
  network E (trace c) req = Responds r ->
  status r < 400 ->
  _make_request_loop E req (S k) attempt c =
  (Return (status r, text r, final_url r, headers r),
   record_event (Requested req) c).
Proof.
  intros Hnet Hok. rewrite loop_unfold.
  unfold bind, try_except, session_request. rewrite Hnet.
  destruct (Z.geb_spec (status r) 400) as [Hge|_]; [lia|]. reflexivity.
Qed.

(** A failure before the last attempt: sleep [2 ^ attempt], go on. *)
Lemma loop_retry req k attempt c r :
  network E (trace c) req = Responds r ->
  400 <= status r ->
  attempt <> max_retries c - 1 ->
  _make_request_loop E req (S k) attempt c =
  _make_request_loop E req k (attempt + 1)
    (record_event (Slept (2 ^ attempt)) (record_event (Requested req) c)).
Proof.
  intros Hnet Hbad Hne. rewrite loop_unfold.
  unfold bind at 1. unfold try_except, bind, session_request. rewrite Hnet.
  destruct (Z.geb_spec (status r) 400) as [_|Hlt]; [|lia].
  unfold gets. cbn [max_retries record_event].
  destruct (Z.eqb_spec attempt (max_retries c - 1)) as [Heq|_]; [contradiction|].
  reflexivity.
Qed.

(** A failure at the last attempt: the error carries status and reason. *)
Lemma loop_give_up req k attempt c r :
  network E (trace c) req = Responds r ->
  400 <= status r ->
  attempt = max_retries c - 1 ->
  _make_request_loop E req (S k) attempt c =
  (Raise (NetworkError (u "HTTP " ++ Str.of_int (status r) ++ u ": " ++ reason r)),
   record_event (Requested req) c).
Proof.
  intros Hnet Hbad Heq. rewrite loop_unfold.
  unfold bind at 1. unfold try_except, bind, session_request. rewrite Hnet.
  destruct (Z.geb_spec (status r) 400) as [_|Hlt]; [|lia].
  unfold gets. cbn [max_retries record_event].
  destruct (Z.eqb_spec attempt (max_retries c - 1)) as [_|Hne]; [|contradiction].
  reflexivity.
Qed.

(** Against an endpoint that always fails, the attempts left are all
    made, with their sleeps, and the error of the last one is raised. *)
Lemma make_request_loop_always_fails req :
  always_fails E ->
  forall k attempt c,
    max_retries c = attempt + Z.of_nat (S k) ->
    exists r c',
      _make_request_loop E req (S k) attempt c =
        (Raise (NetworkError (u "HTTP " ++ Str.of_int (status r)
                                ++ u ": " ++ reason r)), c')
      /\ trace c' = trace c ++ failed_attempts req (S k) attempt.
Proof.
  intros Hfail. induction k as [|k IH]; intros attempt c Hmax.
  - destruct (Hfail (trace c) req) as (r & Hnet & Hbad).
    exists r, (record_event (Requested req) c).
    rewrite (loop_give_up req 0 attempt c r Hnet Hbad) by lia.
    split; reflexivity.
  - destruct (Hfail (trace c) req) as (r & Hnet & Hbad).
    rewrite (loop_retry req (S k) attempt c r Hnet Hbad) by lia.
    destruct (IH (attempt + 1)
                (record_event (Slept (2 ^ attempt)) (record_event (Requested req) c)))
      as (r' & c' & Hrun & Htrace).
    { cbn [max_retries record_event]. lia. }
    exists r', c'. split; [exact Hrun|].
    rewrite Htrace. cbn [trace record_event]. rewrite <- !app_assoc.
    reflexivity.
Qed.

Lemma requests_of_failed_attempts req k : forall attempt,
  requests_of (failed_attempts req k attempt) = replicate k req.
Proof.
  induction k as [|k IH]; intros attempt; [reflexivity|].
  destruct k as [|k]; [reflexivity|].
  change (requests_of (failed_attempts req (S (S k)) attempt))
    with (req :: requests_of (failed_attempts req (S k) (attempt + 1))).
  rewrite IH. reflexivity.
Qed.

Lemma sleeps_of_failed_attempts req k : forall attempt,
  sleeps_of (failed_attempts req (S k) attempt)
  = map (fun i => 2 ^ (attempt + Z.of_nat i)) (seq 0 k).
Proof.
  induction k as [|k IH]; intros attempt; [reflexivity|].
  change (sleeps_of (failed_attempts req (S (S k)) attempt))
    with (2 ^ attempt :: sleeps_of (failed_attempts req (S k) (attempt + 1))).
  rewrite IH. cbn [seq map]. rewrite Z.add_0_r. f_equal.
  rewrite <- seq_shift, map_map. apply map_ext. intros i. f_equal. lia.
Qed.

(** With no attempt to make ([max_retries <= 0]) no request is issued. *)
Lemma make_request_no_attempt req c :
  max_retries c <= 0 ->
  exists c',
    _make_request E req c =
      (Raise (NetworkError (u "Превышено максимальное количество попыток")), c')
    /\ trace c' = trace c.
Proof.
  intros Hmax. unfold _make_request, _get_session, bind, gets, modify, ret.
  replace (Z.to_nat (max_retries c)) with 0%nat by lia.
  destruct (_session c); cbn [max_retries set_session];
    replace (Z.to_nat (max_retries c)) with 0%nat by lia;
    eexists; split; reflexivity.
Qed.

Lemma make_request_unfold req c :
  _make_request E req c =
  _make_request_loop E req (Z.to_nat (max_retries c)) 0
    (match _session c with
     | None => set_session (Some (ClientSession_new (timeout c))) c
     | Some _ => c
     end).
Proof.
  unfold _make_request, _get_session, bind, gets, modify, ret.
  destruct (_session c); reflexivity.
Qed.

(** Whatever the number [n > 0] of attempts configured, an endpoint that
    always fails gets exactly [n] requests, with the sleeps [2^0], ...,
    [2^(n-2)] between them. *)
Lemma make_request_always_fails req c n :
  always_fails E ->
  max_retries c = Z.of_nat (S n) ->
  exists r c',
    _make_request E req c =
      (Raise (NetworkError (u "HTTP " ++ Str.of_int (status r)
                              ++ u ": " ++ reason r)), c')
    /\ requests_of (trace c') = requests_of (trace c) ++ replicate (S n) req
    /\ sleeps_of (trace c')
       = sleeps_of (trace c) ++ map (fun i => 2 ^ Z.of_nat i) (seq 0 n).
Proof.
  intros Hfail Hmax. rewrite make_request_unfold, Hmax, Nat2Z.id.
  set (c0 := match _session c with
             | None => set_session (Some (ClientSession_new (timeout c))) c
             | Some _ => c
             end).
  assert (Ht0 : trace c0 = trace c) by (subst c0; destruct (_session c); reflexivity).
  assert (Hm0 : max_retries c0 = 0 + Z.of_nat (S n))
    by (subst c0; destruct (_session c); cbn [max_retries set_session]; lia).
  clearbody c0.
  destruct (make_request_loop_always_fails req Hfail n 0 c0 Hm0)
    as (r & c' & Hrun & Htrace).
  exists r, c'. split; [exact Hrun|]. rewrite Htrace, Ht0.
  unfold requests_of, sleeps_of. rewrite !omap_app.
  fold (requests_of (failed_attempts req (S n) 0)).
  fold (sleeps_of (failed_attempts req (S n) 0)).
  rewrite requests_of_failed_attempts, sleeps_of_failed_attempts.
  split; reflexivity.
Qed.

(** C5. With [max_retries = 3] and an endpoint that always answers with a
    status of 400 or more, [_make_request] issues exactly three requests,
    sleeps [2^0] then [2^1] between them (delays that do not decrease) and
    raises the [NetworkError] of the last status and reason; and when the
    first response is below 400 it returns it after that one request,
    without sleeping, as does the loop at any attempt whose response is
    below 400. *)
Theorem C5_retry_backoff (c : MisisClient) (req : request) :
  max_retries c = 3 ->
  (always_fails E ->
   exists r3 c',
     _make_request E req c =
       (Raise (NetworkError (u "HTTP " ++ Str.of_int (status r3)
                               ++ u ": " ++ reason r3)), c')
     /\ trace c' = trace c ++ [Requested req; Slept (2 ^ 0); Requested req;
                               Slept (2 ^ 1); Requested req]
     /\ network E (trace c ++ [Requested req; Slept (2 ^ 0); Requested req;
                               Slept (2 ^ 1)]) req = Responds r3
     /\ requests_of (trace c') = requests_of (trace c) ++ [req; req; req]
     /\ sleeps_of (trace c') = sleeps_of (trace c) ++ [2 ^ 0; 2 ^ 1]
     /\ 2 ^ 0 <= 2 ^ 1)
  /\ (forall r, network E (trace c) req = Responds r -> status r < 400 ->
      exists c',
        _make_request E req c =
          (Return (status r, text r, final_url r, headers r), c')
        /\ trace c' = trace c ++ [Requested req])
  /\ (forall k attempt c1 r,
        network E (trace c1) req = Responds r -> status r < 400 ->
        _make_request_loop E req (S k) attempt c1 =
          (Return (status r, text r, final_url r, headers r),
           record_event (Requested req) c1)).
Proof.
  intros Hmax. rewrite make_request_unfold, Hmax.
  set (c0 := match _session c with
             | None => set_session (Some (ClientSession_new (timeout c))) c
             | Some _ => c
             end).
  assert (Ht0 : trace c0 = trace c) by (subst c0; destruct (_session c); reflexivity).
  assert (Hm0 : max_retries c0 = 3) by (subst c0; destruct (_session c); assumption).
  clearbody c0. split; [|split].
  - intros Hfail.
    destruct (Hfail (trace c0) req) as (r1 & Hn1 & Hs1).
    set (c1 := record_event (Slept (2 ^ 0)) (record_event (Requested req) c0)).
    destruct (Hfail (trace c1) req) as (r2 & Hn2 & Hs2).
    set (c2 := record_event (Slept (2 ^ (0 + 1))) (record_event (Requested req) c1)).
    destruct (Hfail (trace c2) req) as (r3 & Hn3 & Hs3).
    exists r3, (record_event (Requested req) c2).
    change (Z.to_nat 3) with 3%nat.
    rewrite (loop_retry req 2 0 c0 r1 Hn1 Hs1) by (rewrite Hm0; lia).
    fold c1.
    rewrite (loop_retry req 1 (0 + 1) c1 r2 Hn2 Hs2) by (subst c1; cbn; rewrite Hm0; lia).
    fold c2.
    rewrite (loop_give_up req 0 (0 + 1 + 1) c2 r3 Hn3 Hs3)
      by (subst c2 c1; cbn; rewrite Hm0; lia).
    assert (Ht2 : trace c2 = trace c ++ [Requested req; Slept (2 ^ 0); Requested req;
                                        Slept (2 ^ 1)]).
    { subst c2 c1. cbn [trace record_event]. rewrite Ht0, <- !app_assoc. reflexivity. }
    split; [reflexivity|]. split.
    + cbn [trace record_event]. rewrite Ht2, <- app_assoc. reflexivity.
    + split; [rewrite <- Ht2; exact Hn3|].
      cbn [trace record_event]. rewrite Ht2.
      unfold requests_of, sleeps_of. rewrite !omap_app. cbn [omap list_omap].
      rewrite <- !app_assoc. cbn. repeat split; try reflexivity; lia.
  - intros r Hnet Hok. rewrite <- Ht0 in Hnet.
    exists (record_event (Requested req) c0).
    change (Z.to_nat 3) with 3%nat.
    rewrite (loop_success req 2 0 c0 r Hnet Hok). split; [reflexivity|].
    cbn [trace record_event]. rewrite Ht0. reflexivity.
  - intros k attempt c1 r Hnet Hok. exact (loop_success req k attempt c1 r Hnet Hok).
Qed.

End Retry.

Lemma C5_retry_backoff_witness :
  (exists r3 c',
     _make_request Fixtures.E_500 Fixtures.get_login_page Fixtures.client0 =
       (Raise (NetworkError (u "HTTP " ++ Str.of_int (status r3)
                               ++ u ": " ++ reason r3)), c')
     /\ trace c' = trace Fixtures.client0
                   ++ [Requested Fixtures.get_login_page; Slept (2 ^ 0);
                       Requested Fixtures.get_login_page; Slept (2 ^ 1);
                       Requested Fixtures.get_login_page]
     /\ network Fixtures.E_500
          (trace Fixtures.client0
           ++ [Requested Fixtures.get_login_page; Slept (2 ^ 0);
               Requested Fixtures.get_login_page; Slept (2 ^ 1)])
          Fixtures.get_login_page = Responds r3
     /\ requests_of (trace c')
        = requests_of (trace Fixtures.client0)
          ++ [Fixtures.get_login_page; Fixtures.get_login_page;
              Fixtures.get_login_page]
     /\ sleeps_of (trace c') = sleeps_of (trace Fixtures.client0) ++ [2 ^ 0; 2 ^ 1]
     /\ 2 ^ 0 <= 2 ^ 1)
  /\ (exists c',
        _make_request Fixtures.E_ok Fixtures.get_login_page Fixtures.client0 =
          (Return (status Fixtures.login_page_response,
                   text Fixtures.login_page_response,
                   final_url Fixtures.login_page_response,
                   headers Fixtures.login_page_response), c')
        /\ trace c' = trace Fixtures.client0 ++ [Requested Fixtures.get_login_page]).
Proof.
  split.
  - apply (proj1 (C5_retry_backoff Fixtures.E_500 Fixtures.client0
                    Fixtures.get_login_page eq_refl)).
    intros t req. eexists. split; [reflexivity|]. vm_compute. discriminate.
  - apply (proj1 (proj2 (C5_retry_backoff Fixtures.E_ok Fixtures.client0
                           Fixtures.get_login_page eq_refl))
             Fixtures.login_page_response).
    + vm_compute. reflexivity.
    + vm_compute. reflexivity.
Defined.

(** ** The monad *)

Section Effects.

Context {A B : Type}.

Lemma bind_inv (m : M A) (f : A -> M B) c r c' :
  bind m f c = (r, c') ->
  (exists a c1, m c = (Return a, c1) /\ f a c1 = (r, c'))
  \/ (exists e, m c = (Raise e, c') /\ r = Raise e).
Proof.
  unfold bind. destruct (m c) as [[a|e] c1]; intros H.
  - left. eauto.
  - right. inversion H; subst. eauto.
Qed.

Lemma try_except_inv (m : M A) (h : exn -> M A) c r c' :
  try_except m h c = (r, c') ->
  (exists a, m c = (Return a, c') /\ r = Return a)
  \/ (exists e c1, m c = (Raise e, c1) /\ is_Exception e = true /\ h e c1 = (r, c'))
  \/ (exists e, m c = (Raise e, c') /\ is_Exception e = false /\ r = Raise e).
Proof.
  unfold try_except. destruct (m c) as [[a|e] c1]; intros H.
  - left. inversion H; subst. eauto.
  - right. destruct (is_Exception e) eqn:He.
    + left. eauto.
    + right. inversion H; subst. eauto.
Qed.

Lemma keeps_bind (m : M A) (f : A -> M B) :
  keeps_session m -> (forall a, keeps_session (f a)) -> keeps_session (bind m f).
Proof.
  intros Hm Hf c r c' H. apply bind_inv in H as [(a & c1 & H1 & H2)|(e & H1 & _)].
  - rewrite (Hf _ _ _ _ H2). eauto.
  - eauto.
Qed.

Lemma keeps_try_except (m : M A) (h : exn -> M A) :
  keeps_session m -> (forall e, keeps_session (h e)) -> keeps_session (try_except m h).
Proof.
  intros Hm Hh c r c' H.
  apply try_except_inv in H as [(a & H1 & _)|[(e & c1 & H1 & _ & H2)|(e & H1 & _)]].
  - eauto.
  - rewrite (Hh _ _ _ _ H2). eauto.
  - eauto.
Qed.

Lemma keeps_ret (a : A) : keeps_session (ret a).
Proof. intros c r c' H. inversion H; reflexivity. Qed.

Lemma keeps_raise (e : exn) : keeps_session (raise (A := A) e).
Proof. intros c r c' H. inversion H; reflexivity. Qed.

Lemma keeps_lift (x : result A) : keeps_session (lift x).
Proof. intros c r c' H. inversion H; reflexivity. Qed.

Lemma keeps_gets (f : MisisClient -> A) : keeps_session (gets f).
Proof. intros c r c' H. inversion H; reflexivity. Qed.

(** What leaves a [try] is what its handler raises, or an exception that
    is not an [Exception]. *)
Lemma raises_only_try_except (P : exn -> Prop) (m : M A) (h : exn -> M A) :
  (forall e, is_Exception e = true -> raises_only P (h e)) ->
  (forall e, is_Exception e = false -> P e) ->
  raises_only P (try_except m h).
Proof.
  intros Hh Hb c e c' H.
  apply try_except_inv in H as [(a & _ & Hr)|[(e0 & c1 & _ & He & H2)|(e0 & _ & He & Hr)]].
  - discriminate.
  - exact (Hh e0 He c1 e c' H2).
  - injection Hr as ->. exact (Hb e0 He).
Qed.

Lemma raises_only_raise (P : exn -> Prop) (e : exn) :
  P e -> raises_only P (raise (A := A) e).
Proof. intros HP c e' c' H. inversion H; subst; assumption. Qed.

End Effects.

Lemma keeps_modify (f : MisisClient -> MisisClient) :
  (forall c, _session_info (f c) = _session_info c) -> keeps_session (modify f).
Proof. intros Hf c r c' H. inversion H; subst. apply Hf. Qed.

Ltac keeps :=
  repeat first
    [ apply keeps_bind; [|intros ?]
    | apply keeps_try_except; [|intros ?]
    | apply keeps_ret | apply keeps_raise | apply keeps_lift | apply keeps_gets
    | apply keeps_modify; intros ?; reflexivity
    | match goal with
      | |- keeps_session (if ?b then _ else _) => destruct b
      | |- keeps_session (match ?x with _ => _ end) => destruct x
      end
    | assumption ].

(** ** The transport keeps the session *)

Section Transport.

Variable E : Env.

Lemma keeps_session_request req : keeps_session (session_request E req).
Proof.
  intros c r c'. unfold session_request.
  destruct (network E (trace c) req); intros H; inversion H; reflexivity.
Qed.

Lemma keeps_sleep n : keeps_session (sleep n).
Proof. apply keeps_modify. reflexivity. Qed.

Lemma keeps_get_session : keeps_session _get_session.
Proof. unfold _get_session. keeps. Qed.

Lemma keeps_make_request_loop req k : forall attempt,
  keeps_session (_make_request_loop E req k attempt).
Proof.
  induction k as [|k IH]; intros attempt.
  - apply keeps_raise.
  - rewrite loop_unfold.
    apply keeps_bind.
    + apply keeps_try_except.
      * apply keeps_bind; [apply keeps_session_request|intros resp].
        destruct (status resp >=? 400); [|apply keeps_ret].
        apply keeps_bind; [apply keeps_gets|intros n].
        destruct (attempt =? n - 1); [apply keeps_raise|].
        apply keeps_bind; [apply keeps_sleep|intros _; apply keeps_ret].
      * intros e. destruct e; try apply keeps_raise.
        apply keeps_bind; [apply keeps_gets|intros n].
        destruct (attempt =? n - 1); [apply keeps_raise|].
        apply keeps_bind; [apply keeps_sleep|intros _; apply keeps_ret].
    + intros [x|]; [apply keeps_ret|apply IH].
Qed.

Lemma keeps_make_request req : keeps_session (_make_request E req).
Proof.
  unfold _make_request.
  apply keeps_bind; [apply keeps_get_session|intros _].
  apply keeps_bind; [apply keeps_gets|intros n].
  apply keeps_make_request_loop.
Qed.

(** [_make_request] raises nothing of [MisisError] but [NetworkError]. *)
Lemma make_request_loop_raises req k : forall attempt,
  raises_only (fun e => is_MisisError e = true -> exists m, e = NetworkError m)
    (_make_request_loop E req k attempt).
Proof.
  induction k as [|k IH]; intros attempt c e c' H.
  - inversion H; subst. eauto.
  - rewrite loop_unfold in H.
    apply bind_inv in H as [(r & c1 & H1 & H2)|(e0 & H1 & Heq)].
    + destruct r as [x|]; [inversion H2|]. exact (IH _ _ _ _ H2).
    + inversion Heq; subst e0. clear Heq.
      apply try_except_inv in H1
        as [(a & _ & Hr)|[(e1 & c1 & H1 & _ & H2)|(e1 & _ & He & Hr)]];
        [discriminate| |injection Hr as ->; destruct e1; discriminate].
      apply bind_inv in H1 as [(resp & c2 & H1 & H3)|(e2 & H1 & Heq)].
      * destruct (status resp >=? 400); [|inversion H3].
        apply bind_inv in H3 as [(n & c3 & _ & H3)|(e2 & H3 & _)];
          [|inversion H3].
        destruct (attempt =? n - 1).
        -- inversion H3; subst e1. inversion H2; subst. eauto.
        -- apply bind_inv in H3 as [(? & ? & _ & H3)|(e2 & H3 & _)];
             inversion H3.
      * inversion Heq; subst e2. clear Heq.
        unfold session_request in H1.
        destruct (network E (trace c) req); inversion H1; subst.
        -- apply bind_inv in H2 as [(n & c3 & _ & H3)|(e2 & H3 & _)];
             [|inversion H3].
           destruct (attempt =? n - 1).
           ++ inversion H3; subst. eauto.
           ++ apply bind_inv in H3 as [(? & ? & _ & H3)|(e2 & H3 & _)];
                inversion H3.
        -- inversion H2; subst. intros Hm. discriminate.
        -- inversion H2; subst. intros Hm. discriminate.
Qed.

Lemma make_request_raises req :
  raises_only (fun e => is_MisisError e = true -> exists m, e = NetworkError m)
    (_make_request E req).
Proof.
  intros c e c' H. unfold _make_request in H.
  apply bind_inv in H as [(s & c1 & _ & H)|(e0 & H & _)].
  - apply bind_inv in H as [(n & c2 & _ & H)|(e0 & H & _)]; [|inversion H].
    exact (make_request_loop_raises _ _ _ _ _ _ H).
  - unfold _get_session in H.
    apply bind_inv in H as [(s & c1 & _ & H)|(e1 & H & _)]; [|inversion H].
    destruct s; [inversion H|].
    apply bind_inv in H as [(? & ? & _ & H)|(e1 & H & _)]; [|inversion H].
    apply bind_inv in H as [(? & ? & _ & H)|(e1 & H & _)]; inversion H.
Qed.

Lemma keeps_get_csrf_token : keeps_session (_get_csrf_token E).
Proof.
  unfold _get_csrf_token. apply keeps_try_except.
  - apply keeps_bind; [apply keeps_make_request|intros [[[st tx] url] h]].
    keeps.
  - intros e. destruct e; apply keeps_raise.
Qed.

(** Of the exceptions that are [Exception]s, [_get_csrf_token] raises
    [ParseError] and [NetworkError] only. *)
Lemma get_csrf_token_raises :
  raises_only (fun e => is_Exception e = false
                        \/ exists m, e = ParseError m \/ e = NetworkError m)
    (_get_csrf_token E).
Proof.
  unfold _get_csrf_token. apply raises_only_try_except; [|auto].
  intros e _; destruct e; apply raises_only_raise; eauto.
Qed.

End Transport.

(** ** The models *)

Lemma truthy_true (s : pystr) : Str.truthy s = true <-> s <> [].
Proof. destruct s; cbn; split; congruence. Qed.

Lemma truthy_false (s : pystr) : Str.truthy s = false <-> s = [].
Proof. destruct s; cbn; split; congruence. Qed.

Lemma strip_nil : Str.strip [] = [].
Proof. reflexivity. Qed.

(** The test [not v or not v.strip()] of the validators is the test that
    the stripped value is empty. *)
Lemma blank_test (v : pystr) :
  negb (Str.truthy v) || negb (Str.truthy (Str.strip v)) = negb (Str.truthy (Str.strip v)).
Proof. destruct v; reflexivity. Qed.

Lemma SessionInfo_new_inv a t b s :
  SessionInfo_new a t b = Return s ->
  api_id s = Str.strip a /\ csrf_token s = Str.strip t /\ is_authenticated s = b
  /\ Str.strip a <> [] /\ Str.strip t <> [].
Proof.
  unfold SessionInfo_new, validate_api_id, validate_csrf_token.
  rewrite !blank_test.
  destruct (Str.truthy (Str.strip a)) eqn:Ha, (Str.truthy (Str.strip t)) eqn:Ht;
    cbn [negb construct ap Pydantic.run]; intros H; try discriminate H.
  injection H as <-. cbn [api_id csrf_token is_authenticated].
  apply truthy_true in Ha, Ht. auto.
Qed.

Lemma SessionInfo_new_ok a t b :
  Str.strip a <> [] -> Str.strip t <> [] ->
  SessionInfo_new a t b = Return (Build_SessionInfo (Str.strip a) (Str.strip t) b).
Proof.
  intros Ha Ht. apply truthy_true in Ha, Ht.
  unfold SessionInfo_new, validate_api_id, validate_csrf_token.
  rewrite !blank_test, Ha, Ht. reflexivity.
Qed.

Lemma AuthenticationData_new_inv l p d :
  AuthenticationData_new l p = Return d ->
  d = Build_AuthenticationData (Str.strip l) p false
  /\ Str.strip l <> [] /\ p <> [].
Proof.
  unfold AuthenticationData_new, validate_login, validate_password.
  rewrite blank_test.
  destruct (Str.truthy (Str.strip l)) eqn:Hl, (Str.truthy p) eqn:Hp;
    cbn [negb construct ap Pydantic.run]; intros H; try discriminate H.
  injection H as <-.
  apply truthy_true in Hl, Hp. auto.
Qed.

Lemma AuthenticationData_new_ok l p :
  Str.strip l <> [] -> p <> [] ->
  AuthenticationData_new l p = Return (Build_AuthenticationData (Str.strip l) p false).
Proof.
  intros Hl Hp. apply truthy_true in Hl, Hp.
  unfold AuthenticationData_new, validate_login, validate_password.
  rewrite blank_test, Hl, Hp. reflexivity.
Qed.

Lemma AuthenticationData_new_invalid l p :
  Str.strip l = [] \/ p = [] ->
  exists errors,
    AuthenticationData_new l p = Raise (ValidationError "AuthenticationData" errors).
Proof.
  intros H. unfold AuthenticationData_new, validate_login, validate_password.
  rewrite blank_test.
  destruct (Str.truthy (Str.strip l)) eqn:Hl, (Str.truthy p) eqn:Hp;
    cbn [negb construct ap Pydantic.run]; eauto.
  apply truthy_true in Hl, Hp. destruct H; contradiction.
Qed.

(** ** [authenticate] and [get_student_info], step by step *)

Ltac inj_pair H :=
  first [discriminate H | injection H as ? ?; subst].

Ltac inv_step :=
  match goal with
  | H : bind _ _ _ = (_, _) |- _ =>
    apply bind_inv in H as [(? & ? & ? & H)|(? & H & ?)]
  | H : raise _ _ = (_, _) |- _ => unfold raise in H; inj_pair H
  | H : ret _ _ = (_, _) |- _ => unfold ret in H; inj_pair H
  | H : lift _ _ = (_, _) |- _ => unfold lift in H; inj_pair H
  | H : gets _ _ = (_, _) |- _ => unfold gets in H; inj_pair H
  | H : modify _ _ = (_, _) |- _ => unfold modify in H; inj_pair H
  | H : (if ?b then _ else _) _ = (_, _) |- _ => destruct b eqn:?
  | H : (match ?x with Some _ => _ | None => _ end) _ = (_, _) |- _ =>
    destruct x eqn:?
  end.

Section Session.

Variable E : Env.

(** What [authenticate] does to the session of the client: a call that
    returns has stored the session it returns, built by [SessionInfo]
    with the flag set; a call that raises has left the client's session
    as it was. *)
Lemma authenticate_outcome l p c r c' :
  authenticate E l p c = (r, c') ->
  (exists info a t,
      r = Return info /\ SessionInfo_new a t true = Return info
      /\ _session_info c' = Some info)
  \/ (exists e, r = Raise e /\ _session_info c' = _session_info c).
Proof.
  unfold authenticate. intros H.
  apply bind_inv in H as [(d & c0 & Hd & H)|(e & H & Hr)].
  2:{ right. unfold lift in H. injection H as H <-. eauto. }
  unfold lift in Hd. injection Hd as Hd <-.
  apply try_except_inv in H as [(info & H & Hr)|Hraise].
  - left. subst r.
    apply bind_inv in H as [(tok & c1 & Htok & H)|(e & H & Hr)]; [|discriminate].
    apply bind_inv in H as [(x & c2 & Hreq & H)|(e & H & Hr)]; [|discriminate].
    destruct x as [[[st tx] url] h].
    repeat inv_step; try discriminate.
    eexists _, _, _; split; [reflexivity|split; [eassumption|reflexivity]].
  - right.
    assert (Hkeep : exists e c1,
               _session_info c1 = _session_info c
               /\ ((r, c') = (Raise e, c1)
                   \/ exists m, (r, c') = (Raise (AuthenticationError m), c1))).
    { destruct Hraise as [(e & c1 & H & _ & Hh)|(e & H & _ & Hr)].
      - exists (match r with Raise e' => e' | _ => e end), c1. split.
        + apply bind_inv in H as [(tok & c2 & Htok & H)|(e0 & H & Hr)].
          2:{ exact (keeps_get_csrf_token E _ _ _ H). }
          apply bind_inv in H as [(x & c3 & Hreq & H)|(e0 & H & Hr)].
          2:{ rewrite (keeps_make_request E _ _ _ _ H).
              exact (keeps_get_csrf_token E _ _ _ Htok). }
          assert (Hc3 : _session_info c3 = _session_info c).
          { rewrite (keeps_make_request E _ _ _ _ Hreq).
            exact (keeps_get_csrf_token E _ _ _ Htok). }
          destruct x as [[[st tx] url] h].
          repeat inv_step; try discriminate; try assumption.
        + left. destruct e; unfold raise in Hh; injection Hh as <- <-; reflexivity.
      - exists e, c'. subst r. split; [|left; reflexivity].
        apply bind_inv in H as [(tok & c2 & Htok & H)|(e0 & H & Hr)].
        2:{ exact (keeps_get_csrf_token E _ _ _ H). }
        apply bind_inv in H as [(x & c3 & Hreq & H)|(e0 & H & Hr)].
        2:{ rewrite (keeps_make_request E _ _ _ _ H).
            exact (keeps_get_csrf_token E _ _ _ Htok). }
        assert (Hc3 : _session_info c3 = _session_info c).
        { rewrite (keeps_make_request E _ _ _ _ Hreq).
          exact (keeps_get_csrf_token E _ _ _ Htok). }
        destruct x as [[[st tx] url] h].
        repeat inv_step; try discriminate; try assumption. }
    destruct Hkeep as (e & c1 & Hk & [Heq | [m Heq]]); injection Heq as -> ->; eauto.
Qed.

End Session.

(** ** C1: the check of the redirect *)

Section Redirect.

Variable E : Env.

(** The path through [authenticate] when the token is read and the login
    POST is answered. *)
Lemma authenticate_accepts l p c d tok c1 st tx url h c2 location rest id :
  AuthenticationData_new l p = Return d ->
  _get_csrf_token E c = (Return tok, c1) ->
  _make_request E (login_request d tok) c1 = (Return (st, tx, url, h), c2) ->
  headers_get (u "Location") h = Some location ->
  Str.truthy location = true ->
  Str.contains (u "/s") location = true ->
  st = 302 \/ st = 200 ->
  Str.contains (u "Неверный логин или пароль") tx = false ->
  Str.split (u "/ru/") location !! 1%nat = Some rest ->
  Str.split (u "/") rest !! 0%nat = Some id ->
  Str.strip id <> [] ->
  Str.strip tok <> [] ->
  authenticate E l p c =
  (Return (Build_SessionInfo (Str.strip id) (Str.strip tok) true),
   set_session_info (Some (Build_SessionInfo (Str.strip id) (Str.strip tok) true)) c2).
Proof.
  intros Hd Htok Hreq Hloc Htruthy Hmark Hst Htx Hrest Hid Hid' Htok'.
  unfold authenticate, bind, lift, try_except.
  rewrite Hd, Htok, Hreq, Hloc, Htruthy, Hmark, Htx.
  assert (Hin : status_in st [302; 200] = true).
  { destruct Hst; subst st; reflexivity. }
  rewrite Hin. cbn [negb].
  unfold subscript. rewrite Hrest, Hid.
  rewrite (SessionInfo_new_ok id tok true Hid' Htok'). reflexivity.
Qed.

(** No [Location] header: "invalid credentials". *)
Lemma authenticate_no_location l p c d tok c1 st tx url h c2 :
  AuthenticationData_new l p = Return d ->
  _get_csrf_token E c = (Return tok, c1) ->
  _make_request E (login_request d tok) c1 = (Return (st, tx, url, h), c2) ->
  headers_get (u "Location") h = None ->
  authenticate E l p c =
  (Raise (AuthenticationError (u "Неверный логин или пароль")), c2).
Proof.
  intros Hd Htok Hreq Hloc.
  unfold authenticate, bind, lift, try_except.
  rewrite Hd, Htok, Hreq, Hloc. reflexivity.
Qed.

(** A [Location] without ["/s"]: "invalid credentials". *)
Lemma authenticate_no_marker l p c d tok c1 st tx url h c2 location :
  AuthenticationData_new l p = Return d ->
  _get_csrf_token E c = (Return tok, c1) ->
  _make_request E (login_request d tok) c1 = (Return (st, tx, url, h), c2) ->
  headers_get (u "Location") h = Some location ->
  Str.contains (u "/s") location = false ->
  authenticate E l p c =
  (Raise (AuthenticationError (u "Неверный логин или пароль")), c2).
Proof.
  intros Hd Htok Hreq Hloc Hmark.
  unfold authenticate, bind, lift, try_except.
  rewrite Hd, Htok, Hreq, Hloc, Hmark.
  destruct (Str.truthy location); reflexivity.
Qed.

(** The redirect to [/ru/s/12345] is accepted, with account [s]. *)
Lemma authenticate_s_12345 l p c d tok c1 st tx url h c2 :
  AuthenticationData_new l p = Return d ->
  _get_csrf_token E c = (Return tok, c1) ->
  _make_request E (login_request d tok) c1 = (Return (st, tx, url, h), c2) ->
  headers_get (u "Location") h = Some (u "/ru/s/12345") ->
  st = 302 \/ st = 200 ->
  Str.contains (u "Неверный логин или пароль") tx = false ->
  Str.strip tok <> [] ->
  authenticate E l p c =
  (Return (Build_SessionInfo (u "s") (Str.strip tok) true),
   set_session_info (Some (Build_SessionInfo (u "s") (Str.strip tok) true)) c2).
Proof.
  intros Hd Htok Hreq Hloc Hst Htx Htok'.
  change (u "s") with (Str.strip (u "s")) at 1 2.
  apply (authenticate_accepts l p c d tok c1 st tx url h c2
           (u "/ru/s/12345") (u "s/12345") (u "s"));
    first [assumption | vm_compute; reflexivity | vm_compute; discriminate].
Qed.

(** C1. A login POST answered by a redirect whose [Location] is
    [/ru/sign_in] (the sign-in page itself) passes the check of the marker,
    because ["/s"] occurs in ["/sign_in"]: [authenticate] returns a session
    whose account identifier is ["sign_in"], where the specification asks
    for an authentication error. *)
Theorem C1_sign_in_redirect_accepted l p c d tok c1 st tx url h c2 :
  AuthenticationData_new l p = Return d ->
  _get_csrf_token E c = (Return tok, c1) ->
  _make_request E (login_request d tok) c1 = (Return (st, tx, url, h), c2) ->
  headers_get (u "Location") h = Some (u "/ru/sign_in") ->
  st = 302 \/ st = 200 ->
  Str.contains (u "Неверный логин или пароль") tx = false ->
  Str.strip tok <> [] ->
  authenticate E l p c =
  (Return (Build_SessionInfo (u "sign_in") (Str.strip tok) true),
   set_session_info
     (Some (Build_SessionInfo (u "sign_in") (Str.strip tok) true)) c2).
Proof.
  intros Hd Htok Hreq Hloc Hst Htx Htok'.
  change (u "sign_in") with (Str.strip (u "sign_in")) at 1 2.
  apply (authenticate_accepts l p c d tok c1 st tx url h c2
           (u "/ru/sign_in") (u "sign_in") (u "sign_in"));
    first [assumption | vm_compute; reflexivity | vm_compute; discriminate].
Qed.

End Redirect.

Lemma C1_sign_in_redirect_accepted_witness :
  authenticate Fixtures.E_sign_in (u "user") (u "pw") Fixtures.client0 =
  (Return (Build_SessionInfo (u "sign_in") (Str.strip (u "tok123")) true),
   set_session_info
     (Some (Build_SessionInfo (u "sign_in") (Str.strip (u "tok123")) true))
     (_make_request Fixtures.E_sign_in
        (login_request (Build_AuthenticationData (u "user") (u "pw") false)
           (u "tok123"))
        (_get_csrf_token Fixtures.E_sign_in Fixtures.client0).2).2).
Proof.
  refine (C1_sign_in_redirect_accepted Fixtures.E_sign_in (u "user") (u "pw")
            Fixtures.client0 (Build_AuthenticationData (u "user") (u "pw") false)
            (u "tok123") (_get_csrf_token Fixtures.E_sign_in Fixtures.client0).2
            302 (u "") AUTH_URL [(u "Location", u "/ru/sign_in")] _
            _ _ _ _ _ _ _).
  - vm_compute. reflexivity.
  - vm_compute. reflexivity.
  - vm_compute. reflexivity.
  - vm_compute. reflexivity.
  - left. reflexivity.
  - vm_compute. reflexivity.
  - vm_compute. discriminate.
Defined.

(** ** The session of the client *)

Section SessionState.

Variable E : Env.

Lemma keeps_close : keeps_session close.
Proof. unfold close. keeps. Qed.

Lemma keeps_aenter : keeps_session aenter.
Proof. unfold aenter. keeps. Qed.

(** Without an authenticated session, [get_student_info] raises
    [SessionExpiredError] and does nothing else. *)
Lemma get_student_info_unauthenticated c :
  client_is_authenticated c = false ->
  get_student_info E c =
  (Raise (SessionExpiredError (u "Необходима аутентификация")), c).
Proof.
  unfold client_is_authenticated, get_student_info, bind, gets.
  destruct (_session_info c) as [s|]; [|reflexivity].
  intros ->. reflexivity.
Qed.

(** The profile fetch ends on the sign-in page: the flag of the session is
    set to [False] and [SessionExpiredError] is raised. *)
Lemma get_student_info_expired c s st tx url h c2 :
  _session_info c = Some s ->
  is_authenticated s = true ->
  _make_request E (profile_request (api_id s)) c = (Return (st, tx, url, h), c2) ->
  Str.contains (u "sign_in") url = true ->
  get_student_info E c =
  (Raise (SessionExpiredError (u "Сессия истекла")),
   set_session_info (Some (set_is_authenticated false s)) c2).
Proof.
  intros Hs Hauth Hreq Hurl.
  assert (Hs2 : _session_info c2 = Some s).
  { rewrite (keeps_make_request E _ _ _ _ Hreq). exact Hs. }
  unfold get_student_info, bind at 1, gets. rewrite Hs, Hauth. cbn [negb].
  unfold try_except, bind. rewrite Hreq, Hurl.
  unfold modify, raise. rewrite Hs2. reflexivity.
Qed.

(** What [get_student_info] does to the session: nothing, or the flip of
    the flag to [False] together with [SessionExpiredError]. *)
Lemma get_student_info_outcome c r c' :
  get_student_info E c = (r, c') ->
  _session_info c' = _session_info c
  \/ (exists s,
        _session_info c = Some s /\ is_authenticated s = true
        /\ _session_info c' = Some (set_is_authenticated false s)
        /\ r = Raise (SessionExpiredError (u "Сессия истекла"))).
Proof.
  unfold get_student_info. intros H.
  apply bind_inv in H as [(o & c0 & Hg & H)|(e & H & _)]; [|discriminate H].
  unfold gets in Hg. injection Hg as <- <-.
  destruct (_session_info c) as [s|] eqn:Hs.
  2:{ left. unfold raise in H. injection H as _ <-. exact Hs. }
  destruct (is_authenticated s) eqn:Hauth; cbn [negb] in H.
  2:{ left. unfold raise in H. injection H as _ <-. exact Hs. }
  apply try_except_inv in H as [(info & H & Hr)|[(e & c1 & H & _ & Hh)|(e & H & He & Hr)]].
  3:{ left. rewrite <- Hs.
      apply bind_inv in H as [(x & c2 & Hreq & H)|(e0 & H & Hr')].
      2:{ exact (keeps_make_request E _ _ _ _ H). }
      assert (Hs2 : _session_info c2 = _session_info c).
      { exact (keeps_make_request E _ _ _ _ Hreq). }
      destruct x as [[[st tx] url] h].
      destruct (Str.contains (u "sign_in") url).
      - apply bind_inv in H as [(? & c3 & H1 & H)|(? & H & ?)]; [|discriminate].
        unfold raise in H. injection H as <- _. discriminate He.
      - apply bind_inv in H as [(? & ? & H1 & H)|(? & H & ?)].
        + unfold ret in H. discriminate H.
        + unfold lift in H. injection H as _ <-. exact Hs2. }
  - left. rewrite <- Hs.
    apply bind_inv in H as [(x & c2 & Hreq & H)|(e & H & Hr')]; [|discriminate].
    destruct x as [[[st tx] url] h].
    destruct (Str.contains (u "sign_in") url).
    + apply bind_inv in H as [(? & ? & _ & H)|(? & H & ?)]; discriminate.
    + apply bind_inv in H as [(? & ? & H1 & H)|(? & H & ?)]; [|discriminate].
      unfold lift in H1. injection H1 as _ <-.
      unfold ret in H. injection H as _ <-.
      exact (keeps_make_request E _ _ _ _ Hreq).
  - assert (Hh' : r = Raise (match r with Raise e' => e' | _ => e end) /\ c' = c1).
    { destruct e; unfold raise in Hh; injection Hh as <- <-; auto. }
    destruct Hh' as [Hr ->].
    apply bind_inv in H as [(x & c2 & Hreq & H)|(e0 & H & Hr')].
    2:{ left. rewrite <- Hs. exact (keeps_make_request E _ _ _ _ H). }
    assert (Hs2 : _session_info c2 = Some s).
    { rewrite (keeps_make_request E _ _ _ _ Hreq). exact Hs. }
    destruct x as [[[st tx] url] h].
    destruct (Str.contains (u "sign_in") url).
    + right. exists s.
      apply bind_inv in H as [(? & c3 & H1 & H)|(? & H & ?)]; [|discriminate].
      unfold modify in H1. injection H1 as _ <-.
      unfold raise in H. injection H as <- <-.
      unfold raise in Hh. injection Hh as <-.
      rewrite Hs2. auto.
    + left.
      apply bind_inv in H as [(? & ? & H1 & H)|(? & H & ?)].
      * unfold ret in H. discriminate H.
      * unfold lift in H. injection H as _ <-. exact Hs2.
Qed.

(** The exceptions of [get_student_info]: of those that are
    [Exception]s, the three kinds only. *)
Lemma get_student_info_raises c e c' :
  get_student_info E c = (Raise e, c') ->
  (exists m, e = SessionExpiredError m \/ e = NetworkError m \/ e = ParseError m)
  \/ is_Exception e = false.
Proof.
  unfold get_student_info. intros H.
  apply bind_inv in H as [(o & c0 & Hg & H)|(e0 & H & _)]; [|discriminate H].
  destruct o as [s|].
  2:{ unfold raise in H. injection H as <- _. eauto. }
  destruct (negb (is_authenticated s)).
  { unfold raise in H. injection H as <- _. eauto. }
  clear Hg. revert c0 e c' H.
  apply (raises_only_try_except
           (fun e => (exists m, e = SessionExpiredError m \/ e = NetworkError m
                                \/ e = ParseError m)
                     \/ is_Exception e = false)); [|auto].
  intros e0 _; destruct e0; apply raises_only_raise; eauto.
Qed.

(** The exceptions of [authenticate]: of those that are [Exception]s,
    the validation error of the credentials and the three kinds only. *)
Lemma authenticate_raises l p c e c' :
  authenticate E l p c = (Raise e, c') ->
  (exists errors, e = ValidationError "AuthenticationData" errors)
  \/ (exists m, e = AuthenticationError m \/ e = NetworkError m \/ e = ParseError m)
  \/ is_Exception e = false.
Proof.
  unfold authenticate. intros H.
  apply bind_inv in H as [(d & c0 & Hd & H)|(e0 & H & Hr)].
  - right. clear Hd. revert c0 e c' H.
    apply (raises_only_try_except
             (fun e => (exists m, e = AuthenticationError m \/ e = NetworkError m
                                  \/ e = ParseError m)
                       \/ is_Exception e = false)); [|auto].
    intros e0 _; destruct e0; apply raises_only_raise; eauto.
  - left. injection Hr as <-. unfold lift in H. injection H as H _.
    unfold AuthenticationData_new, construct in H.
    match type of H with
    | match ?x with _ => _ end = _ => destruct x; [discriminate H|]
    end.
    injection H as <-. eauto.
Qed.

(** The session of the client after one operation of the interface. *)
Lemma run_op_session o c r c' :
  run_op E o c = (r, c') ->
  _session_info c' = _session_info c
  \/ (exists s,
        o = GetStudentInfo /\ _session_info c = Some s /\ is_authenticated s = true
        /\ _session_info c' = Some (set_is_authenticated false s)
        /\ r = Raised (SessionExpiredError (u "Сессия истекла")))
  \/ (exists l p a t info,
        o = Authenticate l p /\ r = Returned
        /\ SessionInfo_new a t true = Return info
        /\ _session_info c' = Some info).
Proof.
  destruct o as [l p| | |]; cbn [run_op]; unfold observe; intros H.
  - destruct (authenticate E l p c) as [x c1] eqn:Ha.
    assert (c1 = c') as -> by (destruct x; injection H; auto).
    destruct (authenticate_outcome E l p c x c' Ha)
      as [(info & a & t & -> & Hn & Hs)|(e & -> & Hs)].
    + injection H as <-. right. right. exists l, p, a, t, info. auto.
    + left. exact Hs.
  - destruct (get_student_info E c) as [x c1] eqn:Hg.
    assert (c1 = c') as -> by (destruct x; injection H; auto).
    destruct (get_student_info_outcome c x c' Hg)
      as [Hs|(s & Hs & Hauth & Hs' & ->)].
    + left. exact Hs.
    + injection H as <-. right. left. exists s. auto.
  - destruct (close c) as [x c1] eqn:Hc.
    assert (c1 = c') as -> by (destruct x; injection H; auto).
    left. exact (keeps_close _ _ _ Hc).
  - destruct (aenter c) as [x c1] eqn:Hc.
    assert (c1 = c') as -> by (destruct x; injection H; auto).
    left. exact (keeps_aenter _ _ _ Hc).
Qed.



(** The invariant of the session along a sequence of operations. *)
Lemma run_ops_session_ok os : forall c,
  client_ok c -> client_ok (run_ops E os c).2.
Proof.
  induction os as [|o rest IH]; intros c Hok; [exact Hok|].
  cbn [run_ops]. destruct (run_op E o c) as [r c1] eqn:Hrun.
  assert (Hok1 : client_ok c1).
  { intros s' Hs'.
    destruct (run_op_session o c r c1 Hrun)
      as [Hs|[(s & _ & Hs & _ & Hs2 & _)|(l & p & a & t & info & _ & _ & Hn & Hs)]].
    - apply Hok. congruence.
    - rewrite Hs2 in Hs'. injection Hs' as <-. intros Hf. discriminate Hf.
    - rewrite Hs in Hs'. injection Hs' as <-. intros _.
      apply SessionInfo_new_inv in Hn as (-> & -> & _ & Ha & Ht). auto. }
  specialize (IH c1 Hok1). destruct (run_ops E rest c1) as [rs c2]. exact IH.
Qed.

End SessionState.

(** ** C3: the lifetime of the session *)

(** C3, as the code has it. A session comes into being only through a
    call of [authenticate] that returns, which stores the session it
    returns; a call of [authenticate] that raises leaves the session of the
    client as it was (so a client without an authenticated session has none
    afterwards), and so does [close]. *)
Theorem C3_session_lifetime (E : Env) :
  (forall o c r c',
     run_op E o c = (r, c') ->
     _session_info c = None -> _session_info c' <> None ->
     exists l p, o = Authenticate l p /\ r = Returned)
  /\ (forall l p c info c',
        authenticate E l p c = (Return info, c') ->
        _session_info c' = Some info /\ is_authenticated info = true)
  /\ (forall l p c e c',
        authenticate E l p c = (Raise e, c') ->
        _session_info c' = _session_info c)
  /\ (forall l p c e c',
        authenticate E l p c = (Raise e, c') ->
        client_is_authenticated c = false ->
        client_is_authenticated c' = false)
  /\ (forall c r c', close c = (r, c') -> _session_info c' = _session_info c).
Proof.
  assert (Hraise : forall l p c e c',
             authenticate E l p c = (Raise e, c') ->
             _session_info c' = _session_info c).
  { intros l p c e c' H.
    destruct (authenticate_outcome E l p c _ _ H)
      as [(info' & a & t & Hr & _)|(e' & _ & Hs)]; [discriminate Hr|exact Hs]. }
  split.
  { intros o c r c' H Hnone Hsome.
    destruct (run_op_session E o c r c' H)
      as [Hs|[(s & _ & Hs & _)|(l & p & a & t & info & -> & -> & _)]].
    - rewrite Hs in Hsome. contradiction.
    - rewrite Hs in Hnone. discriminate Hnone.
    - eauto. }
  split.
  { intros l p c info c' H.
    destruct (authenticate_outcome E l p c _ _ H)
      as [(info' & a & t & Hr & Hn & Hs)|(e & Hr & _)]; [|discriminate Hr].
    injection Hr as <-. split; [exact Hs|].
    apply SessionInfo_new_inv in Hn. tauto. }
  split; [exact Hraise|].
  split.
  { intros l p c e c' H. unfold client_is_authenticated.
    rewrite (Hraise _ _ _ _ _ H). auto. }
  intros c r c' H. exact (keeps_close _ _ _ H).
Qed.

Lemma C3_session_lifetime_witness :
  _session_info
    (authenticate Fixtures.E_password (u "user") (u "wrong") Fixtures.client0).2
  = _session_info Fixtures.client0.
Proof.
  refine (proj1 (proj2 (proj2 (C3_session_lifetime Fixtures.E_password)))
            (u "user") (u "wrong") Fixtures.client0
            (AuthenticationError (u "Неверный логин или пароль")) _ _).
  vm_compute. reflexivity.
Defined.

(** The claim as the specification states it does not hold: after a login
    that succeeded, a second call of [authenticate] that fails (the portal
    rejects the password) leaves the client authenticated, with the session
    of the first login. *)
Lemma C3_failed_authenticate_keeps_session :
  ~ (forall E l p c e c',
       authenticate E l p c = (Raise e, c') ->
       client_is_authenticated c' = false).
Proof.
  intros H.
  specialize (H Fixtures.E_password (u "user") (u "wrong")
                (Fixtures.logged_in Fixtures.E_password (u "secret"))
                (AuthenticationError (u "Неверный логин или пароль"))
                (authenticate Fixtures.E_password (u "user") (u "wrong")
                   (Fixtures.logged_in Fixtures.E_password (u "secret"))).2).
  assert (Hrun : authenticate Fixtures.E_password (u "user") (u "wrong")
                   (Fixtures.logged_in Fixtures.E_password (u "secret"))
                 = (Raise (AuthenticationError (u "Неверный логин или пароль")),
                    (authenticate Fixtures.E_password (u "user") (u "wrong")
                       (Fixtures.logged_in Fixtures.E_password (u "secret"))).2))
    by (vm_compute; reflexivity).
  specialize (H Hrun). vm_compute in H. discriminate H.
Qed.

(** ** C9: the invariant of the session *)

(** C9. A session that [SessionInfo] builds carries an account identifier
    and a token that are not empty; the client starts without a session;
    every operation of the interface keeps the invariant of the session the
    client holds, so it holds after any sequence of operations on a new
    client; the session [authenticate] returns is authenticated and
    satisfies it; and an operation leaves the session as it is, or sets its
    flag to false, or ([authenticate]) replaces it by a session newly
    built. *)
Theorem C9_session_invariant (E : Env) :
  (forall a t b s,
     SessionInfo_new a t b = Return s ->
     api_id s <> [] /\ csrf_token s <> [] /\ session_ok s)
  /\ (forall timeout max_retries session,
        client_ok (MisisClient_new timeout max_retries session))
  /\ (forall o c r c', run_op E o c = (r, c') -> client_ok c -> client_ok c')
  /\ (forall os timeout max_retries session,
        client_ok (run_ops E os (MisisClient_new timeout max_retries session)).2)
  /\ (forall l p c info c',
        authenticate E l p c = (Return info, c') ->
        is_authenticated info = true /\ api_id info <> [] /\ csrf_token info <> [])
  /\ (forall o c r c',
        run_op E o c = (r, c') ->
        _session_info c' = _session_info c
        \/ (exists s, _session_info c = Some s
                      /\ _session_info c' = Some (set_is_authenticated false s))
        \/ (exists l p a t info,
              o = Authenticate l p /\ SessionInfo_new a t true = Return info
              /\ _session_info c' = Some info)).
Proof.
  assert (Hnew : forall a t b s,
             SessionInfo_new a t b = Return s ->
             api_id s <> [] /\ csrf_token s <> []).
  { intros a t b s H. apply SessionInfo_new_inv in H as (-> & -> & _ & Ha & Ht).
    auto. }
  split.
  { intros a t b s H. destruct (Hnew _ _ _ _ H). unfold session_ok. auto. }
  split.
  { intros t n s x Hx. discriminate Hx. }
  split.
  { intros o c r c' H Hok s' Hs'.
    destruct (run_op_session E o c r c' H)
      as [Hs|[(s & _ & Hs & _ & Hs2 & _)|(l & p & a & t & info & _ & _ & Hn & Hs)]].
    - apply Hok. congruence.
    - rewrite Hs2 in Hs'. injection Hs' as <-. intros Hf. discriminate Hf.
    - rewrite Hs in Hs'. injection Hs' as <-. intros _. exact (Hnew _ _ _ _ Hn). }
  split.
  { intros os t n s. apply run_ops_session_ok. intros x Hx. discriminate Hx. }
  split.
  { intros l p c info c' H.
    destruct (authenticate_outcome E l p c _ _ H)
      as [(info' & a & t & Hr & Hn & Hs)|(e & Hr & _)]; [|discriminate Hr].
    injection Hr as <-. destruct (Hnew _ _ _ _ Hn).
    apply SessionInfo_new_inv in Hn. tauto. }
  intros o c r c' H.
  destruct (run_op_session E o c r c' H)
    as [Hs|[(s & _ & Hs & _ & Hs2 & _)|(l & p & a & t & info & -> & _ & Hn & Hs)]].
  - auto.
  - right. left. eauto.
  - right. right. exists l, p, a, t, info. auto.
Qed.

Lemma C9_session_invariant_witness :
  client_ok (run_op Fixtures.E_expired GetStudentInfo
               (Fixtures.logged_in Fixtures.E_expired (u "pw"))).2.
Proof.
  refine (proj1 (proj2 (proj2 (C9_session_invariant Fixtures.E_expired)))
            GetStudentInfo (Fixtures.logged_in Fixtures.E_expired (u "pw"))
            (Raised (SessionExpiredError (u "Сессия истекла"))) _ _ _).
  - vm_compute. reflexivity.
  - intros s Hs. vm_compute in Hs. injection Hs as <-.
    intros _. split; vm_compute; discriminate.
Defined.

(** ** C2: the validation of the credentials *)

(** C2, as the code has it. When the login is empty after trimming, or
    the password is empty (the password is not trimmed), [authenticate]
    raises pydantic's [ValidationError] and leaves the client as it is: no
    request is issued. *)
Theorem C2_empty_credentials_rejected (E : Env) (l p : pystr) (c : MisisClient) :
  Str.strip l = [] \/ p = [] ->
  exists errors c',
    authenticate E l p c = (Raise (ValidationError "AuthenticationData" errors), c')
    /\ kind_of (ValidationError "AuthenticationData" errors) = Some Validation
    /\ c' = c
    /\ trace c' = trace c.
Proof.
  intros H. destruct (AuthenticationData_new_invalid l p H) as [errors He].
  exists errors, c. unfold authenticate, bind, lift. rewrite He. auto.
Qed.

Lemma C2_empty_credentials_rejected_witness :
  exists errors c',
    authenticate Fixtures.E_ok (u "  ") (u "pw") Fixtures.client0
    = (Raise (ValidationError "AuthenticationData" errors), c')
    /\ kind_of (ValidationError "AuthenticationData" errors) = Some Validation
    /\ c' = Fixtures.client0
    /\ trace c' = trace Fixtures.client0.
Proof.
  apply (C2_empty_credentials_rejected Fixtures.E_ok (u "  ") (u "pw")
           Fixtures.client0).
  left. vm_compute. reflexivity.
Defined.

(** The claim as the specification states it does not hold: a password
    of one space is empty after trimming, and [authenticate] sends it to
    the portal (which here accepts it). *)
Lemma C2_blank_password_reaches_the_network :
  ~ (forall E l p c,
       Str.strip l = [] \/ Str.strip p = [] ->
       exists e c',
         authenticate E l p c = (Raise e, c')
         /\ (kind_of e = Some Authentication \/ kind_of e = Some Validation)
         /\ trace c' = trace c).
Proof.
  intros H.
  destruct (H Fixtures.E_ok (u "user") (u " ") Fixtures.client0)
    as (e & c' & Hrun & _).
  - right. vm_compute. reflexivity.
  - vm_compute in Hrun. discriminate Hrun.
Qed.

(** ** C6 and C10: the kinds of error a caller sees *)

Section Errors.

Variable E : Env.

Lemma check_required_parse_error fields data e :
  check_required fields data = Raise e -> exists m, e = ParseError m.
Proof.
  induction fields as [|f rest IH]; cbn [check_required]; [discriminate|].
  destruct (data !! f) as [[v|]|]; [exact IH| |]; intros H; injection H as <-; eauto.
Qed.

Lemma construct_raise_inv {A : Type} title (c : checked A) e :
  construct title c = Raise e -> exists errors, e = ValidationError title errors.
Proof. destruct c; intros H; [discriminate H|injection H as <-; eauto]. Qed.

(** The profile parser raises nothing but [ParseError]. *)
Lemma parse_student_info_raises html e :
  _parse_student_info E html = Raise e -> exists m, e = ParseError m.
Proof.
  unfold _parse_student_info, try_result. cbv zeta.
  destruct (check_required required_fields _) as [[]|e0] eqn:Hc.
  - destruct (StudentInfo_new _) as [a|e0] eqn:Hn; [discriminate|].
    unfold StudentInfo_new in Hn. apply construct_raise_inv in Hn as [errors ->].
    cbn [is_Exception]. intros H; injection H as <-; eauto.
  - apply check_required_parse_error in Hc as [m ->].
    cbn [is_Exception]. intros H; injection H as <-; eauto.
Qed.

(** A failure of the construction of the record leaves the parser as a
    [ParseError] that carries the text of the validation error. *)
Lemma parse_student_info_validation html title errors :
  check_required required_fields (collect (BeautifulSoup E html)) = Return tt ->
  StudentInfo_new (collect (BeautifulSoup E html)) = Raise (ValidationError title errors) ->
  _parse_student_info E html =
  Raise (ParseError (u "Ошибка парсинга информации о студенте: "
                       ++ validation_str E title errors)).
Proof.
  intros Hreq Hnew. unfold _parse_student_info, try_result.
  rewrite Hreq, Hnew. reflexivity.
Qed.

(** The profile page was fetched and is not the sign-in page: the
    outcome of [get_student_info] is the outcome of the parser. *)
Lemma get_student_info_parsed c s st tx url h c2 :
  _session_info c = Some s ->
  is_authenticated s = true ->
  _make_request E (profile_request (api_id s)) c = (Return (st, tx, url, h), c2) ->
  Str.contains (u "sign_in") url = false ->
  get_student_info E c = (_parse_student_info E tx, c2).
Proof.
  intros Hs Hauth Hreq Hurl.
  unfold get_student_info, bind at 1, gets. rewrite Hs, Hauth. cbn [negb].
  unfold try_except, bind. rewrite Hreq, Hurl. unfold lift.
  destruct (_parse_student_info E tx) as [info|e] eqn:Hp; [reflexivity|].
  destruct (parse_student_info_raises tx e Hp) as [m ->]. reflexivity.
Qed.

(** The profile fetch raised: what [get_student_info] raises. *)
Lemma get_student_info_fetch_failed c s e c2 :
  _session_info c = Some s ->
  is_authenticated s = true ->
  _make_request E (profile_request (api_id s)) c = (Raise e, c2) ->
  get_student_info E c =
  (Raise (match e with
          | SessionExpiredError _ | NetworkError _ | ParseError _
          | BaseException _ _ => e
          | _ => ParseError (u "Ошибка получения информации о студенте: "
                               ++ exn_str E e)
          end), c2).
Proof.
  intros Hs Hauth Hreq.
  unfold get_student_info, bind at 1, gets. rewrite Hs, Hauth. cbn [negb].
  unfold try_except, bind. rewrite Hreq. destruct e; reflexivity.
Qed.

(** The fetch of the token raised: [authenticate] raises the same. *)
Lemma authenticate_token_failed l p c d e c1 :
  AuthenticationData_new l p = Return d ->
  _get_csrf_token E c = (Raise e, c1) ->
  authenticate E l p c = (Raise e, c1).
Proof.
  intros Hd Htok.
  destruct (get_csrf_token_raises E c e c1 Htok) as [He | [m [-> | ->]]];
    unfold authenticate, bind, lift, try_except; rewrite Hd, Htok;
    [destruct e; first [discriminate He | reflexivity] | reflexivity ..].
Qed.

(** The login POST raised: what [authenticate] raises. *)
Lemma authenticate_post_failed l p c d tok c1 e c2 :
  AuthenticationData_new l p = Return d ->
  _get_csrf_token E c = (Return tok, c1) ->
  _make_request E (login_request d tok) c1 = (Raise e, c2) ->
  authenticate E l p c =
  (Raise (match e with
          | AuthenticationError _ | NetworkError _ | ParseError _
          | BaseException _ _ => e
          | _ => AuthenticationError (u "Ошибка аутентификации: " ++ exn_str E e)
          end), c2).
Proof.
  intros Hd Htok Hreq.
  unfold authenticate, bind, lift, try_except. rewrite Hd, Htok, Hreq.
  destruct e; reflexivity.
Qed.

(** The redirect has no [/ru/] in it: the [IndexError] of the subscript
    becomes an [AuthenticationError]. *)
Lemma authenticate_index_error l p c d tok c1 st tx url h c2 location :
  AuthenticationData_new l p = Return d ->
  _get_csrf_token E c = (Return tok, c1) ->
  _make_request E (login_request d tok) c1 = (Return (st, tx, url, h), c2) ->
  headers_get (u "Location") h = Some location ->
  Str.contains (u "/s") location = true ->
  st = 302 \/ st = 200 ->
  Str.contains (u "Неверный логин или пароль") tx = false ->
  Str.split (u "/ru/") location !! 1%nat = None ->
  authenticate E l p c =
  (Raise (AuthenticationError
            (u "Ошибка аутентификации: " ++ u "list index out of range")), c2).
Proof.
  intros Hd Htok Hreq Hloc Hmark Hst Htx Hsplit.
  assert (Htruthy : Str.truthy location = true).
  { destruct location; [discriminate Hmark|reflexivity]. }
  unfold authenticate, bind, lift, try_except.
  rewrite Hd, Htok, Hreq, Hloc, Htruthy, Hmark, Htx.
  assert (Hin : status_in st [302; 200] = true).
  { destruct Hst; subst st; reflexivity. }
  rewrite Hin. cbn [negb]. unfold subscript. rewrite Hsplit. reflexivity.
Qed.

End Errors.

(** ** C4: the state machine of the session *)





(** C6, as the code has it. Of the exceptions that are [Exception]s,
    callers of [authenticate] and [get_student_info] see the five kinds of
    error only; the one other thing they can see is an exception that is
    not an [Exception] (the [asyncio.CancelledError] of a cancelled task),
    which no handler of the client catches. A
    [NetworkError] or [ParseError] of the fetch of the token, of the login
    POST, of the profile fetch or of the profile parser is raised
    unchanged, and so is an exception that is not an [Exception]; any other
    exception of the login POST or of the reading of the redirect becomes
    an [AuthenticationError], any other exception of the profile fetch a
    [ParseError], and the profile parser itself raises [ParseError] only. *)
Theorem C6_error_kinds_and_propagation (E : Env) :
  (forall l p c e c',
     authenticate E l p c = (Raise e, c') ->
     (kind_of e = Some Validation \/ kind_of e = Some Authentication
      \/ kind_of e = Some Network \/ kind_of e = Some Parse)
     \/ is_Exception e = false)
  /\ (forall c e c',
        get_student_info E c = (Raise e, c') ->
        (kind_of e = Some SessionExpired \/ kind_of e = Some Network
         \/ kind_of e = Some Parse)
        \/ is_Exception e = false)
  /\ (forall l p c d e c1,
        AuthenticationData_new l p = Return d ->
        _get_csrf_token E c = (Raise e, c1) ->
        authenticate E l p c = (Raise e, c1)
        /\ (kind_of e = Some Network \/ kind_of e = Some Parse
            \/ is_Exception e = false))
  /\ (forall l p c d tok c1 e c2,
        AuthenticationData_new l p = Return d ->
        _get_csrf_token E c = (Return tok, c1) ->
        _make_request E (login_request d tok) c1 = (Raise e, c2) ->
        (kind_of e = Some Network \/ kind_of e = Some Parse
         \/ is_Exception e = false ->
         authenticate E l p c = (Raise e, c2))
        /\ (kind_of e = None -> is_Exception e = true ->
            authenticate E l p c =
            (Raise (AuthenticationError
                      (u "Ошибка аутентификации: " ++ exn_str E e)), c2)))
  /\ (forall l p c d tok c1 st tx url h c2 location,
        AuthenticationData_new l p = Return d ->
        _get_csrf_token E c = (Return tok, c1) ->
        _make_request E (login_request d tok) c1 = (Return (st, tx, url, h), c2) ->
        headers_get (u "Location") h = Some location ->
        Str.contains (u "/s") location = true ->
        st = 302 \/ st = 200 ->
        Str.contains (u "Неверный логин или пароль") tx = false ->
        Str.split (u "/ru/") location !! 1%nat = None ->
        authenticate E l p c =
        (Raise (AuthenticationError
                  (u "Ошибка аутентификации: " ++ u "list index out of range")), c2))
  /\ (forall c s e c2,
        _session_info c = Some s ->
        is_authenticated s = true ->
        _make_request E (profile_request (api_id s)) c = (Raise e, c2) ->
        (kind_of e = Some Network \/ kind_of e = Some Parse
         \/ is_Exception e = false ->
         get_student_info E c = (Raise e, c2))
        /\ (kind_of e = None -> is_Exception e = true ->
            get_student_info E c =
            (Raise (ParseError (u "Ошибка получения информации о студенте: "
                                  ++ exn_str E e)), c2)))
  /\ (forall c s st tx url h c2 e,
        _session_info c = Some s ->
        is_authenticated s = true ->
        _make_request E (profile_request (api_id s)) c = (Return (st, tx, url, h), c2) ->
        Str.contains (u "sign_in") url = false ->
        _parse_student_info E tx = Raise e ->
        get_student_info E c = (Raise e, c2) /\ kind_of e = Some Parse)
  /\ (forall html e, _parse_student_info E html = Raise e -> kind_of e = Some Parse).
Proof.
  split.
  { intros l p c e c' H.
    destruct (authenticate_raises E l p c e c' H)
      as [(errors & ->)|[(m & [-> | [-> | ->]])|He]]; cbn [kind_of]; auto 6. }
  split.
  { intros c e c' H.
    destruct (get_student_info_raises E c e c' H) as [(m & [-> | [-> | ->]])|He];
      cbn [kind_of]; auto 6. }
  split.
  { intros l p c d e c1 Hd Htok.
    split; [exact (authenticate_token_failed E l p c d e c1 Hd Htok)|].
    destruct (get_csrf_token_raises E c e c1 Htok) as [He | [m [-> | ->]]];
      cbn [kind_of]; auto. }
  split.
  { intros l p c d tok c1 e c2 Hd Htok Hreq. split.
    - intros Hk. rewrite (authenticate_post_failed E l p c d tok c1 e c2 Hd Htok Hreq).
      destruct e; try reflexivity; destruct Hk as [Hk|[Hk|Hk]]; discriminate Hk.
    - intros Hk He.
      rewrite (authenticate_post_failed E l p c d tok c1 e c2 Hd Htok Hreq).
      destruct e; try reflexivity; first [discriminate Hk | discriminate He]. }
  split.
  { intros l p c d tok c1 st tx url h c2 location.
    apply authenticate_index_error. }
  split.
  { intros c s e c2 Hs Hauth Hreq. split.
    - intros Hk. rewrite (get_student_info_fetch_failed E c s e c2 Hs Hauth Hreq).
      destruct e; try reflexivity; destruct Hk as [Hk|[Hk|Hk]]; discriminate Hk.
    - intros Hk He. rewrite (get_student_info_fetch_failed E c s e c2 Hs Hauth Hreq).
      destruct e; try reflexivity; first [discriminate Hk | discriminate He]. }
  split.
  { intros c s st tx url h c2 e Hs Hauth Hreq Hurl Hp.
    rewrite (get_student_info_parsed E c s st tx url h c2 Hs Hauth Hreq Hurl), Hp.
    split; [reflexivity|].
    destruct (parse_student_info_raises E tx e Hp) as [m ->]. reflexivity. }
  intros html e H. destruct (parse_student_info_raises E html e H) as [m ->].
  reflexivity.
Qed.

Lemma C6_error_kinds_and_propagation_witness :
  authenticate Fixtures.E_500 (u "user") (u "pw") Fixtures.client0
  = (Raise (NetworkError (u "HTTP 500: Internal Server Error")),
     (_get_csrf_token Fixtures.E_500 Fixtures.client0).2)
  /\ (kind_of (NetworkError (u "HTTP 500: Internal Server Error")) = Some Network
      \/ kind_of (NetworkError (u "HTTP 500: Internal Server Error")) = Some Parse
      \/ is_Exception (NetworkError (u "HTTP 500: Internal Server Error")) = false).
Proof.
  refine (proj1 (proj2 (proj2 (C6_error_kinds_and_propagation Fixtures.E_500)))
            (u "user") (u "pw") Fixtures.client0
            (Build_AuthenticationData (u "user") (u "pw") false) _ _ _ _);
    vm_compute; reflexivity.
Defined.

(** The claim as the specification states it does not hold: when the
    task is cancelled while a request is awaited, the
    [asyncio.CancelledError] is not an [Exception], passes the handlers of
    [_get_csrf_token] and [authenticate] and reaches the caller, who sees
    an exception that is none of the five kinds. *)
Lemma C6_cancellation_reaches_the_caller :
  ~ (forall E l p c e c',
       authenticate E l p c = (Raise e, c') ->
       kind_of e = Some Validation \/ kind_of e = Some Authentication
       \/ kind_of e = Some Network \/ kind_of e = Some Parse).
Proof.
  intros H.
  assert (Hrun : authenticate Fixtures.E_cancelled (u "user") (u "pw") Fixtures.client0
                 = (Raise (BaseException "CancelledError" (u "")),
                    (authenticate Fixtures.E_cancelled (u "user") (u "pw")
                       Fixtures.client0).2))
    by (vm_compute; reflexivity).
  destruct (H _ _ _ _ _ _ Hrun) as [Hk|[Hk|[Hk|Hk]]]; discriminate Hk.
Qed.

(** C10, as the code has it. Of the exceptions that are [Exception]s,
    [get_student_info] raises [SessionExpiredError], [NetworkError] or
    [ParseError] and nothing else, never a validation error; the one other
    thing it raises is an exception that is not an [Exception] (the
    [asyncio.CancelledError] of a cancelled task), which passes its handler
    unchanged. When the record cannot be built from the
    fields of the page (pydantic's [ValidationError]), the parser, and with
    it [get_student_info], raises a [ParseError] whose message wraps the
    text of the validation error. *)
Theorem C10_get_student_info_errors (E : Env) :
  (forall c e c',
     get_student_info E c = (Raise e, c') ->
     ((kind_of e = Some SessionExpired \/ kind_of e = Some Network
       \/ kind_of e = Some Parse)
      \/ is_Exception e = false)
     /\ kind_of e <> Some Validation)
  /\ (forall c s e c2,
        _session_info c = Some s ->
        is_authenticated s = true ->
        _make_request E (profile_request (api_id s)) c = (Raise e, c2) ->
        is_Exception e = false ->
        get_student_info E c = (Raise e, c2))
  /\ (forall html title errors,
        check_required required_fields (collect (BeautifulSoup E html)) = Return tt ->
        StudentInfo_new (collect (BeautifulSoup E html))
          = Raise (ValidationError title errors) ->
        _parse_student_info E html =
        Raise (ParseError (u "Ошибка парсинга информации о студенте: "
                             ++ validation_str E title errors)))
  /\ (forall c s st tx url h c2 title errors,
        _session_info c = Some s ->
        is_authenticated s = true ->
        _make_request E (profile_request (api_id s)) c = (Return (st, tx, url, h), c2) ->
        Str.contains (u "sign_in") url = false ->
        check_required required_fields (collect (BeautifulSoup E tx)) = Return tt ->
        StudentInfo_new (collect (BeautifulSoup E tx))
          = Raise (ValidationError title errors) ->
        get_student_info E c =
        (Raise (ParseError (u "Ошибка парсинга информации о студенте: "
                              ++ validation_str E title errors)), c2)).
Proof.
  split; [|split; [|split]].
  - intros c e c' H.
    destruct (get_student_info_raises E c e c' H) as [(m & [-> | [-> | ->]])|He];
      cbn [kind_of]; try (split; [auto|discriminate]).
    split; [auto|destruct e; first [discriminate He | discriminate]].
  - intros c s e c2 Hs Hauth Hreq He.
    rewrite (get_student_info_fetch_failed E c s e c2 Hs Hauth Hreq).
    destruct e; first [discriminate He | reflexivity].
  - exact (parse_student_info_validation E).
  - intros c s st tx url h c2 title errors Hs Hauth Hreq Hurl Hc Hn.
    rewrite (get_student_info_parsed E c s st tx url h c2 Hs Hauth Hreq Hurl).
    rewrite (parse_student_info_validation E tx title errors Hc Hn). reflexivity.
Qed.

Lemma C10_get_student_info_errors_witness :
  get_student_info Fixtures.E_bad_email (Fixtures.logged_in Fixtures.E_bad_email (u "pw"))
  = (Raise (ParseError
              (u "Ошибка парсинга информации о студенте: "
                 ++ validation_str Fixtures.E_bad_email "StudentInfo"
                      [("personal_email"%string,
                        u "Value error, " ++ u "Некорректный формат email")])),
     (_make_request Fixtures.E_bad_email (profile_request (u "s"))
        (Fixtures.logged_in Fixtures.E_bad_email (u "pw"))).2).
Proof.
  refine (proj2 (proj2 (proj2 (C10_get_student_info_errors Fixtures.E_bad_email)))
            (Fixtures.logged_in Fixtures.E_bad_email (u "pw"))
            (Build_SessionInfo (u "s") (u "tok123") true)
            200 Fixtures.profile_html
            (BASE_URL ++ u "/ru/" ++ u "s" ++ u "/profile") [] _
            "StudentInfo" _ _ _ _ _ _ _);
    vm_compute; reflexivity.
Defined.

(** The claim as the specification states it does not hold: when the
    task is cancelled while the profile page is awaited, the
    [asyncio.CancelledError] passes the handler of [get_student_info] and
    reaches the caller: an error that is none of the three kinds. *)
Lemma C10_cancellation_reaches_the_caller :
  ~ (forall E c e c',
       get_student_info E c = (Raise e, c') ->
       kind_of e = Some SessionExpired \/ kind_of e = Some Network
       \/ kind_of e = Some Parse).
Proof.
  intros H.
  assert (Hrun : get_student_info Fixtures.E_profile_cancelled
                   (Fixtures.logged_in Fixtures.E_profile_cancelled (u "pw"))
                 = (Raise (BaseException "CancelledError" (u "")),
                    (get_student_info Fixtures.E_profile_cancelled
                       (Fixtures.logged_in Fixtures.E_profile_cancelled (u "pw"))).2))
    by (vm_compute; reflexivity).
  destruct (H _ _ _ _ Hrun) as [Hk|[Hk|Hk]]; discriminate Hk.
Qed.

(** ** C7: the required fields of the profile *)

Lemma check_required_raise fields data e :
  check_required fields data = Raise e ->
  exists pre f post,
    fields = pre ++ f :: post
    /\ is_null data f
    /\ (forall g, g ∈ pre -> ~ is_null data g)
    /\ e = ParseError (missing_field_message f).
Proof.
  induction fields as [|f rest IH]; cbn [check_required]; [discriminate|].
  destruct (data !! f) as [[v|]|] eqn:Hf.
  - intros H. destruct (IH H) as (pre & g & post & -> & Hg & Hpre & ->).
    exists (f :: pre), g, post. repeat split; auto.
    intros x Hx. apply elem_of_cons in Hx as [->|Hx]; [|auto].
    intros [Hn|Hn]; congruence.
  - intros H. injection H as <-. exists [], f, rest.
    repeat split; [right; exact Hf|].
    intros g Hg. inversion Hg.
  - intros H. injection H as <-. exists [], f, rest.
    repeat split; [left; exact Hf|].
    intros g Hg. inversion Hg.
Qed.

Lemma check_required_null fields data f :
  f ∈ fields -> is_null data f -> exists e, check_required fields data = Raise e.
Proof.
  induction fields as [|g rest IH]; intros Hin Hnull; [inversion Hin|].
  cbn [check_required].
  destruct (data !! g) as [[v|]|] eqn:Hg; eauto.
  apply elem_of_cons in Hin as [->|Hin]; [|auto].
  destruct Hnull as [Hn|Hn]; congruence.
Qed.

Lemma check_required_present fields data :
  (forall f, f ∈ fields -> ~ is_null data f) ->
  check_required fields data = Return tt.
Proof.
  intros H. destruct (check_required fields data) as [[]|e] eqn:Hc; [reflexivity|].
  destruct (check_required_raise _ _ _ Hc) as (pre & f & post & -> & Hnull & _).
  exfalso. apply (H f); [|exact Hnull].
  apply elem_of_app. right. apply list_elem_of_here.
Qed.

Lemma check_required_app pre rest data :
  (forall g, g ∈ pre -> ~ is_null data g) ->
  check_required (pre ++ rest) data = check_required rest data.
Proof.
  induction pre as [|f pre IH]; intros H; [reflexivity|].
  cbn [app check_required].
  destruct (data !! f) as [[v|]|] eqn:Hf.
  - apply IH. intros g Hg. apply H. apply list_elem_of_further. exact Hg.
  - exfalso. apply (H f); [apply list_elem_of_here|right; exact Hf].
  - exfalso. apply (H f); [apply list_elem_of_here|left; exact Hf].
Qed.

(** What [_parse_student_info] stores under [course]. *)
Lemma collect_course soup :
  collect soup !! "course"%string = Some (extract_value soup (u "Курс:")).
Proof.
  unfold collect. cbv zeta.
  rewrite !lookup_insert_ne by discriminate. apply lookup_insert_eq.
Qed.

(** A page without the label of a field gives no value for it. *)
Lemma extract_value_no_label soup label_text :
  find_label soup label_text = None -> extract_value soup label_text = None.
Proof. unfold extract_value. intros ->. reflexivity. Qed.

(** C7, as the code has it. After collecting the fields,
    [_parse_student_info] goes through the list of the eleven required
    fields in its order and, when one of them is null, raises the
    [ParseError] that names the first null field of the list; for a page
    without the label ["Курс:"] on which the required fields listed before
    [course] were found, that error names [course]. *)
Theorem C7_missing_required_field (E : Env) :
  required_fields =
    ["full_name"; "record_book_number"; "study_form"; "preparation_level";
     "specialty"; "faculty"; "course"; "group"; "financing_form";
     "dormitory"; "end_date"]%string
  /\ (forall html f,
        f ∈ required_fields ->
        is_null (collect (BeautifulSoup E html)) f ->
        exists pre g post,
          required_fields = pre ++ g :: post
          /\ is_null (collect (BeautifulSoup E html)) g
          /\ (forall x, x ∈ pre -> ~ is_null (collect (BeautifulSoup E html)) x)
          /\ _parse_student_info E html = Raise (ParseError (missing_field_message g)))
  /\ (forall html,
        find_label (BeautifulSoup E html) (u "Курс:") = None ->
        (forall g, g ∈ ["full_name"; "record_book_number"; "study_form";
                        "preparation_level"; "specialty"; "faculty"]%string ->
                   ~ is_null (collect (BeautifulSoup E html)) g) ->
        _parse_student_info E html =
        Raise (ParseError (u "Обязательное поле 'course' не найдено"))).
Proof.
  split; [reflexivity|]. split.
  - intros html f Hin Hnull.
    destruct (check_required_null _ _ _ Hin Hnull) as [e He].
    destruct (check_required_raise _ _ _ He) as (pre & g & post & Hl & Hg & Hpre & ->).
    exists pre, g, post. repeat split; auto.
    unfold _parse_student_info, try_result. rewrite He. reflexivity.
  - intros html Hlabel Hbefore.
    assert (Hnull : is_null (collect (BeautifulSoup E html)) "course").
    { right. rewrite collect_course, (extract_value_no_label _ _ Hlabel).
      reflexivity. }
    unfold _parse_student_info, try_result.
    change required_fields
      with (["full_name"; "record_book_number"; "study_form";
             "preparation_level"; "specialty"; "faculty"]%string
            ++ "course"%string
               :: ["group"; "financing_form"; "dormitory"; "end_date"]%string).
    rewrite (check_required_app _ _ _ Hbefore). cbn [check_required].
    assert (Hmsg : u "Обязательное поле '" ++ Str.lit "course" ++ u "' не найдено"
                   = u "Обязательное поле 'course' не найдено")
      by (vm_compute; reflexivity).
    rewrite Hmsg.
    destruct Hnull as [-> | ->]; reflexivity.
Qed.

Lemma C7_missing_required_field_witness :
  _parse_student_info Fixtures.E_no_course Fixtures.profile_html =
  Raise (ParseError (u "Обязательное поле 'course' не найдено")).
Proof.
  refine (proj2 (proj2 (C7_missing_required_field Fixtures.E_no_course))
            Fixtures.profile_html _ _).
  - vm_compute. reflexivity.
  - intros g Hg.
    repeat (apply elem_of_cons in Hg as [-> | Hg]);
      [intros [H|H]; vm_compute in H; discriminate H ..|inversion Hg].
Defined.

(** The claim as the specification states it does not hold: on a page
    that lacks the labels of the faculty and of the course, the error names
    [faculty], the first missing field, and not [course]. *)
Lemma C7_page_without_faculty_and_course :
  ~ (forall E html,
       find_label (BeautifulSoup E html) (u "Курс:") = None ->
       exists m,
         _parse_student_info E html = Raise (ParseError m)
         /\ Str.contains (u "course") m = true).
Proof.
  intros H.
  destruct (H Fixtures.E_no_faculty_no_course Fixtures.profile_html)
    as (m & Hrun & Hm).
  - vm_compute. reflexivity.
  - vm_compute in Hrun. injection Hrun as <-.
    vm_compute in Hm. discriminate Hm.
Qed.

(** ** C8: the e-mail fields of the record *)

Section Checked.

Context {A B : Type}.

Lemma ap_invalid_l (f : checked (A -> B)) (x : checked A) :
  is_invalid f -> is_invalid (f <*> x).
Proof. intros [e ->]. destruct x; cbn; unfold is_invalid; eauto. Qed.

Lemma ap_invalid_r (f : checked (A -> B)) (x : checked A) :
  is_invalid x -> is_invalid (f <*> x).
Proof. intros [e ->]. destruct f; cbn; unfold is_invalid; eauto. Qed.

Lemma construct_invalid title (c : checked A) :
  is_invalid c -> exists errors, construct title c = Raise (ValidationError title errors).
Proof. intros [e ->]. cbn. eauto. Qed.

End Checked.

Lemma required_plain field data s :
  data !! field = Some (Some s) ->
  Pydantic.required field Pydantic.plain data = Valid s.
Proof. unfold Pydantic.required. intros ->. reflexivity. Qed.

Lemma required_full_name data s :
  data !! "full_name"%string = Some (Some s) -> Str.strip s <> [] ->
  Pydantic.required "full_name" validate_full_name data = Valid (Str.strip s).
Proof.
  unfold Pydantic.required, validate_full_name. intros -> Hs.
  apply truthy_true in Hs. rewrite blank_test, Hs. reflexivity.
Qed.

Lemma required_record_book_number data s :
  data !! "record_book_number"%string = Some (Some s) -> Str.strip s <> [] ->
  Pydantic.required "record_book_number" validate_record_book_number data
  = Valid (Str.strip s).
Proof.
  unfold Pydantic.required, validate_record_book_number. intros -> Hs.
  apply truthy_true in Hs. rewrite blank_test, Hs. reflexivity.
Qed.

Lemma optional_plain field data :
  Pydantic.optional field Pydantic.plain data = Valid (mjoin (data !! field)).
Proof. unfold Pydantic.optional. destruct (data !! field); reflexivity. Qed.

Lemma optional_personal_email_ok data :
  accepted_email (data !! "personal_email"%string) ->
  Pydantic.optional "personal_email" validate_personal_email data
  = Valid (mjoin (data !! "personal_email"%string)).
Proof.
  unfold Pydantic.optional, validate_personal_email.
  intros [-> | [-> | (s & -> & [-> | Hs])]]; try reflexivity.
  rewrite Hs, andb_false_r. reflexivity.
Qed.

Lemma optional_corporate_email_ok data :
  accepted_email (data !! "corporate_email"%string) ->
  Pydantic.optional "corporate_email" validate_corporate_email data
  = Valid (mjoin (data !! "corporate_email"%string)).
Proof.
  unfold Pydantic.optional, validate_corporate_email.
  intros [-> | [-> | (s & -> & [-> | Hs])]]; try reflexivity.
  rewrite Hs, andb_false_r. reflexivity.
Qed.

Lemma optional_personal_email_bad data :
  bad_email (data !! "personal_email"%string) ->
  is_invalid (Pydantic.optional "personal_email" validate_personal_email data).
Proof.
  unfold Pydantic.optional, validate_personal_email.
  intros (s & -> & Hne & Hat). apply truthy_true in Hne.
  rewrite Hne, Hat. cbn [andb negb Pydantic.run]. unfold is_invalid. eauto.
Qed.

Lemma optional_corporate_email_bad data :
  bad_email (data !! "corporate_email"%string) ->
  is_invalid (Pydantic.optional "corporate_email" validate_corporate_email data).
Proof.
  unfold Pydantic.optional, validate_corporate_email.
  intros (s & -> & Hne & Hat). apply truthy_true in Hne.
  rewrite Hne, Hat. cbn [andb negb Pydantic.run]. unfold is_invalid. eauto.
Qed.

(** An e-mail value is rejected or accepted. *)
Lemma bad_or_accepted (v : option (option pystr)) : bad_email v \/ accepted_email v.
Proof.
  destruct v as [[s|]|]; [|right; right; left; reflexivity|right; left; reflexivity].
  destruct s as [|c s]; [right; right; right; eauto|].
  destruct (Str.contains (u "@") (c :: s)) eqn:Hat.
  - right. right. right. eauto.
  - left. exists (c :: s). split; [reflexivity|]. split; [discriminate|exact Hat].
Qed.

Lemma bad_not_accepted (v : option (option pystr)) : bad_email v -> ~ accepted_email v.
Proof.
  intros (s & -> & Hne & Hat) [H | [H | (s' & H & Hs)]];
    try discriminate H.
  injection H as <-. destruct Hs; congruence.
Qed.

(** C8, as the code has it. Let all eleven required fields be passed.
    The construction of [StudentInfo] raises pydantic's [ValidationError]
    when an e-mail field (personal or corporate) is a string that is not
    empty and has no ["@"]; it returns the record when each e-mail field is
    not passed, or is [None], or is the empty string, or has an ["@"], the
    full name and the record-book number not being blank. *)
Theorem C8_email_validation (data : Pydantic.kwargs) :
  (forall f, f ∈ required_fields -> exists s, data !! f = Some (Some s)) ->
  (bad_email (data !! "personal_email"%string)
   \/ bad_email (data !! "corporate_email"%string) ->
   exists errors, StudentInfo_new data = Raise (ValidationError "StudentInfo" errors))
  /\ (forall name number,
        data !! "full_name"%string = Some (Some name) ->
        data !! "record_book_number"%string = Some (Some number) ->
        Str.strip name <> [] ->
        Str.strip number <> [] ->
        accepted_email (data !! "personal_email"%string) ->
        accepted_email (data !! "corporate_email"%string) ->
        exists info,
          StudentInfo_new data = Return info
          /\ personal_email info = mjoin (data !! "personal_email"%string)
          /\ corporate_email info = mjoin (data !! "corporate_email"%string)).
Proof.
  intros Hreq. split.
  - intros [Hbad|Hbad]; unfold StudentInfo_new; apply construct_invalid.
    + apply ap_invalid_l, ap_invalid_l, ap_invalid_r.
      exact (optional_personal_email_bad data Hbad).
    + apply ap_invalid_r. exact (optional_corporate_email_bad data Hbad).
  - intros name number Hname Hnumber Hname' Hnumber' Hp Hc.
    assert (Hin : forall f, In f required_fields -> exists s, data !! f = Some (Some s)).
    { intros f Hf. apply Hreq. apply list_elem_of_In. exact Hf. }
    unfold required_fields in Hin. cbn [In] in Hin.
    destruct (Hin "study_form"%string) as [s3 H3]; [tauto|].
    destruct (Hin "preparation_level"%string) as [s4 H4]; [tauto|].
    destruct (Hin "specialty"%string) as [s5 H5]; [tauto|].
    destruct (Hin "faculty"%string) as [s6 H6]; [tauto|].
    destruct (Hin "course"%string) as [s7 H7]; [tauto|].
    destruct (Hin "group"%string) as [s8 H8]; [tauto|].
    destruct (Hin "financing_form"%string) as [s9 H9]; [tauto|].
    destruct (Hin "dormitory"%string) as [s10 H10]; [tauto|].
    destruct (Hin "end_date"%string) as [s11 H11]; [tauto|].
    unfold StudentInfo_new.
    rewrite (required_full_name data name Hname Hname').
    rewrite (required_record_book_number data number Hnumber Hnumber').
    rewrite (required_plain _ data s3 H3), (required_plain _ data s4 H4),
      (required_plain _ data s5 H5), (required_plain _ data s6 H6),
      (required_plain _ data s7 H7), (required_plain _ data s8 H8),
      (required_plain _ data s9 H9), (required_plain _ data s10 H10),
      (required_plain _ data s11 H11).
    rewrite !optional_plain.
    rewrite (optional_personal_email_ok data Hp), (optional_corporate_email_ok data Hc).
    cbn [ap construct]. eexists. split; [reflexivity|]. split; reflexivity.
Qed.

Lemma C8_email_validation_witness :
  (exists errors,
      StudentInfo_new (Fixtures.student_data (Some (u "ivanov.example.com")))
      = Raise (ValidationError "StudentInfo" errors))
  /\ (exists info,
        StudentInfo_new (Fixtures.student_data (Some (u "ivanov@example.com")))
        = Return info
        /\ personal_email info
           = mjoin (Fixtures.student_data (Some (u "ivanov@example.com"))
                      !! "personal_email"%string)
        /\ corporate_email info
           = mjoin (Fixtures.student_data (Some (u "ivanov@example.com"))
                      !! "corporate_email"%string)).
Proof.
  assert (Hreq : forall e f, f ∈ required_fields ->
                   exists s, Fixtures.student_data e !! f = Some (Some s)).
  { intros e f Hf. unfold required_fields in Hf.
    repeat (apply elem_of_cons in Hf as [-> | Hf]);
      [eexists; vm_compute; reflexivity ..|inversion Hf]. }
  split.
  - apply (proj1 (C8_email_validation
                    (Fixtures.student_data (Some (u "ivanov.example.com")))
                    (Hreq _))).
    left. exists (u "ivanov.example.com").
    split; [vm_compute; reflexivity|].
    split; [vm_compute; discriminate|vm_compute; reflexivity].
  - apply (proj2 (C8_email_validation
                    (Fixtures.student_data (Some (u "ivanov@example.com")))
                    (Hreq _))
             (u "Иванов Иван Иванович") (u "12345678")).
    + vm_compute. reflexivity.
    + vm_compute. reflexivity.
    + vm_compute. discriminate.
    + vm_compute. discriminate.
    + right. right. exists (u "ivanov@example.com").
      split; [vm_compute; reflexivity|right; vm_compute; reflexivity].
    + left. vm_compute. reflexivity.
Defined.

(** The claim as the specification states it does not hold: a personal
    e-mail that is the empty string is present and has no ["@"], and the
    record is built. *)
Lemma C8_empty_email_accepted :
  ~ (forall data : Pydantic.kwargs,
       (forall f, f ∈ required_fields -> exists s, data !! f = Some (Some s)) ->
       present_without_at (data !! "personal_email"%string)
       \/ present_without_at (data !! "corporate_email"%string) ->
       exists errors, StudentInfo_new data = Raise (ValidationError "StudentInfo" errors)).
Proof.
  intros H.
  destruct (H (Fixtures.student_data (Some (u "")))) as [errors Hrun].
  - intros f Hf. unfold required_fields in Hf.
    repeat (apply elem_of_cons in Hf as [-> | Hf]);
      [eexists; vm_compute; reflexivity ..|inversion Hf].
  - left. exists (u ""). split; vm_compute; reflexivity.
  - vm_compute in Hrun. discriminate Hrun.
Qed.

(** * More of the code: the transport, the token, the session, the
      parser, the models and the command line *)

(** ** The transport against any portal *)

Section TransportEffect.

Variable E : Env.

(** One turn of the loop of [_make_request]. *)
Lemma loop_step req k attempt c :
  _make_request_loop E req (S k) attempt c =
  if retryable (network E (trace c) req) && negb (attempt =? max_retries c - 1)
  then _make_request_loop E req k (attempt + 1)
         (record_event (Slept (2 ^ attempt)) (record_event (Requested req) c))
  else (final_result (network E (trace c) req), record_event (Requested req) c).
Proof.
  rewrite loop_unfold.
  unfold bind at 1. unfold try_except, bind, session_request.
  destruct (network E (trace c) req) as [r|m|cls m|cls m]; cbn [retryable final_result].
  - rewrite Z.geb_leb. destruct (400 <=? status r); cbn [andb]; [|reflexivity].
    unfold gets. cbn [max_retries record_event].
    destruct (attempt =? max_retries c - 1); reflexivity.
  - unfold gets. cbn [max_retries record_event andb exn_str].
    destruct (attempt =? max_retries c - 1); reflexivity.
  - reflexivity.
  - reflexivity.
Qed.

Lemma failed_attempts_S req j attempt :
  (0 < j)%nat ->
  failed_attempts req (S j) attempt
  = Requested req :: Slept (2 ^ attempt) :: failed_attempts req j (attempt + 1).
Proof. destruct j; [lia|reflexivity]. Qed.

Lemma add_events_record req evs attempt c :
  add_events evs (record_event (Slept (2 ^ attempt)) (record_event (Requested req) c))
  = add_events (Requested req :: Slept (2 ^ attempt) :: evs) c.
Proof.
  unfold add_events, record_event. cbn [trace timeout max_retries _session
    _session_info _owned_session]. rewrite <- !app_assoc. reflexivity.
Qed.

(** The loop with [k] attempts to go, the first numbered [attempt], when
    these are the last [k] of the configured number: it makes [j] of them,
    [1 <= j <= k], the sleeps between them, and what it returns or raises
    is read off the outcome of the last request; it stops before the last
    attempt only on an outcome it does not retry. *)
Lemma loop_effect req : forall k attempt c,
  max_retries c = attempt + Z.of_nat (S k) ->
  exists j pre,
    (1 <= j <= S k)%nat
    /\ failed_attempts req j attempt = pre ++ [Requested req]
    /\ _make_request_loop E req (S k) attempt c
       = (final_result (network E (trace c ++ pre) req),
          add_events (pre ++ [Requested req]) c)
    /\ (retryable (network E (trace c ++ pre) req) = true -> j = S k).
Proof.
  induction k as [|k IH]; intros attempt c Hmax; rewrite loop_step.
  - replace (attempt =? max_retries c - 1) with true by (symmetry; lia).
    rewrite andb_false_r. exists 1%nat, [].
    rewrite app_nil_r. repeat split; auto.
  - replace (attempt =? max_retries c - 1) with false by (symmetry; lia).
    rewrite andb_true_r.
    destruct (retryable (network E (trace c) req)) eqn:Hretry.
    + set (c2 := record_event (Slept (2 ^ attempt)) (record_event (Requested req) c)).
      destruct (IH (attempt + 1) c2) as (j & pre & Hj & Hpre & Hrun & Hlast).
      { subst c2. cbn [max_retries record_event]. lia. }
      exists (S j), (Requested req :: Slept (2 ^ attempt) :: pre).
      assert (Htrace : trace c2 ++ pre
                       = trace c ++ Requested req :: Slept (2 ^ attempt) :: pre).
      { subst c2. cbn [trace record_event]. rewrite <- !app_assoc. reflexivity. }
      rewrite Htrace in Hrun, Hlast.
      split; [lia|]. split.
      { rewrite failed_attempts_S by lia. rewrite Hpre. reflexivity. }
      split.
      { rewrite Hrun. subst c2. rewrite add_events_record. reflexivity. }
      intros H. rewrite (Hlast H). reflexivity.
    + exists 1%nat, []. rewrite app_nil_r.
      split; [lia|]. split; [reflexivity|]. split; [reflexivity|].
      intros H. congruence.
Qed.

(** [_make_request], whatever the portal does. *)
Lemma make_request_effect req c :
  (max_retries c <= 0
   /\ _make_request E req c
      = (Raise (NetworkError (u "Превышено максимальное количество попыток")),
         ensure_session c))
  \/ (exists j pre,
        (1 <= j <= Z.to_nat (max_retries c))%nat
        /\ failed_attempts req j 0 = pre ++ [Requested req]
        /\ _make_request E req c
           = (final_result (network E (trace c ++ pre) req),
              add_events (pre ++ [Requested req]) (ensure_session c))
        /\ (retryable (network E (trace c ++ pre) req) = true ->
            j = Z.to_nat (max_retries c))).
Proof.
  rewrite make_request_unfold. fold (ensure_session c).
  assert (Ht : trace (ensure_session c) = trace c)
    by (unfold ensure_session; destruct (_session c); reflexivity).
  assert (Hm : max_retries (ensure_session c) = max_retries c)
    by (unfold ensure_session; destruct (_session c); reflexivity).
  destruct (Z.to_nat (max_retries c)) as [|k] eqn:Hk.
  - left. split; [lia|reflexivity].
  - right.
    destruct (loop_effect req k 0 (ensure_session c)) as (j & pre & Hj & Hpre & Hrun & Hl).
    { rewrite Hm. lia. }
    rewrite Ht in Hrun, Hl. exists j, pre. auto.
Qed.

End TransportEffect.

Lemma requests_of_app t1 t2 : requests_of (t1 ++ t2) = requests_of t1 ++ requests_of t2.
Proof. unfold requests_of. apply omap_app. Qed.

Lemma sleeps_of_app t1 t2 : sleeps_of (t1 ++ t2) = sleeps_of t1 ++ sleeps_of t2.
Proof. unfold sleeps_of. apply omap_app. Qed.

Lemma total_sleep_app t1 t2 : total_sleep (t1 ++ t2) = total_sleep t1 + total_sleep t2.
Proof.
  unfold total_sleep. rewrite sleeps_of_app.
  induction (sleeps_of t1) as [|x l IH]; cbn [app foldr]; lia.
Qed.

Lemma closes_of_app t1 t2 : closes_of (t1 ++ t2) = (closes_of t1 + closes_of t2)%nat.
Proof. unfold closes_of. rewrite List.filter_app, length_app. reflexivity. Qed.

(** The seconds slept over [j] attempts: [2^0 + ... + 2^(j-2)]. *)
Lemma total_sleep_failed_attempts req j : forall attempt,
  0 <= attempt ->
  total_sleep (failed_attempts req (S j) attempt)
  = 2 ^ attempt * (2 ^ Z.of_nat j - 1).
Proof.
  induction j as [|j IH]; intros attempt Ha.
  - cbn. lia.
  - rewrite failed_attempts_S by lia.
    change (total_sleep (Requested req :: Slept (2 ^ attempt)
                           :: failed_attempts req (S j) (attempt + 1)))
      with (2 ^ attempt + total_sleep (failed_attempts req (S j) (attempt + 1))).
    rewrite IH by lia.
    rewrite Z.pow_add_r by lia. rewrite Nat2Z.inj_succ, Z.pow_succ_r by lia.
    lia.
Qed.

Lemma closes_of_failed_attempts req j : forall attempt,
  closes_of (failed_attempts req j attempt) = 0%nat.
Proof.
  induction j as [|j IH]; intros attempt; [reflexivity|].
  destruct j as [|j]; [reflexivity|].
  rewrite failed_attempts_S by lia.
  change (closes_of (Requested req :: Slept (2 ^ attempt)
                       :: failed_attempts req (S j) (attempt + 1)))
    with (closes_of (failed_attempts req (S j) (attempt + 1))).
  apply IH.
Qed.

(** The shape of one call of [_make_request]: its attempts and its sleeps. *)
Lemma make_request_shape (E : Env) (req : request) (c : MisisClient) :
  exists j,
    (j <= Z.to_nat (max_retries c))%nat
    /\ (_make_request E req c).2 = add_events (failed_attempts req j 0) (ensure_session c)
    /\ requests_of (trace (_make_request E req c).2)
       = requests_of (trace c) ++ replicate j req
    /\ sleeps_of (trace (_make_request E req c).2)
       = sleeps_of (trace c) ++ map (fun i => 2 ^ Z.of_nat i) (seq 0 (pred j))
    /\ total_sleep (trace (_make_request E req c).2)
       = total_sleep (trace c) + (2 ^ Z.of_nat (pred j) - 1).
Proof.
  assert (Ht : trace (ensure_session c) = trace c)
    by (unfold ensure_session; destruct (_session c); reflexivity).
  destruct (make_request_effect E req c)
    as [[Hmax Hrun]|(j & pre & Hj & Hpre & Hrun & _)]; rewrite Hrun; cbn [snd].
  - exists 0%nat. cbn [failed_attempts pred seq map replicate].
    split; [lia|]. split.
    { unfold add_events, ensure_session. rewrite app_nil_r.
      destruct (_session c), c; reflexivity. }
    rewrite Ht, !app_nil_r. repeat split. cbn. lia.
  - exists j. rewrite <- Hpre. split; [lia|]. split; [reflexivity|].
    cbn [trace add_events]. rewrite Ht.
    rewrite requests_of_app, sleeps_of_app, total_sleep_app.
    rewrite requests_of_failed_attempts.
    destruct j as [|j]; [lia|].
    rewrite sleeps_of_failed_attempts, total_sleep_failed_attempts by lia.
    cbn [pred]. repeat split. lia.
Qed.

(** X1. Whatever the portal does, one call of [_make_request] issues at
    most [max_retries] requests, all of them the request it was given,
    sleeps [2^0], [2^1], ... between them and nothing after the last, so
    that [j] requests cost [2^(j-1) - 1] seconds of sleep; of the client it
    changes only the trace and, when there was none, the HTTP session. *)
Theorem make_request_bounded (E : Env) (req : request) (c : MisisClient) :
  exists j,
    (j <= Z.to_nat (max_retries c))%nat
    /\ (_make_request E req c).2 = add_events (failed_attempts req j 0) (ensure_session c)
    /\ requests_of (trace (_make_request E req c).2)
       = requests_of (trace c) ++ replicate j req
    /\ sleeps_of (trace (_make_request E req c).2)
       = sleeps_of (trace c) ++ map (fun i => 2 ^ Z.of_nat i) (seq 0 (pred j))
    /\ total_sleep (trace (_make_request E req c).2)
       = total_sleep (trace c) + (2 ^ Z.of_nat (pred j) - 1).
Proof. exact (make_request_shape E req c). Qed.

(** What a call of [_make_request] that returns has gone through. *)
Lemma make_request_return_inv (E : Env) (req : request)
    (c c' : MisisClient) st tx url h :
  _make_request E req c = (Return (st, tx, url, h), c') ->
  st < 400
  /\ exists pre r,
       trace c' = trace c ++ pre ++ [Requested req]
       /\ network E (trace c ++ pre) req = Responds r
       /\ (st, tx, url, h) = (status r, text r, final_url r, headers r).
Proof.
  intros H.
  assert (Ht : trace (ensure_session c) = trace c)
    by (unfold ensure_session; destruct (_session c); reflexivity).
  destruct (make_request_effect E req c)
    as [[_ Hrun]|(j & pre & _ & _ & Hrun & _)]; rewrite Hrun in H;
    [discriminate H|].
  injection H as Hres <-.
  destruct (network E (trace c ++ pre) req) as [r|m|cls m|cls m] eqn:Hnet;
    cbn [final_result] in Hres; try discriminate Hres.
  destruct (Z.leb_spec 400 (status r)) as [Hbad|Hok]; [discriminate Hres|].
  injection Hres as <- <- <- <-.
  split; [exact Hok|]. exists pre, r.
  cbn [trace add_events]. rewrite Ht. auto.
Qed.

(** X2. What [_make_request] returns is the response to the last request
    it issued, and its status is below 400: a status of 400 or more is
    never returned to the caller. *)
Theorem make_request_returns_last_response (E : Env) (req : request)
    (c c' : MisisClient) st tx url h :
  _make_request E req c = (Return (st, tx, url, h), c') ->
  st < 400
  /\ exists pre r,
       trace c' = trace c ++ pre ++ [Requested req]
       /\ network E (trace c ++ pre) req = Responds r
       /\ (st, tx, url, h) = (status r, text r, final_url r, headers r).
Proof. exact (make_request_return_inv E req c c' st tx url h). Qed.

Lemma make_request_returns_last_response_witness :
  200 < 400
  /\ exists pre r,
       trace (_make_request Fixtures2.E_flaky Fixtures.get_login_page Fixtures.client0).2
       = trace Fixtures.client0 ++ pre ++ [Requested Fixtures.get_login_page]
       /\ network Fixtures2.E_flaky (trace Fixtures.client0 ++ pre)
            Fixtures.get_login_page = Responds r
       /\ (200, Fixtures.login_html, AUTH_URL, [])
          = (status r, text r, final_url r, headers r).
Proof.
  apply (make_request_returns_last_response Fixtures2.E_flaky
           Fixtures.get_login_page Fixtures.client0).
  vm_compute. reflexivity.
Defined.

(** X3. When every outcome is one the loop retries (a status of 400 or
    more, or an [aiohttp.ClientError]) and [max_retries] is positive,
    [_make_request] makes all its attempts and raises the [NetworkError]
    built from the outcome of the last of them, the request that ends the
    trace: with the status and the reason of that response, or with the
    text of that client error. *)
Theorem make_request_exhausts_retries (E : Env) (req : request) (c : MisisClient) :
  (forall t, retryable (network E t req) = true) ->
  0 < max_retries c ->
  exists pre,
    trace (_make_request E req c).2 = trace c ++ pre ++ [Requested req]
    /\ requests_of (trace (_make_request E req c).2)
       = requests_of (trace c) ++ replicate (Z.to_nat (max_retries c)) req
    /\ match network E (trace c ++ pre) req with
       | Responds r =>
         (_make_request E req c).1
         = Raise (NetworkError (u "HTTP " ++ Str.of_int (status r)
                                  ++ u ": " ++ reason r))
       | RaisesClientError m =>
         (_make_request E req c).1 = Raise (NetworkError (u "Ошибка сети: " ++ m))
       | _ => False
       end.
Proof.
  intros Hall Hmax.
  assert (Ht : trace (ensure_session c) = trace c)
    by (unfold ensure_session; destruct (_session c); reflexivity).
  destruct (make_request_effect E req c)
    as [[Hle _]|(j & pre & Hj & Hpre & Hrun & Hlast)]; [lia|].
  specialize (Hlast (Hall _)). subst j.
  exists pre. rewrite Hrun. cbn [fst snd trace add_events]. rewrite Ht.
  split; [reflexivity|]. split.
  { rewrite <- Hpre, requests_of_app, requests_of_failed_attempts. reflexivity. }
  specialize (Hall (trace c ++ pre)).
  destruct (network E (trace c ++ pre) req) as [r|m|cls m|cls m];
    cbn [retryable final_result] in *; try discriminate Hall.
  - rewrite Hall. reflexivity.
  - reflexivity.
Qed.

Lemma make_request_exhausts_retries_witness :
  exists pre,
    trace (_make_request Fixtures2.E_refused Fixtures.get_login_page Fixtures.client0).2
    = trace Fixtures.client0 ++ pre ++ [Requested Fixtures.get_login_page]
    /\ requests_of
         (trace (_make_request Fixtures2.E_refused Fixtures.get_login_page
                   Fixtures.client0).2)
       = requests_of (trace Fixtures.client0)
         ++ replicate (Z.to_nat (max_retries Fixtures.client0)) Fixtures.get_login_page
    /\ match network Fixtures2.E_refused (trace Fixtures.client0 ++ pre)
               Fixtures.get_login_page with
       | Responds r =>
         (_make_request Fixtures2.E_refused Fixtures.get_login_page Fixtures.client0).1
         = Raise (NetworkError (u "HTTP " ++ Str.of_int (status r)
                                  ++ u ": " ++ reason r))
       | RaisesClientError m =>
         (_make_request Fixtures2.E_refused Fixtures.get_login_page Fixtures.client0).1
         = Raise (NetworkError (u "Ошибка сети: " ++ m))
       | _ => False
       end.
Proof.
  apply (make_request_exhausts_retries Fixtures2.E_refused Fixtures.get_login_page
           Fixtures.client0).
  - intros t. reflexivity.
  - reflexivity.
Defined.

(** An exception that is not an [aiohttp.ClientError] ends the loop. *)
Lemma make_request_other_exception (E : Env) (req : request)
    (c : MisisClient) cls m :
  0 < max_retries c ->
  network E (trace c) req = RaisesOther cls m ->
  _make_request E req c
  = (Raise (OtherException cls m), record_event (Requested req) (ensure_session c)).
Proof.
  intros Hmax Hnet. rewrite make_request_unfold. fold (ensure_session c).
  assert (Ht : trace (ensure_session c) = trace c)
    by (unfold ensure_session; destruct (_session c); reflexivity).
  destruct (Z.to_nat (max_retries c)) as [|k] eqn:Hk; [lia|].
  rewrite loop_step, Ht, Hnet. reflexivity.
Qed.

(** So does an exception that is not an [Exception]. *)
Lemma make_request_base_exception (E : Env) (req : request)
    (c : MisisClient) cls m :
  0 < max_retries c ->
  network E (trace c) req = RaisesBaseException cls m ->
  _make_request E req c
  = (Raise (BaseException cls m), record_event (Requested req) (ensure_session c)).
Proof.
  intros Hmax Hnet. rewrite make_request_unfold. fold (ensure_session c).
  assert (Ht : trace (ensure_session c) = trace c)
    by (unfold ensure_session; destruct (_session c); reflexivity).
  destruct (Z.to_nat (max_retries c)) as [|k] eqn:Hk; [lia|].
  rewrite loop_step, Ht, Hnet. reflexivity.
Qed.

(** X4. An exception of the request that is not an [aiohttp.ClientError]
    (a timeout, for one, or the [asyncio.CancelledError] of a cancelled
    task, which is not even an [Exception]) is not retried: after that one
    request, with no sleep, [_make_request] raises it as it is, not as a
    [NetworkError]. *)
Theorem make_request_does_not_retry_other (E : Env) (req : request)
    (c : MisisClient) cls m :
  0 < max_retries c ->
  (network E (trace c) req = RaisesOther cls m ->
   _make_request E req c
   = (Raise (OtherException cls m), record_event (Requested req) (ensure_session c)))
  /\ (network E (trace c) req = RaisesBaseException cls m ->
      _make_request E req c
      = (Raise (BaseException cls m), record_event (Requested req) (ensure_session c))).
Proof.
  intros Hmax. split.
  - exact (make_request_other_exception E req c cls m Hmax).
  - exact (make_request_base_exception E req c cls m Hmax).
Qed.

Lemma make_request_does_not_retry_other_witness :
  _make_request Fixtures2.E_timeout Fixtures.get_login_page Fixtures.client0
  = (Raise (OtherException "TimeoutError" (u "")),
     record_event (Requested Fixtures.get_login_page)
       (ensure_session Fixtures.client0)).
Proof.
  apply (proj1 (make_request_does_not_retry_other Fixtures2.E_timeout
                  Fixtures.get_login_page Fixtures.client0 "TimeoutError" (u "")
                  eq_refl)).
  reflexivity.
Defined.

(** ** Python strings: [strip], [in] and [split] *)

Lemma lstrip_starts_clean s : starts_clean (Str.lstrip s).
Proof.
  induction s as [|c s IH]; cbn [Str.lstrip]; [exact I|].
  destruct (Str.isspace c) eqn:Hc; [exact IH|exact Hc].
Qed.

Lemma lstrip_fixed s : starts_clean s -> Str.lstrip s = s.
Proof. destruct s as [|c s]; cbn; [reflexivity|]. intros ->. reflexivity. Qed.

Lemma lstrip_suffix s : exists x, s = x ++ Str.lstrip s.
Proof.
  induction s as [|c s [x IH]]; [exists []; reflexivity|].
  cbn [Str.lstrip]. destruct (Str.isspace c).
  - exists (c :: x). cbn. rewrite <- IH. reflexivity.
  - exists []. reflexivity.
Qed.

Lemma starts_clean_prefix (a b : pystr) : a <> [] -> starts_clean (a ++ b) -> starts_clean a.
Proof. destruct a; [congruence|]. cbn. auto. Qed.

Lemma starts_clean_app (a b : pystr) :
  starts_clean a -> starts_clean b -> starts_clean (a ++ b).
Proof. destruct a; cbn; auto. Qed.

Lemma edges_clean_trimmed s : edges_clean s -> trimmed s.
Proof.
  intros [H1 H2]. unfold trimmed, Str.strip.
  rewrite (lstrip_fixed s H1), (lstrip_fixed (rev s) H2). apply rev_involutive.
Qed.

Lemma strip_edges_clean s : edges_clean (Str.strip s).
Proof.
  unfold Str.strip, edges_clean. rewrite rev_involutive.
  split; [|apply lstrip_starts_clean].
  destruct (lstrip_suffix (rev (Str.lstrip s))) as [x Hx].
  set (w := Str.lstrip (rev (Str.lstrip s))) in *.
  destruct w as [|a w'] eqn:Hw; [exact I|].
  apply (f_equal (@rev N)) in Hx. rewrite rev_involutive, rev_app_distr in Hx.
  apply (starts_clean_prefix (rev (a :: w')) (rev x)).
  - intros H. apply (f_equal (@rev N)) in H. rewrite rev_involutive in H.
    discriminate H.
  - rewrite <- Hx. apply lstrip_starts_clean.
Qed.

(** [strip] does nothing to a string it has produced. *)
Lemma strip_idempotent s : Str.strip (Str.strip s) = Str.strip s.
Proof. apply edges_clean_trimmed, strip_edges_clean. Qed.

Lemma trimmed_edges_clean s : trimmed s -> edges_clean s.
Proof. unfold trimmed. intros <-. apply strip_edges_clean. Qed.

Lemma edges_clean_app (a b : pystr) :
  edges_clean a -> edges_clean b -> edges_clean (a ++ b).
Proof.
  intros [Ha1 Ha2] [Hb1 Hb2]. split.
  - apply starts_clean_app; assumption.
  - rewrite rev_app_distr. apply starts_clean_app; assumption.
Qed.

Lemma elem_of_rev (a : N) (l : pystr) : a ∈ rev l <-> a ∈ l.
Proof. rewrite !list_elem_of_In. symmetry. apply in_rev. Qed.

Lemma lstrip_elem s a : a ∈ Str.lstrip s -> a ∈ s.
Proof.
  destruct (lstrip_suffix s) as [x Hx]. intros H.
  rewrite Hx. apply elem_of_app. right. exact H.
Qed.

(** [strip] only removes characters. *)
Lemma strip_elem s a : a ∈ Str.strip s -> a ∈ s.
Proof.
  unfold Str.strip. intros H.
  apply (proj1 (elem_of_rev _ _)) in H. apply lstrip_elem in H.
  apply (proj1 (elem_of_rev _ _)) in H. apply lstrip_elem in H. exact H.
Qed.

(** [c in s] for a string [c] of one character. *)
Lemma contains_char c s : Str.contains [c] s = true <-> c ∈ s.
Proof.
  induction s as [|a s IH]; cbn [Str.contains Str.startswith].
  - split; [discriminate|]. intros H. inversion H.
  - rewrite andb_true_r, orb_true_iff, IH, elem_of_cons, N.eqb_eq. tauto.
Qed.

(** [split] gives at least one piece. *)
Lemma split_go_nonempty sep s : forall cur skip,
  exists x l, Str.split_go sep cur s skip = x :: l.
Proof.
  induction s as [|c s IH]; intros cur skip; cbn [Str.split_go]; [eauto|].
  destruct skip; [|apply IH].
  destruct (Str.startswith sep (c :: s)); [eauto|apply IH].
Qed.

Lemma split_go_absent sep s : forall cur,
  Str.contains sep s = false -> Str.split_go sep cur s 0 = [rev cur ++ s].
Proof.
  induction s as [|c s IH]; intros cur H; cbn [Str.split_go].
  - rewrite app_nil_r. reflexivity.
  - cbn [Str.contains] in H. apply orb_false_iff in H as [H1 H2].
    rewrite H1, (IH (c :: cur) H2). cbn [rev]. rewrite <- app_assoc. reflexivity.
Qed.

Lemma split_go_present sep s : forall cur,
  sep <> [] -> Str.contains sep s = true ->
  exists x y l, Str.split_go sep cur s 0 = x :: y :: l.
Proof.
  induction s as [|c s IH]; intros cur Hsep H.
  - destruct sep; [congruence|discriminate H].
  - cbn [Str.split_go]. destruct (Str.startswith sep (c :: s)) eqn:Hst.
    + destruct (split_go_nonempty sep s [] (length sep - 1)) as (y & l & ->). eauto.
    + cbn [Str.contains] in H. rewrite Hst in H. apply (IH (c :: cur) Hsep H).
Qed.

(** [s.split(sep)[1]] exists exactly when [sep in s]. *)
Lemma split_second sep s :
  sep <> [] ->
  (exists rest, Str.split sep s !! 1%nat = Some rest) <-> Str.contains sep s = true.
Proof.
  intros Hsep. unfold Str.split. split.
  - intros [rest H]. destruct (Str.contains sep s) eqn:Hc; [reflexivity|].
    rewrite (split_go_absent sep s [] Hc) in H. discriminate H.
  - intros H. destruct (split_go_present sep s [] Hsep H) as (x & y & l & ->).
    eauto.
Qed.

(** The first piece of a split at one character has not that character. *)
Lemma split_go_first_piece c s : forall cur x l,
  Str.split_go [c] cur s 0 = x :: l -> c ∉ cur -> c ∉ x.
Proof.
  induction s as [|a s IH]; intros cur x l H Hcur; cbn [Str.split_go] in H.
  - injection H as <- _. intros Hx. apply Hcur. apply (proj1 (elem_of_rev _ _)). exact Hx.
  - cbn [Str.startswith] in H. rewrite andb_true_r in H.
    destruct (N.eqb_spec c a) as [->|Hne].
    + injection H as <- _. intros Hx. apply Hcur. apply (proj1 (elem_of_rev _ _)). exact Hx.
    + apply (IH (a :: cur) x l H). intros Hin.
      apply elem_of_cons in Hin as [->|Hin]; [congruence|auto].
Qed.

Lemma split_first c s : exists x, Str.split [c] s !! 0%nat = Some x /\ c ∉ x.
Proof.
  unfold Str.split. destruct (split_go_nonempty [c] s [] 0) as (x & l & H).
  exists x. rewrite H. split; [reflexivity|].
  apply (split_go_first_piece c s [] x l H). intros Hin. inversion Hin.
Qed.

(** ** The token of the login page *)

Section Token.

Variable E : Env.

Lemma ensure_session_trace c : trace (ensure_session c) = trace c.
Proof. unfold ensure_session. destruct (_session c); reflexivity. Qed.

Lemma ensure_session_max_retries c : max_retries (ensure_session c) = max_retries c.
Proof. unfold ensure_session. destruct (_session c); reflexivity. Qed.

Lemma ensure_session_info c : _session_info (ensure_session c) = _session_info c.
Proof. unfold ensure_session. destruct (_session c); reflexivity. Qed.

(** The fetch of the login page raised: what [_get_csrf_token] raises. *)
Lemma get_csrf_token_fetch_failed c e c1 :
  _make_request E token_request c = (Raise e, c1) ->
  _get_csrf_token E c =
  (Raise (match e with
          | ParseError _ | NetworkError _ | BaseException _ _ => e
          | _ => ParseError (u "Ошибка получения CSRF токена: " ++ exn_str E e)
          end), c1).
Proof.
  intros H. unfold _get_csrf_token, try_except, bind.
  change (Build_request (u "GET") AUTH_URL None None) with token_request.
  rewrite H. destruct e; reflexivity.
Qed.

(** The login page was fetched: what [_get_csrf_token] makes of it. *)
Lemma get_csrf_token_fetched c st tx url h c1 :
  _make_request E token_request c = (Return (st, tx, url, h), c1) ->
  _get_csrf_token E c =
  (match find_csrf_meta (BeautifulSoup E tx) with
   | None => Raise (ParseError (u "CSRF токен не найден на странице"))
   | Some csrf_meta =>
     match Soup.get (u "content") (here csrf_meta) with
     | Some ((_ :: _) as csrf_token) => Return csrf_token
     | _ => Raise (ParseError (u "CSRF токен пустой"))
     end
   end, c1).
Proof.
  intros H. unfold _get_csrf_token, try_except, bind.
  change (Build_request (u "GET") AUTH_URL None None) with token_request.
  rewrite H. unfold find_csrf_meta.
  destruct (Soup.find _ _ _ _ _) as [m|]; [|reflexivity].
  destruct (Soup.get _ _) as [[|a tok]|]; reflexivity.
Qed.

(** [_get_csrf_token] leaves the client as its one fetch left it. *)
Lemma get_csrf_token_state c :
  (_get_csrf_token E c).2 = (_make_request E token_request c).2.
Proof.
  destruct (_make_request E token_request c) as [[[[[st tx] url] h]|e] c1] eqn:H.
  - rewrite (get_csrf_token_fetched c st tx url h c1 H). reflexivity.
  - rewrite (get_csrf_token_fetch_failed c e c1 H). reflexivity.
Qed.

End Token.

(** X5. The token [_get_csrf_token] returns is the [content] attribute
    of the first [meta] element named [csrf-token] of the login page, as it
    stands (not trimmed) and never empty; without such an element it raises
    the [ParseError] "token not found", and with one that has no [content]
    or an empty one the [ParseError] "token empty". Status, final URL and
    headers of the response play no part. *)
Theorem get_csrf_token_reads_first_meta (E : Env) c st tx url h c1 :
  _make_request E token_request c = (Return (st, tx, url, h), c1) ->
  (find_csrf_meta (BeautifulSoup E tx) = None ->
   _get_csrf_token E c
   = (Raise (ParseError (u "CSRF токен не найден на странице")), c1))
  /\ (forall m tok,
        find_csrf_meta (BeautifulSoup E tx) = Some m ->
        Soup.get (u "content") (here m) = Some tok ->
        tok <> [] ->
        _get_csrf_token E c = (Return tok, c1))
  /\ (forall m,
        find_csrf_meta (BeautifulSoup E tx) = Some m ->
        Soup.get (u "content") (here m) = None
        \/ Soup.get (u "content") (here m) = Some [] ->
        _get_csrf_token E c = (Raise (ParseError (u "CSRF токен пустой")), c1))
  /\ (forall tok c', _get_csrf_token E c = (Return tok, c') -> tok <> []).
Proof.
  intros H. rewrite (get_csrf_token_fetched E c st tx url h c1 H).
  split; [intros ->; reflexivity|]. split.
  { intros m tok -> -> Htok. destruct tok; [congruence|reflexivity]. }
  split.
  { intros m -> [-> | ->]; reflexivity. }
  intros tok c'. destruct (find_csrf_meta _) as [m|]; [|discriminate].
  destruct (Soup.get _ _) as [[|a t]|]; try discriminate.
  intros Heq. injection Heq as <- _. discriminate.
Qed.

Lemma get_csrf_token_reads_first_meta_witness :
  _get_csrf_token Fixtures.E_ok Fixtures.client0
  = (Return (u "tok123"),
     (_make_request Fixtures.E_ok token_request Fixtures.client0).2).
Proof.
  refine (proj1 (proj2 (get_csrf_token_reads_first_meta Fixtures.E_ok
                          Fixtures.client0 200 Fixtures.login_html AUTH_URL [] _ _))
            (Located (Tag (u "meta")
                        [(u "name", u "csrf-token"); (u "content", u "tok123")]
                        None []) [])
            (u "tok123") _ _ _).
  - vm_compute. reflexivity.
  - vm_compute. reflexivity.
  - vm_compute. reflexivity.
  - vm_compute. discriminate.
Defined.

(** X6. An exception of the fetch of the login page that is an
    [Exception] but not an [aiohttp.ClientError] (a timeout) is not retried
    and leaves [authenticate] as a [ParseError] "error getting the CSRF
    token", after the one request; one that is not an [Exception] (the
    [asyncio.CancelledError] of a cancelled task) is not retried either,
    and leaves [authenticate] as it is, wrapped by no handler. *)
Theorem token_fetch_exception_is_parse_error (E : Env) l p c cls m :
  Str.strip l <> [] -> p <> [] ->
  0 < max_retries c ->
  (network E (trace c) token_request = RaisesOther cls m ->
   authenticate E l p c
   = (Raise (ParseError (u "Ошибка получения CSRF токена: " ++ m)),
      record_event (Requested token_request) (ensure_session c)))
  /\ (network E (trace c) token_request = RaisesBaseException cls m ->
      authenticate E l p c
      = (Raise (BaseException cls m),
         record_event (Requested token_request) (ensure_session c))).
Proof.
  intros Hl Hp Hmax. split; intros Hnet.
  - pose proof (make_request_other_exception E token_request c cls m Hmax Hnet) as Hreq.
    pose proof (get_csrf_token_fetch_failed E c _ _ Hreq) as Htok.
    cbn [exn_str] in Htok.
    exact (authenticate_token_failed E l p c _ _ _
             (AuthenticationData_new_ok l p Hl Hp) Htok).
  - pose proof (make_request_base_exception E token_request c cls m Hmax Hnet) as Hreq.
    pose proof (get_csrf_token_fetch_failed E c _ _ Hreq) as Htok.
    exact (authenticate_token_failed E l p c _ _ _
             (AuthenticationData_new_ok l p Hl Hp) Htok).
Qed.

Lemma token_fetch_exception_is_parse_error_witness :
  authenticate Fixtures2.E_timeout (u "user") (u "pw") Fixtures.client0
  = (Raise (ParseError (u "Ошибка получения CSRF токена: " ++ u "")),
     record_event (Requested token_request) (ensure_session Fixtures.client0)).
Proof.
  apply (proj1 (token_fetch_exception_is_parse_error Fixtures2.E_timeout
                  (u "user") (u "pw") Fixtures.client0 "TimeoutError" (u "")
                  ltac:(vm_compute; discriminate) ltac:(vm_compute; discriminate)
                  eq_refl)).
  reflexivity.
Defined.

(** X7. With [max_retries] at zero or below no request is ever issued:
    [authenticate] (the credentials being valid) and [get_student_info]
    (the client being authenticated) raise the [NetworkError] "number of
    attempts exceeded" and leave the trace as it is. *)
Theorem no_attempts_no_request (E : Env) (c : MisisClient) :
  max_retries c <= 0 ->
  (forall l p,
     Str.strip l <> [] -> p <> [] ->
     authenticate E l p c
     = (Raise (NetworkError (u "Превышено максимальное количество попыток")),
        ensure_session c))
  /\ (client_is_authenticated c = true ->
      get_student_info E c
      = (Raise (NetworkError (u "Превышено максимальное количество попыток")),
         ensure_session c))
  /\ trace (ensure_session c) = trace c.
Proof.
  intros Hmax.
  assert (Hreq : forall req,
             _make_request E req c
             = (Raise (NetworkError (u "Превышено максимальное количество попыток")),
                ensure_session c)).
  { intros req.
    destruct (make_request_effect E req c) as [[_ H]|(j & pre & Hj & _)];
      [exact H|lia]. }
  split; [|split; [|apply ensure_session_trace]].
  - intros l p Hl Hp.
    pose proof (get_csrf_token_fetch_failed E c _ _ (Hreq token_request)) as Htok.
    exact (authenticate_token_failed E l p c _ _ _
             (AuthenticationData_new_ok l p Hl Hp) Htok).
  - unfold client_is_authenticated.
    destruct (_session_info c) as [s|] eqn:Hs; [|discriminate].
    intros Hauth.
    exact (get_student_info_fetch_failed E c s _ _ Hs Hauth (Hreq _)).
Qed.

Lemma no_attempts_no_request_witness :
  authenticate Fixtures.E_ok (u "user") (u "pw") (MisisClient_new 30 0 None)
  = (Raise (NetworkError (u "Превышено максимальное количество попыток")),
     ensure_session (MisisClient_new 30 0 None)).
Proof.
  apply (proj1 (no_attempts_no_request Fixtures.E_ok (MisisClient_new 30 0 None)
                  ltac:(vm_compute; discriminate))).
  - vm_compute. discriminate.
  - vm_compute. discriminate.
Defined.

(** ** [authenticate], when it returns *)

Lemma subscript_inv {A : Type} (l : list A) i x :
  subscript l i = Return x -> l !! i = Some x.
Proof. unfold subscript. destruct (l !! i); intros H; [injection H as ->; reflexivity|discriminate H]. Qed.

Lemma status_in_302_200 st : status_in st [302; 200] = true <-> st = 302 \/ st = 200.
Proof.
  unfold status_in. cbn [existsb]. rewrite orb_false_r, orb_true_iff, !Z.eqb_eq.
  tauto.
Qed.

(** Every step [authenticate] has gone through when it returns. *)
Lemma authenticate_return_inv (E : Env) l p c info c' :
  authenticate E l p c = (Return info, c') ->
  exists d tok c1 st tx url h c2 location rest id,
    AuthenticationData_new l p = Return d
    /\ _get_csrf_token E c = (Return tok, c1)
    /\ _make_request E (login_request d tok) c1 = (Return (st, tx, url, h), c2)
    /\ headers_get (u "Location") h = Some location
    /\ Str.contains (u "/s") location = true
    /\ (st = 302 \/ st = 200)
    /\ Str.contains (u "Неверный логин или пароль") tx = false
    /\ Str.split (u "/ru/") location !! 1%nat = Some rest
    /\ Str.split (u "/") rest !! 0%nat = Some id
    /\ SessionInfo_new id tok true = Return info
    /\ c' = set_session_info (Some info) c2.
Proof.
  unfold authenticate. intros H.
  apply bind_inv in H as [(d & c0 & Hd & H)|(e & H & Hr)]; [|discriminate Hr].
  unfold lift in Hd. injection Hd as Hd <-.
  apply try_except_inv in H
    as [(info' & H & Hr)|[(e & c1 & H & _ & Hh)|(e & _ & _ & Hr)]].
  2:{ destruct e; unfold raise in Hh; discriminate Hh. }
  2:{ discriminate Hr. }
  injection Hr as <-.
  apply bind_inv in H as [(tok & c1 & Htok & H)|(e & H & Hr)]; [|discriminate].
  apply bind_inv in H as [(x & c2 & Hreq & H)|(e & H & Hr)]; [|discriminate].
  destruct x as [[[st tx] url] h].
  destruct (headers_get (u "Location") h) as [location|] eqn:Hloc;
    [|unfold raise in H; discriminate H].
  destruct (negb (Str.truthy location)); [unfold raise in H; discriminate H|].
  destruct (Str.contains (u "/s") location) eqn:Hmark;
    [|unfold raise in H; discriminate H].
  destruct (status_in st [302; 200]) eqn:Hst;
    [|unfold raise in H; discriminate H].
  destruct (Str.contains (u "Неверный логин или пароль") tx) eqn:Htx;
    [unfold raise in H; discriminate H|].
  cbn [negb] in H.
  apply bind_inv in H as [(rest & c3 & Hrest & H)|(e & H & Hr)]; [|discriminate].
  unfold lift in Hrest. injection Hrest as Hrest <-.
  apply bind_inv in H as [(id & c3 & Hid & H)|(e & H & Hr)]; [|discriminate].
  unfold lift in Hid. injection Hid as Hid <-.
  apply bind_inv in H as [(info' & c3 & Hinfo & H)|(e & H & Hr)]; [|discriminate].
  unfold lift in Hinfo. injection Hinfo as Hinfo <-.
  apply bind_inv in H as [([] & c3 & Hmod & H)|(e & H & Hr)]; [|discriminate].
  unfold modify in Hmod. injection Hmod as <-.
  unfold ret in H. injection H as <- <-.
  exists d, tok, c1, st, tx, url, h, c2, location, rest, id.
  apply subscript_inv in Hrest, Hid. apply status_in_302_200 in Hst.
  repeat (split; [assumption|]). reflexivity.
Qed.

(** X8. Once the token is read and the login POST answered,
    [authenticate] returns a session exactly when the response has a
    [Location] header that contains ["/s"] and ["/ru/"], its status is 302
    or 200, its body does not contain the message of a failed login, and
    neither the path segment that follows the first ["/ru/"] nor the token
    is blank; the session then carries that segment and the token, both
    trimmed, and is stored in the client. *)
Theorem authenticate_accepts_iff (E : Env) l p c d tok c1 st tx url h c2 :
  AuthenticationData_new l p = Return d ->
  _get_csrf_token E c = (Return tok, c1) ->
  _make_request E (login_request d tok) c1 = (Return (st, tx, url, h), c2) ->
  forall info c',
    authenticate E l p c = (Return info, c')
    <-> exists location rest id,
          headers_get (u "Location") h = Some location
          /\ Str.contains (u "/s") location = true
          /\ Str.contains (u "/ru/") location = true
          /\ (st = 302 \/ st = 200)
          /\ Str.contains (u "Неверный логин или пароль") tx = false
          /\ Str.split (u "/ru/") location !! 1%nat = Some rest
          /\ Str.split (u "/") rest !! 0%nat = Some id
          /\ Str.strip id <> [] /\ Str.strip tok <> []
          /\ info = Build_SessionInfo (Str.strip id) (Str.strip tok) true
          /\ c' = set_session_info (Some info) c2.
Proof.
  intros Hd Htok Hreq info c'. split.
  - intros H.
    destruct (authenticate_return_inv E l p c info c' H)
      as (d' & tok' & c1' & st' & tx' & url' & h' & c2' & location & rest & id
          & Hd' & Htok' & Hreq' & Hloc & Hmark & Hst & Htx & Hrest & Hid & Hinfo & ->).
    rewrite Hd in Hd'. injection Hd' as <-.
    rewrite Htok in Htok'. injection Htok' as <- <-.
    rewrite Hreq in Hreq'. injection Hreq' as <- <- <- <- <-.
    exists location, rest, id.
    destruct (SessionInfo_new_inv _ _ _ _ Hinfo) as (Ha & Ht & Hf & Hid' & Htok').
    repeat (split; [assumption|]).
    split.
    { apply split_second; [vm_compute; discriminate|eauto]. }
    repeat (split; [assumption|]).
    split; [|reflexivity].
    destruct info as [a t f]. cbn in Ha, Ht, Hf. subst. reflexivity.
  - intros (location & rest & id & Hloc & Hmark & _ & Hst & Htx & Hrest & Hid
            & Hid' & Htok' & -> & ->).
    apply (authenticate_accepts E l p c d tok c1 st tx url h c2 location rest id);
      try assumption.
    destruct location; [discriminate Hmark|reflexivity].
Qed.

Lemma authenticate_accepts_iff_witness :
  authenticate Fixtures.E_ok (u "user") (u "pw") Fixtures.client0
  = (Return (Build_SessionInfo (Str.strip (u "s")) (Str.strip (u "tok123")) true),
     set_session_info
       (Some (Build_SessionInfo (Str.strip (u "s")) (Str.strip (u "tok123")) true))
       (_make_request Fixtures.E_ok
          (login_request (Build_AuthenticationData (u "user") (u "pw") false)
             (u "tok123"))
          (_get_csrf_token Fixtures.E_ok Fixtures.client0).2).2).
Proof.
  refine (proj2 (authenticate_accepts_iff Fixtures.E_ok (u "user") (u "pw")
                   Fixtures.client0
                   (Build_AuthenticationData (u "user") (u "pw") false)
                   (u "tok123") (_get_csrf_token Fixtures.E_ok Fixtures.client0).2
                   302 (u "") AUTH_URL [(u "Location", u "/ru/s/12345")] _
                   _ _ _ _ _) _).
  - vm_compute. reflexivity.
  - vm_compute. reflexivity.
  - vm_compute. reflexivity.
  - exists (u "/ru/s/12345"), (u "s/12345"), (u "s").
    split; [vm_compute; reflexivity|].
    split; [vm_compute; reflexivity|].
    split; [vm_compute; reflexivity|].
    split; [left; reflexivity|].
    split; [vm_compute; reflexivity|].
    split; [vm_compute; reflexivity|].
    split; [vm_compute; reflexivity|].
    split; [vm_compute; discriminate|].
    split; [vm_compute; discriminate|].
    split; reflexivity.
Defined.

(** X9. The session [authenticate] returns is authenticated; its account
    identifier is not empty, has no whitespace at its ends and no ["/"] in
    it, so that it is one segment of the path of the profile page; its
    token is not empty and trimmed. *)
Theorem authenticate_session_shape (E : Env) l p c info c' :
  authenticate E l p c = (Return info, c') ->
  is_authenticated info = true
  /\ api_id info <> [] /\ trimmed (api_id info)
  /\ Str.contains (u "/") (api_id info) = false
  /\ csrf_token info <> [] /\ trimmed (csrf_token info)
  /\ _session_info c' = Some info.
Proof.
  intros H.
  destruct (authenticate_return_inv E l p c info c' H)
    as (d & tok & c1 & st & tx & url & h & c2 & location & rest & id
        & _ & _ & _ & _ & _ & _ & _ & _ & Hid & Hinfo & ->).
  destruct (SessionInfo_new_inv _ _ _ _ Hinfo) as (-> & -> & -> & Hid' & Htok').
  split; [reflexivity|]. split; [exact Hid'|].
  split; [apply strip_idempotent|]. split.
  { destruct (Str.contains (u "/") (Str.strip id)) eqn:Hc; [|reflexivity].
    exfalso. change (u "/") with [47%N] in *.
    apply contains_char in Hc. apply strip_elem in Hc.
    destruct (split_first 47%N rest) as (x & Hx & Hnot).
    rewrite Hid in Hx. injection Hx as <-. contradiction. }
  split; [exact Htok'|]. split; [apply strip_idempotent|reflexivity].
Qed.

Lemma authenticate_session_shape_witness :
  is_authenticated (Build_SessionInfo (u "s") (u "tok123") true) = true
  /\ api_id (Build_SessionInfo (u "s") (u "tok123") true) <> []
  /\ trimmed (api_id (Build_SessionInfo (u "s") (u "tok123") true))
  /\ Str.contains (u "/") (api_id (Build_SessionInfo (u "s") (u "tok123") true)) = false
  /\ csrf_token (Build_SessionInfo (u "s") (u "tok123") true) <> []
  /\ trimmed (csrf_token (Build_SessionInfo (u "s") (u "tok123") true))
  /\ _session_info (authenticate Fixtures.E_ok (u "user") (u "pw") Fixtures.client0).2
     = Some (Build_SessionInfo (u "s") (u "tok123") true).
Proof.
  apply (authenticate_session_shape Fixtures.E_ok (u "user") (u "pw") Fixtures.client0).
  vm_compute. reflexivity.
Defined.

(** ** How far one call can go *)

Lemma effect_within_refl k P c : effect_within k P c c.
Proof.
  exists []. rewrite app_nil_r. cbn.
  assert (0 <= 2 ^ Z.of_nat (pred (Z.to_nat (max_retries c))) - 1)
    by (pose proof (Z.pow_pos_nonneg 2 (Z.of_nat (pred (Z.to_nat (max_retries c))))); lia).
  repeat split; auto; try lia. nia.
Qed.

Lemma effect_within_trans k1 k2 P c1 c2 c3 :
  effect_within k1 P c1 c2 -> effect_within k2 P c2 c3 ->
  effect_within (k1 + k2) P c1 c3.
Proof.
  intros (e1 & Ht1 & Hn1 & Hp1 & Hs1 & Hc1 & Hm1 & Hto1 & Ho1 & Hk1)
         (e2 & Ht2 & Hn2 & Hp2 & Hs2 & Hc2 & Hm2 & Hto2 & Ho2 & Hk2).
  exists (e1 ++ e2). rewrite Hm1 in *.
  rewrite requests_of_app, total_sleep_app, closes_of_app, length_app.
  split; [rewrite Ht2, Ht1, app_assoc; reflexivity|].
  split; [lia|]. split; [apply Forall_app; auto|].
  split; [lia|]. split; [lia|].
  split; [congruence|]. split; [congruence|]. split; [congruence|].
  intros s Hs. auto.
Qed.

Lemma effect_within_weaken k P Q c c' :
  (forall q, P q -> Q q) -> effect_within k P c c' -> effect_within k Q c c'.
Proof.
  intros HPQ (e & Ht & Hn & Hp & Hrest). exists e.
  split; [exact Ht|]. split; [exact Hn|]. split; [|exact Hrest].
  eapply Forall_impl; eauto.
Qed.

Lemma effect_within_session_info k P c c' info :
  effect_within k P c c' -> effect_within k P c (set_session_info info c').
Proof. intros (e & H). exists e. exact H. Qed.

(** One call of [_make_request] is one fetch. *)
Lemma make_request_within (E : Env) req c :
  effect_within 1 (fun q => q = req) c (_make_request E req c).2.
Proof.
  destruct (make_request_shape E req c) as (j & Hj & Hstate & _).
  rewrite Hstate. exists (failed_attempts req j 0).
  cbn [trace add_events max_retries timeout _owned_session].
  rewrite ensure_session_trace, requests_of_failed_attempts, length_replicate,
    closes_of_failed_attempts.
  split; [reflexivity|]. split; [lia|].
  split; [apply Forall_replicate; reflexivity|].
  split.
  { destruct j as [|j]; [cbn; pose proof (Z.pow_pos_nonneg 2
        (Z.of_nat (pred (Z.to_nat (max_retries c))))); lia|].
    rewrite total_sleep_failed_attempts by lia.
    assert (2 ^ Z.of_nat j <= 2 ^ Z.of_nat (pred (Z.to_nat (max_retries c))))
      by (apply Z.pow_le_mono_r; lia).
    lia. }
  split; [reflexivity|].
  unfold ensure_session.
  destruct (_session c) eqn:Hs; repeat split; auto;
    intros s0 H0; cbn [_session add_events set_session];
    first [discriminate H0 | congruence].
Qed.

Lemma get_csrf_token_within (E : Env) c :
  effect_within 1 (fun q => q = token_request) c (_get_csrf_token E c).2.
Proof. rewrite get_csrf_token_state. apply make_request_within. Qed.

(** After the login POST, [authenticate] leaves the client as the POST
    left it, or with the new session stored. *)
Lemma authenticate_after_post (E : Env) l p c d tok c1 r2 c2 :
  AuthenticationData_new l p = Return d ->
  _get_csrf_token E c = (Return tok, c1) ->
  _make_request E (login_request d tok) c1 = (r2, c2) ->
  (authenticate E l p c).2 = c2
  \/ exists info, (authenticate E l p c).2 = set_session_info (Some info) c2.
Proof.
  intros Hd Htok Hreq.
  destruct r2 as [[[[st tx] url] h]|e].
  2:{ left. rewrite (authenticate_post_failed E l p c d tok c1 e c2 Hd Htok Hreq).
      reflexivity. }
  destruct (authenticate E l p c) as [[info|e] c'] eqn:Hrun.
  - right. exists info.
    destruct (authenticate_return_inv E l p c info c' Hrun)
      as (d' & tok' & c1' & st' & tx' & url' & h' & c2' & location & rest & id
          & Hd' & Htok' & Hreq' & _ & _ & _ & _ & _ & _ & _ & ->).
    rewrite Hd in Hd'. injection Hd' as <-.
    rewrite Htok in Htok'. injection Htok' as <- <-.
    rewrite Hreq in Hreq'. injection Hreq' as _ _ _ _ <-. reflexivity.
  - left. cbn [snd]. revert Hrun.
    unfold authenticate, bind, lift, try_except. rewrite Hd, Htok, Hreq.
    destruct (headers_get (u "Location") h) as [location|];
      [|intros H; injection H as _ <-; reflexivity].
    destruct (negb (Str.truthy location));
      [intros H; injection H as _ <-; reflexivity|].
    destruct (negb (Str.contains (u "/s") location));
      [intros H; injection H as _ <-; reflexivity|].
    destruct (negb (status_in st [302; 200]));
      [intros H; injection H as _ <-; reflexivity|].
    destruct (Str.contains (u "Неверный логин или пароль") tx);
      [intros H; injection H as _ <-; reflexivity|].
    destruct (subscript (Str.split (u "/ru/") location) 1) as [rest|e1];
      [|destruct e1; intros H; injection H as _ <-; reflexivity].
    destruct (subscript (Str.split (u "/") rest) 0) as [id|e1];
      [|destruct e1; intros H; injection H as _ <-; reflexivity].
    destruct (SessionInfo_new id tok true) as [info|e1];
      [intros H; discriminate H|].
    destruct e1; intros H; injection H as _ <-; reflexivity.
Qed.

(** [authenticate] is at most two fetches, to the sign-in address. *)
Lemma authenticate_effect (E : Env) l p c :
  effect_within 2 (fun q => req_url q = AUTH_URL) c (authenticate E l p c).2.
Proof.
  destruct (AuthenticationData_new l p) as [d|e] eqn:Hd.
  2:{ unfold authenticate, bind, lift. rewrite Hd. apply effect_within_refl. }
  pose proof (get_csrf_token_within E c) as H1.
  apply (effect_within_weaken _ _ (fun q => req_url q = AUTH_URL)) in H1;
    [|intros q ->; reflexivity].
  destruct (_get_csrf_token E c) as [[tok|e] c1] eqn:Htok; cbn [snd] in H1.
  2:{ rewrite (authenticate_token_failed E l p c d e c1 Hd Htok).
      apply (effect_within_trans 1 1 _ c c1 c1 H1), effect_within_refl. }
  pose proof (make_request_within E (login_request d tok) c1) as H2.
  apply (effect_within_weaken _ _ (fun q => req_url q = AUTH_URL)) in H2;
    [|intros q ->; reflexivity].
  destruct (_make_request E (login_request d tok) c1) as [r2 c2] eqn:Hreq.
  cbn [snd] in H2.
  pose proof (effect_within_trans 1 1 _ c c1 c2 H1 H2) as H12.
  destruct (authenticate_after_post E l p c d tok c1 r2 c2 Hd Htok Hreq)
    as [-> | [info ->]]; [exact H12|].
  apply effect_within_session_info. exact H12.
Qed.

(** X10. One call of [authenticate] makes at most two fetches (the login
    page, then the login POST), so at most [2 * max_retries] requests, all
    to the sign-in address, with at most [2 * (2^(max_retries-1) - 1)]
    seconds of sleep; it does not close the HTTP session and does not
    change the configuration of the client. *)
Theorem authenticate_within (E : Env) l p c :
  effect_within 2 (fun q => req_url q = AUTH_URL) c (authenticate E l p c).2.
Proof. exact (authenticate_effect E l p c). Qed.

(** X11. When [authenticate] returns, the last request of the trace is
    the login POST, sent after the fetch of the token with redirects not
    followed; its form carries the login trimmed, the password exactly as
    given, [remember_me] off, and the very token [_get_csrf_token] returned
    for the login page, not trimmed, while the session stores that token
    trimmed. *)
Theorem authenticate_sends_the_form (E : Env) l p c info c' :
  authenticate E l p c = (Return info, c') ->
  exists tok c1 pre,
    _get_csrf_token E c = (Return tok, c1)
    /\ trace c'
       = trace c1 ++ pre
         ++ [Requested (Build_request (u "POST") AUTH_URL
                          (Some [(u "user[login]", Str.strip l);
                                 (u "user[password]", p);
                                 (u "user[remember_me]", u "0");
                                 (u "commit", u "Войти");
                                 (u "utf8", u "✓");
                                 (u "authenticity_token", tok)])
                          (Some false))]
    /\ tok <> []
    /\ csrf_token info = Str.strip tok.
Proof.
  intros H.
  destruct (authenticate_return_inv E l p c info c' H)
    as (d & tok & c1 & st & tx & url & h & c2 & location & rest & id
        & Hd & Htok & Hreq & _ & _ & _ & _ & _ & _ & Hinfo & ->).
  destruct (AuthenticationData_new_inv l p d Hd) as (-> & _ & _).
  destruct (SessionInfo_new_inv _ _ _ _ Hinfo) as (_ & Hcsrf & _).
  destruct (make_request_return_inv E _ c1 c2 st tx url h Hreq)
    as (_ & pre2 & r & Htrace2 & _).
  exists tok, c1, pre2. split; [exact Htok|]. split; [|split].
  - cbn [trace set_session_info]. exact Htrace2.
  - intros ->. destruct (SessionInfo_new_inv _ _ _ _ Hinfo) as (_ & _ & _ & _ & Hne).
    apply Hne. reflexivity.
  - exact Hcsrf.
Qed.

Lemma authenticate_sends_the_form_witness :
  exists tok c1 pre,
    _get_csrf_token Fixtures.E_ok Fixtures.client0 = (Return tok, c1)
    /\ trace (authenticate Fixtures.E_ok (u " user ") (u " pw ") Fixtures.client0).2
       = trace c1 ++ pre
         ++ [Requested (Build_request (u "POST") AUTH_URL
                          (Some [(u "user[login]", Str.strip (u " user "));
                                 (u "user[password]", u " pw ");
                                 (u "user[remember_me]", u "0");
                                 (u "commit", u "Войти");
                                 (u "utf8", u "✓");
                                 (u "authenticity_token", tok)])
                          (Some false))]
    /\ tok <> []
    /\ csrf_token (Build_SessionInfo (u "s") (u "tok123") true) = Str.strip tok.
Proof.
  apply (authenticate_sends_the_form Fixtures.E_ok (u " user ") (u " pw ")
           Fixtures.client0).
  vm_compute. reflexivity.
Defined.

(** ** [get_student_info], [close] and the HTTP session *)

(** After its fetch, [get_student_info] leaves the client as the fetch
    left it, or with the flag of the session set to false. *)
Lemma get_student_info_state (E : Env) c s :
  _session_info c = Some s ->
  is_authenticated s = true ->
  (get_student_info E c).2 = (_make_request E (profile_request (api_id s)) c).2
  \/ (get_student_info E c).2
     = set_session_info (Some (set_is_authenticated false s))
         (_make_request E (profile_request (api_id s)) c).2.
Proof.
  intros Hs Hauth.
  destruct (_make_request E (profile_request (api_id s)) c)
    as [[[[[st tx] url] h]|e] c2] eqn:Hreq; cbn [snd].
  - destruct (Str.contains (u "sign_in") url) eqn:Hurl.
    + right. rewrite (get_student_info_expired E c s st tx url h c2 Hs Hauth Hreq Hurl).
      reflexivity.
    + left. rewrite (get_student_info_parsed E c s st tx url h c2 Hs Hauth Hreq Hurl).
      reflexivity.
  - left. rewrite (get_student_info_fetch_failed E c s e c2 Hs Hauth Hreq).
    reflexivity.
Qed.

(** [get_student_info] is at most one fetch, of the profile page of the
    account of the session. *)
Lemma get_student_info_effect (E : Env) c :
  effect_within 1
    (fun q => exists s, _session_info c = Some s /\ q = profile_request (api_id s))
    c (get_student_info E c).2.
Proof.
  destruct (client_is_authenticated c) eqn:Hc.
  2:{ rewrite (get_student_info_unauthenticated E c Hc). apply effect_within_refl. }
  unfold client_is_authenticated in Hc.
  destruct (_session_info c) as [s|] eqn:Hs; [|discriminate Hc].
  pose proof (make_request_within E (profile_request (api_id s)) c) as H.
  apply (effect_within_weaken _ _
           (fun q => exists s0, Some s = Some s0 /\ q = profile_request (api_id s0)))
    in H; [|intros q ->; eauto].
  destruct (get_student_info_state E c s Hs Hc) as [-> | ->];
    [exact H|apply effect_within_session_info; exact H].
Qed.

(** X12. One call of [get_student_info] makes at most one fetch, so at
    most [max_retries] requests, every one of them the GET of the profile
    page of the account of the session; it does not close the HTTP session
    and does not change the configuration of the client; a client that is
    not authenticated is left as it is. *)
Theorem get_student_info_within (E : Env) c :
  effect_within 1
    (fun q => exists s, _session_info c = Some s /\ q = profile_request (api_id s))
    c (get_student_info E c).2
  /\ (client_is_authenticated c = false -> (get_student_info E c).2 = c).
Proof.
  split; [exact (get_student_info_effect E c)|].
  intros H. rewrite (get_student_info_unauthenticated E c H). reflexivity.
Qed.

Lemma get_student_info_within_witness :
  (get_student_info Fixtures.E_ok Fixtures.client0).2 = Fixtures.client0.
Proof.
  apply (proj2 (get_student_info_within Fixtures.E_ok Fixtures.client0)).
  reflexivity.
Defined.

(** X13. [close] never raises and never touches the session of the
    login. On a client that owns an open HTTP session it closes that
    session once and forgets it; on a client whose HTTP session was handed
    in by the caller, or that has none, it does nothing; closing twice is
    closing once. *)
Theorem close_releases_owned_session_only (c : MisisClient) :
  (close c).1 = Return tt
  /\ _session_info (close c).2 = _session_info c
  /\ (forall s, _session c = Some s -> _owned_session c = true ->
      (close c).2 = set_session None (record_event SessionClosed c))
  /\ (_session c = None \/ _owned_session c = false -> (close c).2 = c)
  /\ close (close c).2 = (Return tt, (close c).2).
Proof.
  unfold close, bind, gets, modify, ret.
  destruct (_session c) as [s|] eqn:Hs, (_owned_session c) eqn:Ho; cbn [fst snd].
  - split; [reflexivity|]. split; [reflexivity|]. split; [reflexivity|].
    split; [intros [H|H]; discriminate H|]. reflexivity.
  - split; [reflexivity|]. split; [reflexivity|].
    split; [intros s0 _ H; discriminate H|]. split; [reflexivity|].
    rewrite Hs, Ho. reflexivity.
  - split; [reflexivity|]. split; [reflexivity|].
    split; [intros s0 H; discriminate H|]. split; [reflexivity|].
    rewrite Hs. reflexivity.
  - split; [reflexivity|]. split; [reflexivity|].
    split; [intros s0 H; discriminate H|]. split; [reflexivity|].
    rewrite Hs. reflexivity.
Qed.

Lemma close_releases_owned_session_only_witness :
  (close (ensure_session Fixtures.client0)).2
  = set_session None (record_event SessionClosed (ensure_session Fixtures.client0)).
Proof.
  apply (proj1 (proj2 (proj2 (close_releases_owned_session_only
                                (ensure_session Fixtures.client0))))
           (ClientSession_new 30)).
  - reflexivity.
  - reflexivity.
Defined.

(** One operation on a client that does not own its HTTP session. *)
Lemma external_session_step (E : Env) o c s :
  _owned_session c = false -> _session c = Some s -> closes_of (trace c) = 0%nat ->
  _owned_session (run_op E o c).2 = false
  /\ _session (run_op E o c).2 = Some s
  /\ closes_of (trace (run_op E o c).2) = 0%nat.
Proof.
  intros Ho Hs Hc.
  assert (Hwithin : forall k P c',
             effect_within k P c c' ->
             _owned_session c' = false /\ _session c' = Some s
             /\ closes_of (trace c') = 0%nat).
  { intros k P c' (evs & Ht & _ & _ & _ & Hcl & _ & _ & Ho' & Hk).
    rewrite Ht, closes_of_app, Hc, Hcl, Ho', (Hk s Hs), Ho. auto. }
  destruct o as [l p| | |]; cbn [run_op].
  - pose proof (authenticate_effect E l p c) as H.
    destruct (authenticate E l p c) as [[x|e] c']; cbn [observe snd] in *;
      exact (Hwithin _ _ _ H).
  - pose proof (get_student_info_effect E c) as H.
    destruct (get_student_info E c) as [[x|e] c']; cbn [observe snd] in *;
      exact (Hwithin _ _ _ H).
  - unfold close, bind, gets, modify, ret. rewrite Hs, Ho. cbn [observe snd]. auto.
  - unfold aenter, bind, gets, modify, ret. rewrite Hs. cbn [observe snd]. auto.
Qed.

(** X14. An HTTP session handed to the client by its caller stays the
    session of the client and is never closed, whatever operations are
    called in whatever order, [close] included. *)
Theorem external_session_never_closed (E : Env) (os : list op)
    (timeout max_retries : Z) (s : ClientSession) :
  _session (run_ops E os (MisisClient_new timeout max_retries (Some s))).2 = Some s
  /\ closes_of (trace (run_ops E os (MisisClient_new timeout max_retries (Some s))).2)
     = 0%nat.
Proof.
  assert (H : forall c,
             _owned_session c = false -> _session c = Some s ->
             closes_of (trace c) = 0%nat ->
             _owned_session (run_ops E os c).2 = false
             /\ _session (run_ops E os c).2 = Some s
             /\ closes_of (trace (run_ops E os c).2) = 0%nat).
  { induction os as [|o rest IH]; intros c Ho Hs Hc; [cbn; auto|].
    cbn [run_ops].
    destruct (external_session_step E o c s Ho Hs Hc) as (Ho1 & Hs1 & Hc1).
    destruct (run_op E o c) as [r c1]. cbn [snd] in *.
    specialize (IH c1 Ho1 Hs1 Hc1).
    destruct (run_ops E rest c1) as [rs c2]. exact IH. }
  destruct (H (MisisClient_new timeout max_retries (Some s))) as (_ & H1 & H2);
    auto.
Qed.

(** ** The texts the parser extracts *)

(** The pieces [get_text(strip=True)] joins have no whitespace at their
    ends. *)
Lemma stripped_strings_clean : forall n, Forall edges_clean (Soup.stripped_strings n).
Proof.
  fix IH 1. intros [s|s|name attrs cls ch]; cbn [Soup.stripped_strings].
  - destruct (Str.truthy (Str.strip s)); [|constructor].
    constructor; [apply strip_edges_clean|constructor].
  - constructor.
  - induction ch as [|x r IHr]; [constructor|].
    apply Forall_app. split; [apply IH|exact IHr].
Qed.

Lemma concat_edges_clean (l : list pystr) :
  Forall edges_clean l -> edges_clean (Str.concat l).
Proof.
  unfold Str.concat. induction 1 as [|x l Hx _ IH]; cbn.
  - split; exact I.
  - apply edges_clean_app; assumption.
Qed.

(** [tag.get_text(strip=True)] has no whitespace at its ends. *)
Lemma get_text_strip_trimmed n : trimmed (Soup.get_text_strip n).
Proof.
  apply edges_clean_trimmed, concat_edges_clean, stripped_strings_clean.
Qed.

Lemma extract_value_trimmed soup label_text v :
  extract_value soup label_text = Some v -> trimmed v.
Proof.
  unfold extract_value.
  destruct (find_label soup label_text) as [label|]; [|discriminate].
  destruct (Soup.find_next_sibling _ _ _) as [value_span|]; [|discriminate].
  intros H. injection H as <-. apply get_text_strip_trimmed.
Qed.

(** What [_parse_student_info] stores under each key. *)
Lemma collect_lookup soup :
  let data := collect soup in
  data !! "record_book_number"%string = Some (extract_value soup (u "Номер зачетки:"))
  /\ data !! "study_form"%string = Some (extract_value soup (u "Форма обучения:"))
  /\ data !! "preparation_level"%string = Some (extract_value soup (u "Уровень подготовки:"))
  /\ data !! "specialization"%string = Some (extract_value soup (u "Специализация:"))
  /\ data !! "specialty"%string = Some (extract_value soup (u "Специальность:"))
  /\ data !! "faculty"%string = Some (extract_value soup (u "Факультет:"))
  /\ data !! "course"%string = Some (extract_value soup (u "Курс:"))
  /\ data !! "group"%string = Some (extract_value soup (u "Группа:"))
  /\ data !! "financing_form"%string = Some (extract_value soup (u "Форма финансирования:"))
  /\ data !! "dormitory"%string = Some (extract_value soup (u "Общежитие:"))
  /\ data !! "end_date"%string = Some (extract_value soup (u "Дата окончания:"))
  /\ data !! "personal_email"%string = Some (extract_value soup (u "Личная почта:"))
  /\ data !! "personal_phone"%string = Some (extract_value soup (u "Личный номер телефона:"))
  /\ data !! "corporate_email"%string = Some (extract_value soup (u "Корпоративная почта:")).
Proof.
  unfold collect. cbv zeta.
  repeat apply conj;
    (rewrite ?lookup_insert_ne by discriminate); apply lookup_insert_eq.
Qed.

(** The name block of the page, as [_parse_student_info] looks for it. *)
Lemma collect_full_name soup :
  collect soup !! "full_name"%string
  = match Soup.find (u "div") [] (Some (u "person_name")) None soup with
    | Some name_element =>
      Some (Some (match Soup.find (u "h3") [] None None
                          (Soup.contents (here name_element)) with
                  | Some h3 => Soup.get_text_strip (here h3)
                  | None => u ""
                  end))
    | None => None
    end.
Proof.
  unfold collect. cbv zeta.
  rewrite !lookup_insert_ne by discriminate.
  destruct (Soup.find (u "div") [] (Some (u "person_name")) None soup).
  - apply lookup_insert_eq.
  - apply lookup_empty.
Qed.

Lemma collect_full_name_trimmed soup v :
  collect soup !! "full_name"%string = Some (Some v) -> trimmed v.
Proof.
  rewrite collect_full_name.
  destruct (Soup.find (u "div") _ _ _ _) as [ne|]; [|discriminate].
  destruct (Soup.find (u "h3") _ _ _ _) as [h3|]; intros H; injection H as <-.
  - apply get_text_strip_trimmed.
  - reflexivity.
Qed.

(** ** The construction of the models *)

Lemma ap_valid_inv {A B : Type} (f : checked (A -> B)) (x : checked A) v :
  f <*> x = Valid v -> exists g a, f = Valid g /\ x = Valid a /\ v = g a.
Proof.
  destruct f as [g|e], x as [a|e']; cbn [ap]; intros H; try discriminate H.
  injection H as <-. eauto.
Qed.

Lemma construct_return_inv {A : Type} title (c : checked A) a :
  construct title c = Return a -> c = Valid a.
Proof. destruct c; cbn; intros H; [injection H as ->; reflexivity|discriminate H]. Qed.

Lemma required_plain_inv field data a :
  Pydantic.required field Pydantic.plain data = Valid a ->
  data !! field = Some (Some a).
Proof.
  unfold Pydantic.required. destruct (data !! field) as [[s|]|]; try discriminate.
  cbn. intros H. injection H as ->. reflexivity.
Qed.

Lemma required_full_name_inv data a :
  Pydantic.required "full_name" validate_full_name data = Valid a ->
  exists s, data !! "full_name"%string = Some (Some s)
            /\ Str.strip s <> [] /\ a = Str.strip s.
Proof.
  unfold Pydantic.required, validate_full_name.
  destruct (data !! "full_name"%string) as [[s|]|]; try discriminate.
  rewrite blank_test. destruct (Str.truthy (Str.strip s)) eqn:Hs; cbn; [|discriminate].
  intros H. injection H as <-. apply truthy_true in Hs. eauto.
Qed.

Lemma required_record_book_number_inv data a :
  Pydantic.required "record_book_number" validate_record_book_number data = Valid a ->
  exists s, data !! "record_book_number"%string = Some (Some s)
            /\ Str.strip s <> [] /\ a = Str.strip s.
Proof.
  unfold Pydantic.required, validate_record_book_number.
  destruct (data !! "record_book_number"%string) as [[s|]|]; try discriminate.
  rewrite blank_test. destruct (Str.truthy (Str.strip s)) eqn:Hs; cbn; [|discriminate].
  intros H. injection H as <-. apply truthy_true in Hs. eauto.
Qed.

Lemma optional_plain_inv field data a :
  Pydantic.optional field Pydantic.plain data = Valid a -> a = mjoin (data !! field).
Proof. rewrite optional_plain. intros H. injection H as <-. reflexivity. Qed.

Lemma optional_personal_email_inv data a :
  Pydantic.optional "personal_email" validate_personal_email data = Valid a ->
  accepted_email (data !! "personal_email"%string)
  /\ a = mjoin (data !! "personal_email"%string).
Proof.
  intros H. destruct (bad_or_accepted (data !! "personal_email"%string)) as [Hb|Ha].
  - destruct (optional_personal_email_bad data Hb) as [e He]. congruence.
  - rewrite (optional_personal_email_ok data Ha) in H. injection H as <-. auto.
Qed.

Lemma optional_corporate_email_inv data a :
  Pydantic.optional "corporate_email" validate_corporate_email data = Valid a ->
  accepted_email (data !! "corporate_email"%string)
  /\ a = mjoin (data !! "corporate_email"%string).
Proof.
  intros H. destruct (bad_or_accepted (data !! "corporate_email"%string)) as [Hb|Ha].
  - destruct (optional_corporate_email_bad data Hb) as [e He]. congruence.
  - rewrite (optional_corporate_email_ok data Ha) in H. injection H as <-. auto.
Qed.

(** When [StudentInfo] is built, and what it then holds. *)
Lemma StudentInfo_new_spec (data : Pydantic.kwargs) (info : StudentInfo) :
  StudentInfo_new data = Return info
  <-> exists name number sf pl sp fa co gr ff dorm ed,
        data !! "full_name"%string = Some (Some name)
        /\ data !! "record_book_number"%string = Some (Some number)
        /\ data !! "study_form"%string = Some (Some sf)
        /\ data !! "preparation_level"%string = Some (Some pl)
        /\ data !! "specialty"%string = Some (Some sp)
        /\ data !! "faculty"%string = Some (Some fa)
        /\ data !! "course"%string = Some (Some co)
        /\ data !! "group"%string = Some (Some gr)
        /\ data !! "financing_form"%string = Some (Some ff)
        /\ data !! "dormitory"%string = Some (Some dorm)
        /\ data !! "end_date"%string = Some (Some ed)
        /\ Str.strip name <> [] /\ Str.strip number <> []
        /\ accepted_email (data !! "personal_email"%string)
        /\ accepted_email (data !! "corporate_email"%string)
        /\ info = Build_StudentInfo (Str.strip name) (Str.strip number) sf pl
                    (mjoin (data !! "specialization"%string)) sp fa co gr ff dorm ed
                    (mjoin (data !! "personal_email"%string))
                    (mjoin (data !! "personal_phone"%string))
                    (mjoin (data !! "corporate_email"%string)).
Proof.
  split.
  - unfold StudentInfo_new. intros H. apply construct_return_inv in H.
    apply ap_valid_inv in H as (g15 & a15 & H & H15 & ->).
    apply ap_valid_inv in H as (g14 & a14 & H & H14 & ->).
    apply ap_valid_inv in H as (g13 & a13 & H & H13 & ->).
    apply ap_valid_inv in H as (g12 & a12 & H & H12 & ->).
    apply ap_valid_inv in H as (g11 & a11 & H & H11 & ->).
    apply ap_valid_inv in H as (g10 & a10 & H & H10 & ->).
    apply ap_valid_inv in H as (g9 & a9 & H & H9 & ->).
    apply ap_valid_inv in H as (g8 & a8 & H & H8 & ->).
    apply ap_valid_inv in H as (g7 & a7 & H & H7 & ->).
    apply ap_valid_inv in H as (g6 & a6 & H & H6 & ->).
    apply ap_valid_inv in H as (g5 & a5 & H & H5 & ->).
    apply ap_valid_inv in H as (g4 & a4 & H & H4 & ->).
    apply ap_valid_inv in H as (g3 & a3 & H & H3 & ->).
    apply ap_valid_inv in H as (g2 & a2 & H & H2 & ->).
    apply ap_valid_inv in H as (g1 & a1 & H & H1 & ->).
    injection H as <-.
    apply required_full_name_inv in H1 as (name & Hname & Hname' & ->).
    apply required_record_book_number_inv in H2 as (number & Hnumber & Hnumber' & ->).
    apply required_plain_inv in H3, H4, H6, H7, H8, H9, H10, H11, H12.
    apply optional_plain_inv in H5, H14.
    apply optional_personal_email_inv in H13 as (Hp & ->).
    apply optional_corporate_email_inv in H15 as (Hc & ->).
    subst a5 a14.
    exists name, number, a3, a4, a6, a7, a8, a9, a10, a11, a12.
    repeat (apply conj; [assumption|]). reflexivity.
  - intros (name & number & sf & pl & sp & fa & co & gr & ff & dorm & ed
            & H1 & H2 & H3 & H4 & H6 & H7 & H8 & H9 & H10 & H11 & H12
            & Hname & Hnumber & Hp & Hc & ->).
    unfold StudentInfo_new.
    rewrite (required_full_name data name H1 Hname).
    rewrite (required_record_book_number data number H2 Hnumber).
    rewrite (required_plain _ data sf H3), (required_plain _ data pl H4),
      (required_plain _ data sp H6), (required_plain _ data fa H7),
      (required_plain _ data co H8), (required_plain _ data gr H9),
      (required_plain _ data ff H10), (required_plain _ data dorm H11),
      (required_plain _ data ed H12).
    rewrite !optional_plain.
    rewrite (optional_personal_email_ok data Hp), (optional_corporate_email_ok data Hc).
    reflexivity.
Qed.

(** X15. [StudentInfo] is built exactly when the eleven required fields
    are passed as strings, the full name and the record-book number are
    not blank, and neither e-mail is a string without ["@"] that is not
    empty. The record then holds the full name and the record-book number
    trimmed and every other field as it was passed: the other required
    fields are neither trimmed nor required to be non-empty, and an
    optional field that was not passed or was passed [None] is [None]. *)
Theorem StudentInfo_new_iff (data : Pydantic.kwargs) (info : StudentInfo) :
  StudentInfo_new data = Return info
  <-> exists name number sf pl sp fa co gr ff dorm ed,
        data !! "full_name"%string = Some (Some name)
        /\ data !! "record_book_number"%string = Some (Some number)
        /\ data !! "study_form"%string = Some (Some sf)
        /\ data !! "preparation_level"%string = Some (Some pl)
        /\ data !! "specialty"%string = Some (Some sp)
        /\ data !! "faculty"%string = Some (Some fa)
        /\ data !! "course"%string = Some (Some co)
        /\ data !! "group"%string = Some (Some gr)
        /\ data !! "financing_form"%string = Some (Some ff)
        /\ data !! "dormitory"%string = Some (Some dorm)
        /\ data !! "end_date"%string = Some (Some ed)
        /\ Str.strip name <> [] /\ Str.strip number <> []
        /\ accepted_email (data !! "personal_email"%string)
        /\ accepted_email (data !! "corporate_email"%string)
        /\ info = Build_StudentInfo (Str.strip name) (Str.strip number) sf pl
                    (mjoin (data !! "specialization"%string)) sp fa co gr ff dorm ed
                    (mjoin (data !! "personal_email"%string))
                    (mjoin (data !! "personal_phone"%string))
                    (mjoin (data !! "corporate_email"%string)).
Proof. exact (StudentInfo_new_spec data info). Qed.

Lemma StudentInfo_new_iff_witness :
  StudentInfo_new
    (<["study_form"%string := Some (u "")]> (Fixtures.student_data (Some (u ""))))
  = Return (Build_StudentInfo (Str.strip (u "Иванов Иван Иванович"))
              (Str.strip (u "12345678")) (u "") (u "Бакалавриат")
              (mjoin (<["study_form"%string := Some (u "")]>
                        (Fixtures.student_data (Some (u ""))) !! "specialization"%string))
              (u "09.03.01") (u "ИТ") (u "3") (u "ИТ-21-1") (u "Бюджет") (u "Да")
              (u "2025-06-30")
              (mjoin (<["study_form"%string := Some (u "")]>
                        (Fixtures.student_data (Some (u ""))) !! "personal_email"%string))
              (mjoin (<["study_form"%string := Some (u "")]>
                        (Fixtures.student_data (Some (u ""))) !! "personal_phone"%string))
              (mjoin (<["study_form"%string := Some (u "")]>
                        (Fixtures.student_data (Some (u ""))) !! "corporate_email"%string))).
Proof.
  apply (proj2 (StudentInfo_new_iff _ _)).
  exists (u "Иванов Иван Иванович"), (u "12345678"), (u ""), (u "Бакалавриат"),
    (u "09.03.01"), (u "ИТ"), (u "3"), (u "ИТ-21-1"), (u "Бюджет"), (u "Да"),
    (u "2025-06-30").
  repeat (apply conj; [vm_compute; reflexivity|]).
  apply conj; [vm_compute; discriminate|].
  apply conj; [vm_compute; discriminate|].
  apply conj; [right; right; exists (u ""); split; [vm_compute; reflexivity|left; reflexivity]|].
  apply conj; [left; vm_compute; reflexivity|].
  reflexivity.
Defined.

(** X16. Validation is idempotent: building a [SessionInfo] again from
    the fields of one that was built gives the same session, because the
    fields were stored trimmed. *)
Theorem SessionInfo_new_idempotent a t b s :
  SessionInfo_new a t b = Return s ->
  SessionInfo_new (api_id s) (csrf_token s) (is_authenticated s) = Return s
  /\ trimmed (api_id s) /\ trimmed (csrf_token s).
Proof.
  intros H. destruct (SessionInfo_new_inv a t b s H) as (Ha & Ht & Hb & Ha' & Ht').
  destruct s as [a0 t0 b0]. cbn in *. subst.
  split; [|split; apply strip_idempotent].
  rewrite SessionInfo_new_ok by (rewrite strip_idempotent; assumption).
  rewrite !strip_idempotent. reflexivity.
Qed.

Lemma SessionInfo_new_idempotent_witness :
  SessionInfo_new (api_id (Build_SessionInfo (u "s") (u "tok123") true))
    (csrf_token (Build_SessionInfo (u "s") (u "tok123") true))
    (is_authenticated (Build_SessionInfo (u "s") (u "tok123") true))
  = Return (Build_SessionInfo (u "s") (u "tok123") true)
  /\ trimmed (api_id (Build_SessionInfo (u "s") (u "tok123") true))
  /\ trimmed (csrf_token (Build_SessionInfo (u "s") (u "tok123") true)).
Proof.
  apply (SessionInfo_new_idempotent (u " s ") (u "tok123 ") true).
  vm_compute. reflexivity.
Defined.

(** ** The profile parser, when it returns and when the name is missing *)

Lemma parse_student_info_return (E : Env) html info :
  _parse_student_info E html = Return info
  <-> StudentInfo_new (collect (BeautifulSoup E html)) = Return info.
Proof.
  unfold _parse_student_info, try_result. split.
  - destruct (check_required required_fields _) as [[]|e]; [|destruct e; discriminate].
    destruct (StudentInfo_new _) as [a|e]; [|destruct e; discriminate].
    intros H. exact H.
  - intros H. rewrite check_required_present; [rewrite H; reflexivity|].
    apply (proj1 (StudentInfo_new_spec _ _)) in H
      as (name & number & sf & pl & sp & fa & co & gr & ff & dorm & ed
          & H1 & H2 & H3 & H4 & H6 & H7 & H8 & H9 & H10 & H11 & H12 & _).
    intros f Hf. unfold required_fields in Hf.
    repeat (apply elem_of_cons in Hf as [-> | Hf]);
      [intros [Hn|Hn]; congruence ..|inversion Hf].
Qed.

(** X17. When [_parse_student_info] returns a record, the record holds
    exactly the texts extracted from the page, none of them altered by the
    validation: the full name is the text of the heading of the name block
    and each other field the text that follows its label; the full name and
    the record-book number are not empty; an optional field whose label or
    value is missing from the page is [None]. *)
Theorem parse_student_info_returns_extracted (E : Env) html info :
  _parse_student_info E html = Return info ->
  collect (BeautifulSoup E html) !! "full_name"%string = Some (Some (full_name info))
  /\ full_name info <> [] /\ record_book_number info <> []
  /\ extract_value (BeautifulSoup E html) (u "Номер зачетки:")
     = Some (record_book_number info)
  /\ extract_value (BeautifulSoup E html) (u "Форма обучения:") = Some (study_form info)
  /\ extract_value (BeautifulSoup E html) (u "Уровень подготовки:")
     = Some (preparation_level info)
  /\ extract_value (BeautifulSoup E html) (u "Специализация:") = specialization info
  /\ extract_value (BeautifulSoup E html) (u "Специальность:") = Some (specialty info)
  /\ extract_value (BeautifulSoup E html) (u "Факультет:") = Some (faculty info)
  /\ extract_value (BeautifulSoup E html) (u "Курс:") = Some (course info)
  /\ extract_value (BeautifulSoup E html) (u "Группа:") = Some (group info)
  /\ extract_value (BeautifulSoup E html) (u "Форма финансирования:")
     = Some (financing_form info)
  /\ extract_value (BeautifulSoup E html) (u "Общежитие:") = Some (dormitory info)
  /\ extract_value (BeautifulSoup E html) (u "Дата окончания:") = Some (end_date info)
  /\ extract_value (BeautifulSoup E html) (u "Личная почта:") = personal_email info
  /\ extract_value (BeautifulSoup E html) (u "Личный номер телефона:")
     = personal_phone info
  /\ extract_value (BeautifulSoup E html) (u "Корпоративная почта:")
     = corporate_email info.
Proof.
  intros H. apply parse_student_info_return in H.
  apply (proj1 (StudentInfo_new_spec _ _)) in H
    as (name & number & sf & pl & sp & fa & co & gr & ff & dorm & ed
        & H1 & H2 & H3 & H4 & H6 & H7 & H8 & H9 & H10 & H11 & H12
        & Hname & Hnumber & _ & _ & ->).
  destruct (collect_lookup (BeautifulSoup E html))
    as (L2 & L3 & L4 & L5 & L6 & L7 & L8 & L9 & L10 & L11 & L12 & L13 & L14 & L15).
  cbv zeta in *.
  pose proof (collect_full_name_trimmed _ _ H1) as Tname. unfold trimmed in Tname.
  rewrite L2 in H2. injection H2 as H2.
  pose proof (extract_value_trimmed _ _ _ H2) as Tnumber. unfold trimmed in Tnumber.
  rewrite L3 in H3. rewrite L4 in H4. rewrite L6 in H6. rewrite L7 in H7.
  rewrite L8 in H8. rewrite L9 in H9. rewrite L10 in H10. rewrite L11 in H11.
  rewrite L12 in H12.
  injection H3 as H3. injection H4 as H4. injection H6 as H6. injection H7 as H7.
  injection H8 as H8. injection H9 as H9. injection H10 as H10.
  injection H11 as H11. injection H12 as H12.
  rewrite L5, L13, L14, L15.
  cbn [full_name record_book_number study_form preparation_level specialization
       specialty faculty course group financing_form dormitory end_date
       personal_email personal_phone corporate_email mjoin option_join].
  rewrite Tname, Tnumber in *.
  repeat (apply conj; [first [assumption | reflexivity]|]). reflexivity.
Qed.

Lemma parse_student_info_returns_extracted_witness :
  _parse_student_info Fixtures.E_ok Fixtures.profile_html = Return Fixtures2.parsed
  /\ extract_value (BeautifulSoup Fixtures.E_ok Fixtures.profile_html) (u "Курс:")
     = Some (course Fixtures2.parsed)
  /\ extract_value (BeautifulSoup Fixtures.E_ok Fixtures.profile_html)
       (u "Личная почта:") = personal_email Fixtures2.parsed.
Proof.
  assert (Hparsed : _parse_student_info Fixtures.E_ok Fixtures.profile_html
                    = Return Fixtures2.parsed) by (vm_compute; reflexivity).
  split; [exact Hparsed|].
  pose proof (parse_student_info_returns_extracted Fixtures.E_ok
                Fixtures.profile_html Fixtures2.parsed Hparsed) as H.
  destruct H as (_ & _ & _ & _ & _ & _ & _ & _ & _ & Hcourse & _ & _ & _ & _
                  & Hemail & _).
  split; [exact Hcourse | exact Hemail].
Defined.

Lemma ap_invalid_first {A B : Type} (f : checked (A -> B)) (x : checked A) e r :
  f = Invalid (e :: r) -> exists r', f <*> x = Invalid (e :: r').
Proof. intros ->. destruct x; cbn [ap app]; eauto. Qed.

(** X18. A page whose name block has no heading (or an empty one) gives
    an empty full name, which passes the check of the required fields and
    is rejected by the validation of the record: when the other required
    fields are found, [_parse_student_info] raises the [ParseError] that
    wraps the validation error of [full_name], not the error of a missing
    required field. *)
Theorem name_block_without_heading (E : Env) html name_element :
  Soup.find (u "div") [] (Some (u "person_name")) None (BeautifulSoup E html)
  = Some name_element ->
  Soup.find (u "h3") [] None None (Soup.contents (here name_element)) = None ->
  (forall f, f ∈ required_fields -> f <> "full_name"%string ->
             ~ is_null (collect (BeautifulSoup E html)) f) ->
  exists errors,
    _parse_student_info E html
    = Raise (ParseError (u "Ошибка парсинга информации о студенте: "
                           ++ validation_str E "StudentInfo"
                                (("full_name"%string,
                                  u "Value error, " ++ u "Полное имя не может быть пустым")
                                   :: errors))).
Proof.
  intros Hne Hh3 Hothers.
  assert (Hname : collect (BeautifulSoup E html) !! "full_name"%string = Some (Some [])).
  { rewrite collect_full_name, Hne, Hh3. reflexivity. }
  assert (Hreq : check_required required_fields (collect (BeautifulSoup E html))
                 = Return tt).
  { apply check_required_present. intros f Hf.
    destruct (decide (f = "full_name"%string)) as [->|Hne'].
    - intros [Hn|Hn]; congruence.
    - apply Hothers; assumption. }
  assert (Hnew : exists errors,
             StudentInfo_new (collect (BeautifulSoup E html))
             = Raise (ValidationError "StudentInfo"
                        (("full_name"%string,
                          u "Value error, " ++ u "Полное имя не может быть пустым")
                           :: errors))).
  { unfold StudentInfo_new.
    assert (H1 : Valid Build_StudentInfo
                 <*> Pydantic.required "full_name" validate_full_name
                       (collect (BeautifulSoup E html))
                 = Invalid [("full_name"%string,
                             u "Value error, " ++ u "Полное имя не может быть пустым")]).
    { unfold Pydantic.required. rewrite Hname. reflexivity. }
    repeat match goal with
    | |- exists errors, construct _ (?f <*> ?x) = _ =>
      let r := fresh "r" in let Hr := fresh "Hr" in
      assert (exists r, f = Invalid (("full_name"%string,
                  u "Value error, " ++ u "Полное имя не может быть пустым") :: r))
        as [r Hr];
      [|destruct (ap_invalid_first f x _ _ Hr) as [r' ->]; cbn [construct]; eauto]
    | |- exists r, ?f <*> ?x = Invalid (_ :: r) =>
      first [ exists []; exact H1
            | let r := fresh "r" in let Hr := fresh "Hr" in
              assert (exists r, f = Invalid (("full_name"%string,
                  u "Value error, " ++ u "Полное имя не может быть пустым") :: r))
                as [r Hr];
              [|exact (ap_invalid_first f x _ _ Hr)] ]
    end. }
  destruct Hnew as [errors Hnew]. exists errors.
  exact (parse_student_info_validation E html _ _ Hreq Hnew).
Qed.

Lemma name_block_without_heading_witness :
  exists errors,
    _parse_student_info Fixtures2.E_no_heading Fixtures.profile_html
    = Raise (ParseError (u "Ошибка парсинга информации о студенте: "
                           ++ validation_str Fixtures2.E_no_heading "StudentInfo"
                                (("full_name"%string,
                                  u "Value error, " ++ u "Полное имя не может быть пустым")
                                   :: errors))).
Proof.
  apply (name_block_without_heading Fixtures2.E_no_heading Fixtures.profile_html
           (Located (Tag (u "div") [] (Some [u "person_name"])
                       [NavigableString (u " ")])
              [Tag (u "div") [] (Some [u "person__info"])
                 (flat_map (fun lv => Fixtures.row lv.1 lv.2) Fixtures.full_rows)])).
  - vm_compute. reflexivity.
  - vm_compute. reflexivity.
  - intros f Hf Hne. unfold required_fields in Hf.
    repeat (apply elem_of_cons in Hf as [-> | Hf]);
      [first [congruence | intros [H|H]; vm_compute in H; discriminate H] ..
      |inversion Hf].
Defined.

(** ** [_extract_api_id] *)

Lemma startswith_app_self (p r : pystr) : Str.startswith p (p ++ r) = true.
Proof.
  induction p as [|a p IH]; cbn [Str.startswith app]; [reflexivity|].
  rewrite N.eqb_refl. exact IH.
Qed.

Lemma startswith_app_le (p a b : pystr) :
  Str.startswith p (a ++ b) = true -> (length p <= length a)%nat ->
  Str.startswith p a = true.
Proof.
  revert a. induction p as [|x p IH]; intros a H Hlen; [reflexivity|].
  destruct a as [|y a]; [cbn in Hlen; lia|].
  cbn [Str.startswith app] in *. apply andb_true_iff in H as [H1 H2].
  rewrite H1. cbn [andb]. apply IH; [exact H2|cbn in Hlen; lia].
Qed.

Lemma contains_app_intro (sep pre rest : pystr) :
  Str.contains sep (pre ++ sep ++ rest) = true.
Proof.
  induction pre as [|c pre IH].
  - destruct (sep ++ rest) eqn:Hs; cbn [app Str.contains]; rewrite <- Hs;
      rewrite startswith_app_self; reflexivity.
  - cbn [app Str.contains]. rewrite IH. apply orb_true_r.
Qed.

Lemma split_go_skip sep (a s cur : pystr) :
  Str.split_go sep cur (a ++ s) (length a) = Str.split_go sep cur s 0.
Proof.
  induction a as [|c a IH]; [reflexivity|].
  cbn [app length Str.split_go]. exact IH.
Qed.

(** [s.split(sep)] cuts at the first place where [sep] occurs. *)
Lemma split_go_first (sep rest : pystr) : forall pre cur,
  sep <> [] ->
  Str.contains sep (pre ++ removelast sep) = false ->
  Str.split_go sep cur (pre ++ sep ++ rest) 0
  = (rev cur ++ pre) :: Str.split_go sep [] rest 0.
Proof.
  induction pre as [|c pre IH]; intros cur Hsep Hc.
  - destruct sep as [|x sep']; [congruence|].
    cbn [app]. cbn [Str.split_go].
    change (x :: sep' ++ rest) with ((x :: sep') ++ rest).
    rewrite startswith_app_self, app_nil_r.
    replace (length (x :: sep') - 1)%nat with (length sep') by (cbn [length]; lia).
    rewrite split_go_skip. reflexivity.
  - cbn [app Str.contains] in Hc. apply orb_false_iff in Hc as [Hst Hc].
    cbn [app Str.split_go].
    assert (Heq : c :: pre ++ sep ++ rest
                  = (c :: pre ++ removelast sep) ++ ([List.last sep 0%N] ++ rest)).
    { set (l := [List.last sep 0%N]). rewrite <- app_comm_cons. f_equal.
      rewrite <- app_assoc. f_equal. rewrite app_assoc. subst l.
      rewrite <- (app_removelast_last 0%N Hsep). reflexivity. }
    assert (Hlen : (length sep <= length (c :: pre ++ removelast sep))%nat).
    { cbn [length]. rewrite length_app.
      assert (Hl : length sep = S (length (removelast sep))).
      { rewrite (app_removelast_last 0%N Hsep) at 1.
        rewrite length_app. cbn [length]. lia. }
      lia. }
    assert (Hst' : Str.startswith sep (c :: pre ++ sep ++ rest) = false).
    { destruct (Str.startswith sep (c :: pre ++ sep ++ rest)) eqn:Hs; [|reflexivity].
      rewrite Heq in Hs. rewrite <- Hst. symmetry.
      exact (startswith_app_le _ _ _ Hs Hlen). }
    rewrite Hst'. rewrite (IH (c :: cur) Hsep Hc).
    cbn [rev]. rewrite <- app_assoc. reflexivity.
Qed.

Lemma split_first_piece (c : N) (x post : pystr) :
  c ∉ x -> Str.split [c] (x ++ [c] ++ post) !! 0%nat = Some x.
Proof.
  intros Hx. unfold Str.split.
  rewrite (split_go_first [c] post x []); [reflexivity|discriminate|].
  cbn [removelast]. rewrite app_nil_r.
  destruct (Str.contains [c] x) eqn:H; [|reflexivity].
  exfalso. apply Hx. apply contains_char. exact H.
Qed.

Lemma slash_is_47 : u "/" = [47%N].
Proof. vm_compute. reflexivity. Qed.

Lemma marker_nonempty : au_api_url_marker <> [].
Proof. vm_compute. discriminate. Qed.

(** With the marker in the string, the two subscripts succeed. *)
Lemma api_id_after_marker_ok (s : pystr) :
  Str.contains au_api_url_marker s = true ->
  exists x, api_id_after_marker s = Return x /\ 47%N ∉ x.
Proof.
  intros H. apply (split_second _ _ marker_nonempty) in H as [rest Hrest].
  unfold api_id_after_marker, subscript. rewrite Hrest. cbn [bind_result].
  rewrite slash_is_47.
  destruct (split_first 47%N rest) as (x & Hx & Hnot).
  exists x. rewrite Hx. split; [reflexivity|exact Hnot].
Qed.

Lemma scan_scripts_result (scripts : list located) :
  scan_scripts scripts = Return None
  \/ exists api_id, scan_scripts scripts = Return (Some api_id)
                    /\ api_id <> [] /\ 47%N ∉ api_id.
Proof.
  induction scripts as [|script rest IH]; [left; reflexivity|].
  cbn [scan_scripts].
  destruct (Soup.string_of (here script)) as [content|]; [|exact IH].
  destruct (Str.truthy content && Str.contains (u "au_api_url") content); [|exact IH].
  destruct (Str.contains au_api_url_marker content) eqn:Hc; [|exact IH].
  destruct (api_id_after_marker_ok content Hc) as (x & -> & Hx).
  cbn [bind_result]. destruct x as [|a x]; cbn [Str.truthy]; [exact IH|].
  right. exists (a :: x). split; [reflexivity|]. split; [discriminate|exact Hx].
Qed.

(** X19. [_extract_api_id] returns an identifier that is not empty and
    holds no slash, or raises the [ParseError] that says the identifier
    was not found: the two subscripts of its split never fail, because
    they are guarded by the test that the marker is in the string. *)
Theorem extract_api_id_result (E : Env) (text : pystr) :
  (exists api_id, _extract_api_id E text = Return api_id
                  /\ api_id <> [] /\ Str.contains (u "/") api_id = false)
  \/ _extract_api_id E text = Raise (ParseError (u "API ID не найден в ответе сервера")).
Proof.
  assert (Hno : forall x : pystr, 47%N ∉ x -> Str.contains (u "/") x = false).
  { intros x Hx. rewrite slash_is_47.
    destruct (Str.contains [47%N] x) eqn:H; [|reflexivity].
    exfalso. apply Hx. apply contains_char. exact H. }
  assert (Hscripts :
    let r := bind_result (scan_scripts (find_all (u "script") (BeautifulSoup E text)))
               (fun found =>
                  match found with
                  | Some api_id => Return api_id
                  | None => Raise (ParseError (u "API ID не найден в ответе сервера"))
                  end) in
    (exists api_id, r = Return api_id /\ api_id <> [] /\ Str.contains (u "/") api_id = false)
    \/ r = Raise (ParseError (u "API ID не найден в ответе сервера"))).
  { cbv zeta.
    destruct (scan_scripts_result (find_all (u "script") (BeautifulSoup E text)))
      as [-> | (x & -> & Hx1 & Hx2)]; cbn [bind_result].
    - right. reflexivity.
    - left. exists x. auto. }
  cbv zeta in Hscripts. unfold _extract_api_id. cbv zeta.
  destruct (Str.contains au_api_url_marker text) eqn:Hc.
  - destruct (api_id_after_marker_ok text Hc) as (x & -> & Hx).
    cbn [bind_result]. destruct x as [|a x]; cbn [Str.truthy].
    + destruct Hscripts as [(y & -> & Hy) | ->]; cbn [try_result].
      * left. exists y. auto.
      * right. reflexivity.
    + cbn [try_result]. left. exists (a :: x).
      split; [reflexivity|]. split; [discriminate|apply Hno; exact Hx].
  - destruct Hscripts as [(y & -> & Hy) | ->]; cbn [try_result].
    + left. exists y. auto.
    + right. reflexivity.
Qed.

(** X20. When the text holds the assignment of [au_api_url] once,
    followed by a segment that is not empty and by a slash,
    [_extract_api_id] returns that segment, without looking at the
    [script] elements. *)
Theorem extract_api_id_from_assignment (E : Env) (pre api_id post : pystr) :
  api_id <> [] ->
  Str.contains (u "/") api_id = false ->
  Str.contains au_api_url_marker (pre ++ removelast au_api_url_marker) = false ->
  Str.contains au_api_url_marker (api_id ++ u "/" ++ post) = false ->
  _extract_api_id E (pre ++ au_api_url_marker ++ api_id ++ u "/" ++ post)
  = Return api_id.
Proof.
  intros Hne Hslash Hpre Hrest.
  unfold _extract_api_id. cbv zeta.
  rewrite contains_app_intro.
  assert (H1 : api_id_after_marker (pre ++ au_api_url_marker ++ api_id ++ u "/" ++ post)
               = Return api_id).
  { unfold api_id_after_marker, subscript, Str.split.
    rewrite (split_go_first au_api_url_marker (api_id ++ u "/" ++ post) pre []
               marker_nonempty Hpre).
    rewrite (split_go_absent _ _ [] Hrest).
    cbn [rev app lookup list_lookup bind_result].
    rewrite slash_is_47 in *.
    fold (Str.split [47%N] (api_id ++ [47%N] ++ post)).
    rewrite split_first_piece; [reflexivity|].
    intros Hin. apply contains_char in Hin. congruence. }
  rewrite H1. cbn [bind_result].
  destruct api_id; [congruence|]. reflexivity.
Qed.

Lemma extract_api_id_from_assignment_witness :
  _extract_api_id Fixtures2.E_refused
    (u "<script>" ++ au_api_url_marker ++ u "12345" ++ u "/" ++ u "api';</script>")
  = Return (u "12345").
Proof.
  apply (extract_api_id_from_assignment Fixtures2.E_refused (u "<script>") (u "12345")
           (u "api';</script>")).
  - vm_compute. discriminate.
  - vm_compute. reflexivity.
  - vm_compute. reflexivity.
  - vm_compute. reflexivity.
Defined.

(** ** The command line *)

(** The client of the command, once its scope is entered. *)
Lemma aenter_new :
  aenter (MisisClient_new 30 3 None)
  = (Return tt, ensure_session (MisisClient_new 30 3 None)).
Proof. reflexivity. Qed.

Lemma cli_get_student_info_unfold (E : Env) (l p f : pystr) :
  cli_get_student_info E l p f
  = match authenticate E l p (ensure_session (MisisClient_new 30 3 None)) with
    | (Raise e, c) =>
      cli_handlers E [INFO (u "Начинаем аутентификацию...")] e (aexit c).2
    | (Return _, c) =>
      match get_student_info E c with
      | (Raise e, c) =>
        cli_handlers E
          [INFO (u "Начинаем аутентификацию...");
           INFO (u "Получаем информацию о студенте...")] e (aexit c).2
      | (Return student_info, c) =>
        Build_cli_run (printed f student_info)
          [INFO (u "Начинаем аутентификацию...");
           INFO (u "Получаем информацию о студенте...")]
          None None (aexit c).2
      end
    end.
Proof.
  unfold cli_get_student_info. rewrite aenter_new.
  destruct (authenticate E l p _) as [[s|e] c]; cbv zeta.
  - destruct (get_student_info E c) as [[info|e] c'].
    + destruct (aexit c'). reflexivity.
    + destruct (aexit c'). reflexivity.
  - destruct (aexit c). reflexivity.
Qed.

Lemma cli_handlers_client (E : Env) records e c :
  client_at_exit (cli_handlers E records e c) = c.
Proof.
  unfold cli_handlers. destruct (is_MisisError e), (is_Exception e); reflexivity.
Qed.


Lemma profile_request_on_portal (a : pystr) : on_portal (profile_request a).
Proof.
  unfold on_portal, profile_request. cbn [req_url].
  rewrite app_assoc. apply startswith_app_self.
Qed.

Lemma auth_url_on_portal q : req_url q = AUTH_URL -> on_portal q.
Proof. unfold on_portal. intros ->. vm_compute. reflexivity. Qed.

(** Leaving the scope of the client of the command, after at most three
    fetches. *)
Lemma cli_exit_effect (k : nat) (c' : MisisClient) :
  (k <= 3)%nat ->
  effect_within k on_portal (ensure_session (MisisClient_new 30 3 None)) c' ->
  _session (aexit c').2 = None
  /\ exists evs,
       trace (aexit c').2 = evs ++ [SessionClosed]
       /\ closes_of evs = 0%nat
       /\ (length (requests_of evs) <= 9)%nat
       /\ Forall on_portal (requests_of evs)
       /\ total_sleep evs <= 9.
Proof.
  intros Hk (evs & Ht & Hn & Hp & Hs & Hc & Hm & _ & Ho & Hsess).
  cbn [ensure_session MisisClient_new _session set_session trace max_retries
       _owned_session timeout app] in *.
  specialize (Hsess _ eq_refl).
  unfold aexit, close, bind, gets, modify, ret. rewrite Hsess, Ho.
  cbn [snd _session set_session trace record_event].
  split; [reflexivity|]. exists evs. rewrite Ht.
  split; [reflexivity|]. split; [exact Hc|].
  change (Z.to_nat 3) with 3%nat in *. cbn [pred] in Hs.
  change (2 ^ Z.of_nat 2 - 1) with 3 in Hs.
  split; [nia|]. split; [exact Hp|nia].
Qed.

(** X21. Whatever the portal answers, a run of the command
    [get_student_info] leaves the client without HTTP session: the session
    it opened is closed exactly once, as the last thing it does, on
    success and on every failure. Before that it sends at most nine
    requests, all with a URL that begins with [https://lk.misis.ru/ru/],
    and sleeps at most nine seconds between attempts. *)
Theorem cli_releases_session (E : Env) (login password output_format : pystr) :
  _session (client_at_exit (cli_get_student_info E login password output_format)) = None
  /\ exists evs,
       trace (client_at_exit (cli_get_student_info E login password output_format))
       = evs ++ [SessionClosed]
       /\ closes_of evs = 0%nat
       /\ (length (requests_of evs) <= 9)%nat
       /\ Forall on_portal (requests_of evs)
       /\ total_sleep evs <= 9.
Proof.
  rewrite cli_get_student_info_unfold.
  pose proof (authenticate_effect E login password
                (ensure_session (MisisClient_new 30 3 None))) as H1.
  apply (effect_within_weaken _ _ on_portal) in H1; [|exact auth_url_on_portal].
  destruct (authenticate E login password _) as [[s|e] c1]; cbn [snd] in H1.
  2:{ rewrite cli_handlers_client. apply (cli_exit_effect 2); [lia|exact H1]. }
  pose proof (get_student_info_effect E c1) as H2.
  apply (effect_within_weaken _ _ on_portal) in H2;
    [|intros q (s0 & _ & ->); apply profile_request_on_portal].
  pose proof (effect_within_trans _ _ _ _ _ _ H1 H2) as H3.
  destruct (get_student_info E c1) as [[info|e] c2]; cbn [snd] in H3;
    [cbn [client_at_exit]|rewrite cli_handlers_client];
    apply (cli_exit_effect (2 + 1)); solve [lia|exact H3].
Qed.




(** The optional fields [print_student_info_text] prints. *)
Lemma optional_line_length label v :
  length (optional_line label v)
  = match v with Some (_ :: _) => 1%nat | _ => 0%nat end.
Proof. destruct v as [[|a s]|]; reflexivity. Qed.

Lemma optional_line_shown label v : optional_line label (shown v) = optional_line label v.
Proof. destruct v as [[|a s]|]; reflexivity. Qed.

(** X23. [print_student_info_text] prints fifteen lines and one more
    for each optional field that holds a string that is not empty: an
    optional field that holds the empty string is left out like one that
    is [None], so the text printed for a record is the text printed for
    the record with its empty optional fields replaced by [None]. *)
Theorem print_student_info_text_optional (s : StudentInfo) :
  length (print_student_info_text s)
  = (15 + length (omap shown [specialization s; personal_email s;
                              personal_phone s; corporate_email s]))%nat
  /\ print_student_info_text s
     = print_student_info_text
         (Build_StudentInfo (full_name s) (record_book_number s) (study_form s)
            (preparation_level s) (shown (specialization s)) (specialty s)
            (faculty s) (course s) (group s) (financing_form s) (dormitory s)
            (end_date s) (shown (personal_email s)) (shown (personal_phone s))
            (shown (corporate_email s))).
Proof.
  split.
  - unfold print_student_info_text. rewrite !length_app, !optional_line_length.
    destruct (specialization s) as [[|? ?]|], (personal_email s) as [[|? ?]|],
      (personal_phone s) as [[|? ?]|], (corporate_email s) as [[|? ?]|];
      reflexivity.
  - unfold print_student_info_text.
    cbn [full_name record_book_number study_form preparation_level specialization
         specialty faculty course group financing_form dormitory end_date
         personal_email personal_phone corporate_email].
    rewrite !optional_line_shown. reflexivity.
Qed.
